(** * mceditlib.anvil.adapter: the Anvil world adapter, in Rocq

    A shallow embedding of [src/mceditlib/anvil/adapter.py]: the nibble codec,
    [AnvilSection], [AnvilChunkData], [AnvilWorldMetadata], the session lock
    and the parts of [AnvilWorldAdapter] that open a world, save it, list and
    select revisions, read, write and create chunks, and list, load, save and
    create players.  Python objects that are mutated in place are threaded
    through the functions explicitly; exceptions are values of [exn]. *)

From Stdlib Require Import ZArith Lia Bool.
From Stdlib.Strings Require Import Byte Ascii.
From stdpp Require Import base numbers list strings option gmap.

Local Open Scope Z_scope.

(** ** Python: exceptions and the two monads the code lives in *)

Module Py.

(** The exception classes the module raises or catches. *)
Inductive exn :=
| ValueError | IndexError | KeyError | TypeError | AttributeError
| AssertionError
| IOError (msg : string)
| SessionLockLost (msg : string)
| AnvilChunkFormatError
| PlayerNotFound
| struct_error
| zlib_error
| OtherError (msg : string).

(** [SessionLockLost] and [AnvilChunkFormatError] derive from [IOError], and
    [IOError] is an [EnvironmentError]. *)
Definition is_EnvironmentError (e : exn) : bool :=
  match e with
  | IOError _ | SessionLockLost _ | AnvilChunkFormatError => true
  | _ => false
  end.

Definition is_zlib_error (e : exn) : bool :=
  match e with zlib_error => true | _ => false end.

(** A call either returns or raises. *)
Inductive result (A : Type) :=
| Ok (a : A)
| Raise (e : exn).
Arguments Ok {A} a.
Arguments Raise {A} e.

#[export] Instance result_ret : MRet result := fun _ a => Ok a.
#[export] Instance result_bind : MBind result := fun _ _ k m =>
  match m with Ok a => k a | Raise e => Raise e end.

(** A method that mutates objects: the objects are the state [S], and the
    state reached when an exception leaves the method is kept (Python undoes
    nothing). *)
Definition M (S A : Type) : Type := S -> result A * S.

#[export] Instance M_ret {S} : MRet (M S) := fun _ a s => (Ok a, s).
#[export] Instance M_bind {S} : MBind (M S) := fun _ _ k m s =>
  match m s with
  | (Ok a, s') => k a s'
  | (Raise e, s') => (Raise e, s')
  end.

Definition raise {S A} (e : exn) : M S A := fun s => (Raise e, s).
Definition get {S} : M S S := fun s => (Ok s, s).
Definition put {S} (s : S) : M S unit := fun _ => (Ok tt, s).
Definition modify {S} (f : S -> S) : M S unit := fun s => (Ok tt, f s).
Definition lift {S A} (r : result A) : M S A := fun s => (r, s).

(** [try: m except catches: handler]. *)
Definition try_except {S A} (m : M S A) (catches : exn -> bool)
    (handler : exn -> M S A) : M S A := fun s =>
  match m s with
  | (Ok a, s') => (Ok a, s')
  | (Raise e, s') => if catches e then handler e s' else (Raise e, s')
  end.

End Py.
Import Py.

(** Python's [str]: [s[i:j]] with its clipping of indices, negative ones
    counted from the end, and [s.endswith(suffix)]. *)
Module str.

Definition clip (len i : Z) : Z :=
  if i <? 0 then Z.max 0 (len + i) else Z.min i len.

Definition slice (i j : Z) (s : string) : string :=
  let len := Z.of_nat (String.length s) in
  let a := clip len i in
  let b := clip len j in
  String.substring (Z.to_nat a) (Z.to_nat (b - a)) s.

Definition endswith (s suffix : string) : bool :=
  let n := String.length s in
  let m := String.length suffix in
  (m <=? n)%nat && String.eqb (String.substring (n - m) m s) suffix.

End str.

(** Python's [os.path], as [posixpath] has it: [basename(p)] is what follows
    the last slash of [p], and [dirname(p)] what precedes it, without its
    trailing slashes unless it consists of slashes only. *)
Module os_path.

(** [(p[:i], p[i:])] for [i = p.rfind('/') + 1]. *)
Fixpoint split_at_last_slash (p : string) : string * string :=
  match p with
  | EmptyString => (EmptyString, EmptyString)
  | String c rest =>
      let '(head, tail) := split_at_last_slash rest in
      if Ascii.eqb c "/"%char || negb (String.eqb head "")
      then (String c head, tail)
      else (EmptyString, String c tail)
  end.

Fixpoint all_slashes (s : string) : bool :=
  match s with
  | EmptyString => true
  | String c rest => Ascii.eqb c "/"%char && all_slashes rest
  end.

(** [s.rstrip('/')] *)
Fixpoint rstrip_slashes (s : string) : string :=
  match s with
  | EmptyString => EmptyString
  | String c rest =>
      let rest := rstrip_slashes rest in
      if String.eqb rest "" && Ascii.eqb c "/"%char then EmptyString else String c rest
  end.

Definition basename (p : string) : string := (split_at_last_slash p).2.

Definition dirname (p : string) : string :=
  let head := (split_at_last_slash p).1 in
  if negb (String.eqb head "") && negb (all_slashes head)
  then rstrip_slashes head
  else head.

End os_path.

(** ** numpy: the arrays the module handles

    An array is its dtype, its shape and its cells in C order, as numpy
    stores it. *)

Module np.

Inductive dtype := uint8 | uint16 | uint32.

#[export] Instance dtype_eq_dec : EqDecision dtype.
Proof. solve_decision. Defined.

Definition bits (d : dtype) : Z :=
  match d with uint8 => 8 | uint16 => 16 | uint32 => 32 end.

(** Storing an integer into a cell of type [d] keeps its low bits. *)
Definition cast (d : dtype) (z : Z) : Z := z mod 2 ^ bits d.

Record ndarray := mk_ndarray {
  dtype_of : dtype;
  shape : list nat;
  flat : list Z
}.

Definition size_of (shp : list nat) : nat := foldr Nat.mul 1%nat shp.

(** The invariant numpy keeps: as many cells as the shape says, each within
    the dtype. *)
Definition wf (a : ndarray) : Prop :=
  length (flat a) = size_of (shape a) /\
  Forall (fun z => 0 <= z < 2 ^ bits (dtype_of a)) (flat a).

(** [numpy.zeros(shape, dtype)] *)
Definition zeros (shp : list nat) (d : dtype) : ndarray :=
  mk_ndarray d shp (replicate (size_of shp) 0).

(** [a.astype(d)] and [numpy.array(a, d)]: a converted copy. *)
Definition astype (d : dtype) (a : ndarray) : ndarray :=
  mk_ndarray d (shape a) (map (cast d) (flat a)).

(** [a.shape = shp]: reshaping in place, refused when the sizes differ. *)
Definition set_shape (shp : list nat) (a : ndarray) : result ndarray :=
  if (length (flat a) =? size_of shp)%nat
  then Ok (mk_ndarray (dtype_of a) shp (flat a))
  else Raise ValueError.

(** [a >> k] and [a << k], cell by cell, in the array's own dtype. *)
Definition rshift (a : ndarray) (k : Z) : ndarray :=
  mk_ndarray (dtype_of a) (shape a) (map (fun z => Z.shiftr z k) (flat a)).
Definition lshift (a : ndarray) (k : Z) : ndarray :=
  mk_ndarray (dtype_of a) (shape a)
    (map (fun z => cast (dtype_of a) (Z.shiftl z k)) (flat a)).

(** [a |= b] for two arrays of one shape. *)
Definition ior (a b : ndarray) : result ndarray :=
  if decide (shape a = shape b)
  then Ok (mk_ndarray (dtype_of a) (shape a)
             (zip_with (fun x y => cast (dtype_of a) (Z.lor x y)) (flat a) (flat b)))
  else Raise ValueError.

(** [a.any()], and [(a == v).all()]. *)
Definition any (a : ndarray) : bool := existsb (fun z => negb (z =? 0)) (flat a).
Definition all_eq (a : ndarray) (v : Z) : bool := forallb (fun z => z =? v) (flat a).

End np.
Import np.

(** ** The nibble codec (lines 54-69) *)

(** [unpackNibbleArray]: the result has the last axis doubled.  In C order the
    cell [(i, j, l)] of a [(s0, s1, 2*s2)] array sits at [(i*s1 + j)*2*s2 + l],
    so the slice [[:, :, ::2]] is the cells at even flat positions and
    [[:, :, 1::2]] the cells at odd ones, and the cell [2*m] and [2*m+1] both
    receive the cell [m] of [dataArray]. *)
Definition unpackNibbleArray (dataArray : ndarray) : result ndarray :=
  match shape dataArray with
  | [s0; s1; s2] =>
      Ok (mk_ndarray uint8 [s0; s1; (s2 * 2)%nat]
            (flat_map (fun b =>
                         let even := Z.land (cast uint8 b) 15 in
                         let odd := Z.shiftr (cast uint8 b) 4 in
                         [even; odd])
                      (flat dataArray)))
  | [] | [_] | [_; _] => Raise IndexError
  | _ => Raise ValueError
  end.

(** The last axis of [reshape(16, 16, n/2, 2)]: consecutive cells in pairs. *)
Fixpoint pairs (l : list Z) : list (Z * Z) :=
  match l with
  | lo :: hi :: rest => (lo, hi) :: pairs rest
  | _ => []
  end.

(** [packNibbleArray]: [reshape] succeeds when [n] is even and the array has
    [16 * 16 * n] cells (the module imports true division, so for an odd [n]
    the requested axis length [n/2] is no integer).  Both in-place operations
    act on the copy that [numpy.array] made, in the dtype of [unpackedData]. *)
Definition packNibbleArray (unpackedData : ndarray) : result ndarray :=
  match shape unpackedData with
  | [s0; s1; n] =>
      if Nat.even n && (length (flat unpackedData) =? 16 * 16 * (n / 2) * 2)%nat
      then
        let d := dtype_of unpackedData in
        Ok (mk_ndarray d [16%nat; 16%nat; (n / 2)%nat]
              (map (fun '(lo, hi) =>
                      let hi := cast d (Z.shiftl hi 4) in
                      cast d (Z.lor hi lo))
                   (pairs (flat unpackedData))))
      else Raise ValueError
  | [] | [_] | [_; _] => Raise IndexError
  | _ => Raise ValueError
  end.

(** *** The codec on array objects

    The same two functions line by line, on arrays that live in a heap and are
    updated in place: what the calls allocate and what they leave alone. *)

(** The cells of the last axis at even positions ([[..., ::2]], [[..., 0]])
    and at odd positions ([[..., 1::2]], [[..., 1]]). *)
Fixpoint on_even (f : Z -> Z) (l : list Z) : list Z :=
  match l with
  | e :: o :: rest => f e :: o :: on_even f rest
  | _ => l
  end.

Fixpoint on_odd (f : Z -> Z -> Z) (l : list Z) : list Z :=
  match l with
  | e :: o :: rest => e :: f e o :: on_odd f rest
  | _ => l
  end.

Fixpoint assign_even (src dst : list Z) : list Z :=
  match src, dst with
  | s :: src', _ :: o :: dst' => s :: o :: assign_even src' dst'
  | _, _ => dst
  end.

Fixpoint assign_odd (src dst : list Z) : list Z :=
  match src, dst with
  | s :: src', e :: _ :: dst' => e :: s :: assign_odd src' dst'
  | _, _ => dst
  end.

Fixpoint take_odd (l : list Z) : list Z :=
  match l with
  | _ :: o :: rest => o :: take_odd rest
  | _ => []
  end.

Module InPlace.

Abbreviation heap := (list ndarray).
Abbreviation ref := nat.

(** A new array object. *)
Definition new (a : ndarray) : M heap ref := fun h => (Ok (length h), h ++ [a]).

Definition deref (r : ref) : M heap ndarray := fun h =>
  match h !! r with
  | Some a => (Ok a, h)
  | None => (Raise (OtherError "no such array"), h)
  end.

(** An in-place operation on the cells of [r]. *)
Definition update_cells (r : ref) (f : list Z -> list Z) : M heap unit := fun h =>
  match h !! r with
  | Some a => (Ok tt, <[r := mk_ndarray (dtype_of a) (shape a) (f (flat a))]> h)
  | None => (Raise (OtherError "no such array"), h)
  end.

(** Lines 54-62.  [numpy.empty] leaves the cells unspecified; they are zero
    here, and every one of them is assigned before the array is returned. *)
Definition unpackNibbleArray (dataArray : ref) : M heap ref :=
  a ← deref dataArray;
  match shape a with
  | [s0; s1; s2] =>
      unpackedData ← new (zeros [s0; s1; (s2 * 2)%nat] uint8);
      update_cells unpackedData (assign_even (map (cast uint8) (flat a)));;
      update_cells unpackedData (on_even (fun z => Z.land z 15));;
      update_cells unpackedData (assign_odd (map (cast uint8) (flat a)));;
      update_cells unpackedData (on_odd (fun _ z => Z.shiftr z 4));;
      mret unpackedData
  | [] | [_] | [_; _] => raise IndexError
  | _ => raise ValueError
  end.

(** Lines 65-69.  [reshape] gives a view, [numpy.array] the copy that the two
    in-place operations change; the result is a second copy. *)
Definition packNibbleArray (unpackedData : ref) : M heap ref :=
  a ← deref unpackedData;
  match shape a with
  | [s0; s1; n] =>
      if Nat.even n && (length (flat a) =? 16 * 16 * (n / 2) * 2)%nat
      then
        let d := dtype_of a in
        packedData ← new (mk_ndarray d [16%nat; 16%nat; (n / 2)%nat; 2%nat] (flat a));
        update_cells packedData (on_odd (fun _ hi => cast d (Z.shiftl hi 4)));;
        update_cells packedData (on_odd (fun lo hi => cast d (Z.lor hi lo)));;
        p ← deref packedData;
        new (mk_ndarray d [16%nat; 16%nat; (n / 2)%nat] (take_odd (flat p)))
      else raise ValueError
  | [] | [_] | [_; _] => raise IndexError
  | _ => raise ValueError
  end.

End InPlace.

(** ** nbt: the tag tree

    The tag library ([mceditlib.nbt]) lies outside [adapter.py], which uses it
    as a tree of named tags.  A compound keeps its entries in insertion
    order, and a tag holds the value it was given. *)

Module nbt.

#[warnings="-register-all"]
Inductive tag :=
| TAG_Byte (value : Z)
| TAG_Int (value : Z)
| TAG_Long (value : Z)
| TAG_String (value : string)
| TAG_Byte_Array (value : ndarray)
| TAG_Int_Array (value : ndarray)
| TAG_List (value : list tag)
| TAG_Compound (value : list (string * tag)).

Abbreviation compound := (list (string * tag)).

(** [c.get(k)], and [k in c]. *)
Fixpoint find (k : string) (c : compound) : option tag :=
  match c with
  | [] => None
  | (k', v) :: rest => if String.eqb k k' then Some v else find k rest
  end.

Definition contains (k : string) (c : compound) : bool :=
  match find k c with Some _ => true | None => false end.

(** [c[k]] *)
Definition getitem (k : string) (c : compound) : result tag :=
  match find k c with Some v => Ok v | None => Raise KeyError end.

(** [c[k] = v]: the entry is replaced where it stands, or added at the end. *)
Fixpoint setitem (k : string) (v : tag) (c : compound) : compound :=
  match c with
  | [] => [(k, v)]
  | (k', v') :: rest =>
      if String.eqb k k' then (k, v) :: rest else (k', v') :: setitem k v rest
  end.

(** [del c[k]] once the key is known to be there. *)
Fixpoint delitem (k : string) (c : compound) : compound :=
  match c with
  | [] => []
  | (k', v') :: rest =>
      if String.eqb k k' then delitem k rest else (k', v') :: delitem k rest
  end.

(** [c.pop(k)] and [c.pop(k, None)]. *)
Definition pop (k : string) (c : compound) : result (tag * compound) :=
  match find k c with
  | Some v => Ok (v, delitem k c)
  | None => Raise KeyError
  end.

Definition pop_default (k : string) (c : compound) : option tag * compound :=
  match find k c with
  | Some v => (Some v, delitem k c)
  | None => (None, c)
  end.

(** [t.value], read where the module goes on to use it as an integer, a
    list or a compound; a tag of another kind is a [TypeError] here (Python
    would fail at the first use of the value). *)
Definition int_value (t : tag) : result Z :=
  match t with
  | TAG_Byte v | TAG_Int v | TAG_Long v => Ok v
  | _ => Raise TypeError
  end.

(** [t.value] where the module goes on with [.astype(...)] or [.shape = ...]:
    only an array has these, and the value of a tag of another kind raises
    [AttributeError] there. *)
Definition array_value (t : tag) : result ndarray :=
  match t with
  | TAG_Byte_Array a | TAG_Int_Array a => Ok a
  | _ => Raise AttributeError
  end.

Definition list_value (t : tag) : result (list tag) :=
  match t with
  | TAG_List l => Ok l
  | _ => Raise TypeError
  end.

Definition compound_value (t : tag) : result compound :=
  match t with
  | TAG_Compound c => Ok c
  | _ => Raise TypeError
  end.

End nbt.
Import nbt.

(** ** AnvilSection (lines 104-175)

    The grids are held by value: every array that passes between a section
    and a tag is a copy ([astype], [numpy.array], the results of the codec).
    [old_section_tag] is the one tag object the section keeps: [buildNBTTag]
    writes into it and returns it, so what one call stored is there at the
    next. *)

Module AnvilSection.

Record t := mk {
  Y : Z;
  Blocks : ndarray;
  Data : ndarray;
  SkyLight : ndarray;
  BlockLight : ndarray;
  old_section_tag : compound
}.

(** Lines 131-134, for one name. *)
Definition load_nibbles (name : string) (section_tag : compound)
  : result (ndarray * compound) :=
  '(t, section_tag) ← pop name section_tag;
  section_array ← array_value t;
  section_array ← set_shape [16; 16; 8]%nat section_array;
  unpacked ← unpackNibbleArray section_array;
  mret (unpacked, section_tag).

Definition _load (section_tag : compound) : result t :=
  '(y, section_tag) ← pop "Y" section_tag;
  Y ← int_value y;
  '(b, section_tag) ← pop "Blocks" section_tag;
  b ← array_value b;
  Blocks ← set_shape [16; 16; 16]%nat (astype uint16 b);
  '(Data, section_tag) ← load_nibbles "Data" section_tag;
  '(SkyLight, section_tag) ← load_nibbles "SkyLight" section_tag;
  '(BlockLight, section_tag) ← load_nibbles "BlockLight" section_tag;
  let '(tag, section_tag) := pop_default "Add" section_tag in
  Blocks ← match tag with
           | None => mret Blocks
           | Some tag =>
               a ← array_value tag;
               a ← set_shape [16; 16; 8]%nat a;
               add ← unpackNibbleArray a;
               ior Blocks (lshift (astype uint16 add) 8)
           end;
  mret (mk Y Blocks Data SkyLight BlockLight section_tag).

Definition _create : t :=
  let shape := [16; 16; 16]%nat in
  mk 0 (zeros shape uint16) (zeros shape uint8) (zeros shape uint8)
     (zeros shape uint8) [].

(** [AnvilSection(section_tag)]: an empty compound is as false as [None]. *)
Definition __init__ (section_tag : option compound) : result t :=
  match section_tag with
  | Some ((_ :: _) as section_tag) => _load section_tag
  | _ => mret _create
  end.

(** Returns the tag together with the section, whose [old_section_tag] is
    that same tag.  Nothing is written before the last call that can raise. *)
Definition buildNBTTag (self : t) : result (compound * t) :=
  let section_tag := old_section_tag self in
  let Blocks := Blocks self in
  Data ← packNibbleArray (Data self);
  BlockLight ← packNibbleArray (BlockLight self);
  SkyLight ← packNibbleArray (SkyLight self);
  let add := rshift Blocks 8 in
  section_tag ← (if any add
                 then packed ← packNibbleArray add;
                      mret (setitem "Add" (TAG_Byte_Array (astype uint8 packed)) section_tag)
                 else mret section_tag);
  let section_tag := setitem "Blocks" (TAG_Byte_Array (astype uint8 Blocks)) section_tag in
  let section_tag := setitem "Data" (TAG_Byte_Array Data) section_tag in
  let section_tag := setitem "BlockLight" (TAG_Byte_Array BlockLight) section_tag in
  let section_tag := setitem "SkyLight" (TAG_Byte_Array SkyLight) section_tag in
  let section_tag := setitem "Y" (TAG_Byte (Y self)) section_tag in
  mret (section_tag,
        mk (Y self) Blocks (AnvilSection.Data self) (AnvilSection.SkyLight self)
           (AnvilSection.BlockLight self) section_tag).

End AnvilSection.

(** ** AnvilChunkData (lines 178-328) *)

(** [AnvilWorldAdapter.minHeight] and [maxHeight], the class attributes the
    chunk reads through [self.adapter] (lines 371-372). *)
Definition minHeight : Z := 0.
Definition maxHeight : Z := 256.

Module AnvilChunkData.

Record t := mk {
  cx : Z;
  cz : Z;
  dimName : string;
  rootTag : compound;
  dirty : bool;
  _sections : gmap Z AnvilSection.t;
  Entities : list tag;
  TileEntities : list tag
}.

Definition set_sections (f : gmap Z AnvilSection.t -> gmap Z AnvilSection.t) (self : t) : t :=
  mk (cx self) (cz self) (dimName self) (rootTag self) (dirty self)
     (f (_sections self)) (Entities self) (TileEntities self).

(** Lines 219-238: the root tag of a fresh chunk. *)
Definition _create (cx cz : Z) : compound :=
  let levelTag : compound := [] in
  let levelTag := setitem "HeightMap" (TAG_Int_Array (zeros [16; 16]%nat uint32)) levelTag in
  let levelTag := setitem "TerrainPopulated" (TAG_Byte 1) levelTag in
  let levelTag := setitem "xPos" (TAG_Int cx) levelTag in
  let levelTag := setitem "zPos" (TAG_Int cz) levelTag in
  let levelTag := setitem "LastUpdate" (TAG_Long 0) levelTag in
  let levelTag := setitem "Entities" (TAG_List []) levelTag in
  let levelTag := setitem "TileEntities" (TAG_List []) levelTag in
  [("Level", TAG_Compound levelTag)].

(** Lines 243-245: the loop over the stored sections. *)
Fixpoint load_sections (secs : list tag) (sections : gmap Z AnvilSection.t)
  : result (gmap Z AnvilSection.t) :=
  match secs with
  | [] => mret sections
  | sec :: rest =>
      sec ← compound_value sec;
      y ← getitem "Y" sec ≫= int_value;
      section ← AnvilSection.__init__ (Some sec);
      load_sections rest (<[y := section]> sections)
  end.

Definition _load (rootTag : compound)
  : result (compound * gmap Z AnvilSection.t) :=
  level ← getitem "Level" rootTag ≫= compound_value;
  let '(secs, level) := pop_default "Sections" level in
  secs ← match secs with
         | None => mret []
         | Some secs => list_value secs
         end;
  sections ← load_sections secs ∅;
  mret (setitem "Level" (TAG_Compound level) rootTag, sections).

(** The fill of a missing [Biomes]: [-1] stored in unsigned bytes. *)
Definition default_biomes : ndarray :=
  mk_ndarray uint8 [16; 16]%nat (replicate 256 (cast uint8 (-1))).

Definition __init__ (cx cz : Z) (dimName : string)
    (rootTag : option compound) (create : bool) : result t :=
  '(rootTag, sections, dirty) ←
     (if create then mret (_create cx cz, ∅, true)
      else match rootTag with
           | Some rootTag => '(rootTag, sections) ← _load rootTag;
                             mret (rootTag, sections, false)
           | None => Raise TypeError
           end);
  levelTag ← getitem "Level" rootTag ≫= compound_value;
  let levelTag :=
    if contains "Biomes" levelTag then levelTag
    else setitem "Biomes" (TAG_Byte_Array default_biomes) levelTag in
  Entities ← getitem "Entities" levelTag ≫= list_value;
  let levelTag := delitem "Entities" levelTag in
  TileEntities ← getitem "TileEntities" levelTag ≫= list_value;
  let levelTag := delitem "TileEntities" levelTag in
  mret (mk cx cz dimName (setitem "Level" (TAG_Compound levelTag) rootTag)
           dirty sections Entities TileEntities).

(** The test of lines 257-259: nothing but air, unlit, under open sky. *)
Definition elided (section : AnvilSection.t) : bool :=
  negb (any (AnvilSection.Blocks section))
  && negb (any (AnvilSection.BlockLight section))
  && all_eq (AnvilSection.SkyLight section) 15.

(** Lines 255-263.  [items] is what [iteritems] yields; building a section's
    tag changes that section, which stays where it is in [_sections]. *)
Fixpoint build_sections (items : list (Z * AnvilSection.t)) (sections : list tag)
  : M t (list tag) :=
  match items with
  | [] => mret sections
  | (cy, section) :: rest =>
      if elided section then build_sections rest sections
      else
        '(tag, section) ← lift (AnvilSection.buildNBTTag section);
        modify (set_sections (insert cy section));;
        build_sections rest (sections ++ [TAG_Compound tag])
  end.

Definition buildNBTTag : M t compound :=
  self ← get;
  let tag := rootTag self in
  sections ← build_sections (map_to_list (_sections self)) [];
  self ← get;
  level ← lift (getitem "Level" tag ≫= compound_value);
  let level := setitem "Sections" (TAG_List sections) level in
  let level := setitem "Entities" (TAG_List (Entities self)) level in
  let level := setitem "TileEntities" (TAG_List (TileEntities self)) level in
  mret (setitem "Level" (TAG_Compound level) tag).

Definition sectionPositions (self : t) : list Z :=
  (map_to_list (_sections self)).*1.

Definition getSection (cy : Z) (create : bool) : M t (option AnvilSection.t) :=
  if (Z.shiftl cy 4 >? maxHeight) || (cy <? 0)
  then if create then raise ValueError else mret None
  else
    self ← get;
    match _sections self !! cy with
    | Some section => mret (Some section)
    | None =>
        if negb create then mret None
        else
          let section := AnvilSection._create in
          let section :=
            AnvilSection.mk cy (AnvilSection.Blocks section) (AnvilSection.Data section)
              (AnvilSection.SkyLight section) (AnvilSection.BlockLight section)
              (AnvilSection.old_section_tag section) in
          modify (set_sections (insert cy section));;
          mret (Some section)
    end.

End AnvilChunkData.

(** ** struct: the eight bytes of the session lock *)

Module struct.

Definition byte_of_Z (z : Z) : byte :=
  match Byte.of_N (Z.to_N (z mod 256)) with
  | Some b => b
  | None => x00
  end.

Definition Z_of_byte (b : byte) : Z := Z.of_N (Byte.to_N b).

(** The [n] low-order bytes of [u], most significant first. *)
Fixpoint be_bytes (n : nat) (u : Z) : list byte :=
  match n with
  | O => []
  | S n => be_bytes n (u / 256) ++ [byte_of_Z u]
  end.

Definition be_value (s : list byte) : Z :=
  fold_left (fun acc b => acc * 256 + Z_of_byte b) s 0.

(** [struct.pack(">q", v)]: refused outside the signed 64-bit range. *)
Definition pack_q (v : Z) : result (list byte) :=
  if (- 2 ^ 63 <=? v) && (v <? 2 ^ 63)
  then Ok (be_bytes 8 (v mod 2 ^ 64))
  else Raise struct_error.

(** [struct.unpack(">q", s)]: refused unless [s] has exactly 8 bytes. *)
Definition unpack_q (s : list byte) : result Z :=
  if (length s =? 8)%nat
  then let u := be_value s in
       Ok (if u <? 2 ^ 63 then u else u - 2 ^ 64)
  else Raise struct_error.

End struct.

(** ** The stores behind the adapter

    [RevisionHistory] (and [AnvilWorldFolder], which a read-only adapter uses
    in its place and which is taken to answer the same calls) and the
    serialisation of tags lie outside [adapter.py].  The adapter is modelled
    over any implementation of the calls it makes.  A revision is a handle
    into the state of the store. *)

Class RevisionStore (History Node Changes : Type) := {
  getHead : History -> Node;
  nodes : History -> list Node;
  getRevision : History -> Z -> Node;
  getRevisionChanges : History -> Node -> Node -> Changes;
  writeAllChanges : Node -> M History unit;
  readFile : History -> Node -> string -> result (list byte);
  writeFile : Node -> string -> list byte -> M History unit;
  containsFile : History -> Node -> string -> bool
}.

(** [nbt.load(buf=...)], [tag.save()] and [nbtattr.SetNBTDefaults]. *)
Class TagFormat := {
  nbt_load : list byte -> result compound;
  nbt_save : compound -> list byte;
  SetNBTDefaults : compound -> compound
}.

(** The chunk and folder calls of a revision, and the info attached to one. *)
Class ChunkStore (History Node Info : Type) := {
  containsChunk : History -> Node -> Z -> Z -> string -> bool;
  readChunkBytes : History -> Node -> Z -> Z -> string -> result (list byte);
  writeChunkBytes : Node -> Z -> Z -> string -> list byte -> M History unit;
  listFolder : History -> Node -> string -> list string;
  getRevisionInfo : History -> Node -> Info
}.

(** [tag.save(compressed=False)] *)
Class ChunkFormat := {
  nbt_save_uncompressed : compound -> list byte
}.

(** ** AnvilWorldMetadata (lines 333-360) *)

Definition VERSION_MCR : Z := 19132.
Definition VERSION_ANVIL : Z := 19133.

Module AnvilWorldMetadata.

(** [rootTag] is the [Data] compound inside [metadataTag], the same object:
    it is read and written through [metadataTag]. *)
Record t := mk {
  metadataTag : compound;
  dirty : bool
}.

Definition __init__ (metadataTag : compound) : result t :=
  _ ← getitem "Data" metadataTag;
  mret (mk metadataTag false).

Definition rootTag (self : t) : result compound :=
  getitem "Data" (metadataTag self) ≫= compound_value.

Definition set_rootTag (root : compound) (self : t) : t :=
  mk (setitem "Data" (TAG_Compound root) (metadataTag self)) (dirty self).

(** Modelled from the spec: the typed fields of [nbtattr.NBTAttr], a module
    outside [adapter.py].  Reading a field gives the value under its key,
    or the default when the key is absent; writing it stores the value and
    marks the metadata dirty. *)
Definition NBTAttr_get (name : string) (default : Z) (self : t) : result Z :=
  root ← rootTag self;
  match find name root with
  | Some v => int_value v
  | None => mret default
  end.

Definition NBTAttr_set (name : string) (value : tag) (self : t) : result t :=
  root ← rootTag self;
  mret (mk (setitem "Data" (TAG_Compound (setitem name value root)) (metadataTag self))
           true).

Definition version (self : t) : result Z := NBTAttr_get "version" VERSION_ANVIL self.

(** Lines 355-360.  [zip] stops at the shorter of the three names and [pos]. *)
Definition worldSpawnPosition (self : t) : result (Z * Z * Z) :=
  root ← rootTag self;
  x ← getitem "SpawnX" root ≫= int_value;
  y ← getitem "SpawnY" root ≫= int_value;
  z ← getitem "SpawnZ" root ≫= int_value;
  mret (x, y, z).

Definition setWorldSpawnPosition (pos : list Z) (self : t) : result t :=
  fold_left
    (fun acc '(name, val) =>
       self ← acc;
       root ← rootTag self;
       mret (set_rootTag (setitem name (TAG_Int val) root) self))
    (zip ["SpawnX"; "SpawnY"; "SpawnZ"] pos) (Ok self).

End AnvilWorldMetadata.

(** ** AnvilWorldAdapter (lines 363-844) *)

Module AnvilWorldAdapter.

(** What the file system holds at the world's path once [__init__] has
    resolved it (lines 401-402 strip a trailing [level.dat]). *)
Inductive folder := Missing | IsFile | IsDir.

Definition isdir (p : folder) : bool :=
  match p with IsDir => true | _ => false end.

(** An argument of [AnvilPlayerRef(...)]: Python passes objects of any class. *)
Inductive pyobj :=
| PyTag (t : compound)
| PyAdapter
| PyStr (s : string).

(** The tag object that a player reference holds.  For the single player
    it is the [Player] compound inside the metadata, that very object (lines
    790-793): what is written into it is written into the metadata, and it is
    read there.  For a named player it is a tag of the reference's own,
    decoded from the player's file. *)
Inductive player_tag :=
| ThePlayerEntry
| OwnTag (t : compound).

(** [AnvilPlayerRef] (lines 855-860). *)
Record AnvilPlayerRef := mk_player {
  playerUUID : string;
  player_rootTag : player_tag;
  player_dirty : bool
}.

Section Adapter.

Context {History Node Changes : Type}.
Context `{!RevisionStore History Node Changes} `{!TagFormat}.

(** Everything outside the adapter object: the folder, the [session.lock]
    file in it, and the state of the store. *)
Record World := mk_world {
  path : folder;
  level_dat_on_disk : bool;
  session_lock : option (list byte);
  history : History
}.

(** The adapter object.  [metadata] is [None] until [__init__] assigns it. *)
Record t := mk {
  filename : string;
  readonly : bool;
  lockTime : Z;
  selectedRevision : Node;
  metadata : option AnvilWorldMetadata.t
}.

Definition state : Type := t * World.

Definition set_lockTime (v : Z) (self : t) : t :=
  mk (filename self) (readonly self) v (selectedRevision self) (metadata self).
Definition set_selectedRevision (r : Node) (self : t) : t :=
  mk (filename self) (readonly self) (lockTime self) r (metadata self).
Definition set_metadata (m : AnvilWorldMetadata.t) (self : t) : t :=
  mk (filename self) (readonly self) (lockTime self) (selectedRevision self) (Some m).
Definition set_session_lock (s : list byte) (w : World) : World :=
  mk_world (path w) (level_dat_on_disk w) (Some s) (history w).
Definition set_history (h : History) (w : World) : World :=
  mk_world (path w) (level_dat_on_disk w) (session_lock w) h.

(** A call on the store, inside a method of the adapter. *)
Definition on_store {A} (m : M History A) : M state A := fun '(self, w) =>
  let '(r, h) := m (history w) in (r, (self, set_history h w)).

Definition self_metadata : M state AnvilWorldMetadata.t :=
  '(self, _) ← get;
  match metadata self with
  | Some m => mret m
  | None => raise AttributeError
  end.

(** *** The session lock (lines 599-630) *)

(** [now] is [int(time.time() * 1000)].  Opening the file for writing empties
    it before [struct.pack] runs. *)
Definition acquireSessionLock (now : Z) : M state unit :=
  modify (fun '(self, w) => (set_lockTime now self, w));;
  modify (fun '(self, w) => (self, set_session_lock [] w));;
  packed ← lift (struct.pack_q now);
  modify (fun '(self, w) => (self, set_session_lock packed w)).

Definition checkSessionLock : M state unit :=
  '(self, w) ← get;
  if readonly self then raise (SessionLockLost "World is opened read only.")
  else
    match session_lock w with
    | None => raise (IOError "No such file or directory")
    | Some contents =>
        let lock := match struct.unpack_q contents with
                    | Ok lock => lock
                    | Raise _ => -1
                    end in
        if negb (lock =? lockTime self)
        then raise (SessionLockLost
                      "Session lock lost. This world is being accessed from another location.")
        else mret tt
    end.

(** *** Create, save (lines 456-507) *)

(** [last_played] is [long(time.time() * 1000)] and [random_seed] the seed
    drawn at line 473. *)
Definition _createMetadataTag (last_played random_seed : Z) : M state unit :=
  '(self, _) ← get;
  let data : compound := [] in
  let data := setitem "SpawnX" (TAG_Int 0) data in
  let data := setitem "SpawnY" (TAG_Int 2) data in
  let data := setitem "SpawnZ" (TAG_Int 0) data in
  let data := setitem "version" (TAG_Int VERSION_ANVIL) data in
  let metadataTag : compound := [("Data", TAG_Compound data)] in
  m ← lift (AnvilWorldMetadata.__init__ metadataTag);
  modify (fun '(self, w) => (set_metadata m self, w));;
  m ← lift (AnvilWorldMetadata.NBTAttr_set "LastPlayed" (TAG_Long last_played) m);
  modify (fun '(self, w) => (set_metadata m self, w));;
  m ← lift (AnvilWorldMetadata.NBTAttr_set "RandomSeed" (TAG_Long random_seed) m);
  modify (fun '(self, w) => (set_metadata m self, w));;
  m ← lift (AnvilWorldMetadata.NBTAttr_set "SizeOnDisk" (TAG_Long 0) m);
  modify (fun '(self, w) => (set_metadata m self, w));;
  m ← lift (AnvilWorldMetadata.NBTAttr_set "Time" (TAG_Long 1) m);
  modify (fun '(self, w) => (set_metadata m self, w));;
  m ← lift (AnvilWorldMetadata.NBTAttr_set "LevelName"
              (TAG_String (os_path.basename (filename self))) m);
  modify (fun '(self, w) => (set_metadata m self, w)).

Definition syncToDisk : M state unit :=
  m ← self_metadata;
  if AnvilWorldMetadata.dirty m
  then
    '(self, _) ← get;
    on_store (writeFile (selectedRevision self) "level.dat"
                (nbt_save (AnvilWorldMetadata.metadataTag m)));;
    modify (fun '(self, w) =>
              (set_metadata (AnvilWorldMetadata.mk (AnvilWorldMetadata.metadataTag m) false) self, w))
  else mret tt.

Definition saveChanges : M state unit :=
  '(self, _) ← get;
  if readonly self then raise (IOError "World is opened read only.")
  else
    checkSessionLock;;
    '(self, _) ← get;
    on_store (writeAllChanges (selectedRevision self));;
    modify (fun '(self, w) => (set_selectedRevision (getHead (history w)) self, w)).

(** *** Revisions (lines 567-584) *)

Definition selectRevision (index : Z) : M state (option Changes) :=
  '(self, w) ← get;
  if (index <? 0) || (index >=? Z.of_nat (length (nodes (history w))))
  then mret None
  else
    let newRevision := getRevision (history w) index in
    let changes := getRevisionChanges (history w) (selectedRevision self) newRevision in
    modify (fun '(self, w) => (set_selectedRevision newRevision self, w));;
    mret (Some changes).

(** *** Opening a world (lines 378-449) *)

(** [nbt.load(buf=self.selectedRevision.readFile(name))], then
    [self.metadata = AnvilWorldMetadata(metadataTag)]. *)
Definition load_metadata (name : string) : M state unit :=
  '(self, w) ← get;
  buf ← lift (readFile (history w) (selectedRevision self) name);
  metadataTag ← lift (nbt_load buf);
  m ← lift (AnvilWorldMetadata.__init__ metadataTag);
  modify (fun '(self, w) => (set_metadata m self, w)).

(** Lines 401-402: a path to [level.dat] or [level.dat_old] stands for the
    folder that holds it. *)
Definition resolve (filename : string) : string :=
  if String.eqb (os_path.basename filename) "level.dat"
     || String.eqb (os_path.basename filename) "level.dat_old"
  then os_path.dirname filename
  else filename.

(** The clock and the random generator, as [__init__] reads them. *)
Record Env := mk_env {
  lock_now : Z;
  last_played : Z;
  random_seed : Z
}.

Definition __init__ (filename : string) (create readonly : bool) (env : Env)
  : M World t := fun w =>
  if create && readonly then (Raise AssertionError, w)
  else
    let check : result World :=
      match path w with
      | Missing =>
          if negb create then Raise (IOError "File not found")
          else Ok (mk_world IsDir (level_dat_on_disk w) (session_lock w) (history w))
      | p =>
          if create && (negb (isdir p) || level_dat_on_disk w)
          then Raise (IOError "File exists!")
          else Ok w
      end in
    match check with
    | Raise e => (Raise e, w)
    | Ok w =>
        if negb (isdir (path w))
        then (Raise (IOError "File is not a Minecraft Anvil world"), w)
        else
          let self := mk (resolve filename) readonly 0 (getHead (history w)) None in
          let body : M state unit :=
            (if negb readonly then acquireSessionLock (lock_now env) else mret tt);;
            (if create
             then
               _createMetadataTag (last_played env) (random_seed env);;
               m ← self_metadata;
               '(self, _) ← get;
               on_store (writeFile (selectedRevision self) "level.dat"
                           (nbt_save (AnvilWorldMetadata.metadataTag m)))
             else
               try_except (load_metadata "level.dat")
                 (fun e => is_EnvironmentError e || is_zlib_error e)
                 (fun _ =>
                    try_except (load_metadata "level.dat_old";; saveChanges)
                      (fun _ => true)
                      (fun _ => _createMetadataTag (last_played env) (random_seed env))));;
            m ← self_metadata;
            v ← lift (AnvilWorldMetadata.version m);
            if negb (v =? VERSION_ANVIL) then raise AssertionError else mret tt in
          match body (self, w) with
          | (Ok _, (self, w)) => (Ok self, w)
          | (Raise e, (_, w)) => (Raise e, w)
          end
    end.

(** *** Players (lines 777-844) *)

Definition playerFilePath (playerUUID : string) : string :=
  "playerdata/" +:+ playerUUID +:+ ".dat".

Definition getPlayerTag (playerUUID : string) : M state compound :=
  if String.eqb playerUUID ""
  then
    m ← self_metadata;
    root ← lift (AnvilWorldMetadata.rootTag m);
    if contains "Player" root
    then lift (getitem "Player" root ≫= compound_value)
    else raise PlayerNotFound
  else
    '(self, w) ← get;
    if containsFile (history w) (selectedRevision self) (playerFilePath playerUUID)
    then
      buf ← lift (readFile (history w) (selectedRevision self) (playerFilePath playerUUID));
      lift (nbt_load buf)
    else raise PlayerNotFound.

(** [AnvilPlayerRef(adapter, playerUUID)]: the constructor calls
    [adapter.getPlayerTag(playerUUID)] on whatever its first argument is.
    Only an adapter has that method.  What [getPlayerTag] returns for the
    single player is the [Player] entry of the metadata itself. *)
Definition AnvilPlayerRef__init__ (adapter playerUUID : pyobj) : M state AnvilPlayerRef :=
  match adapter with
  | PyAdapter =>
      match playerUUID with
      | PyStr playerUUID =>
          rootTag ← getPlayerTag playerUUID;
          mret (mk_player playerUUID
                  (if String.eqb playerUUID "" then ThePlayerEntry else OwnTag rootTag)
                  false)
      | _ => raise PlayerNotFound
      end
  | PyTag _ | PyStr _ => raise AttributeError
  end.

(** [self.rootTag] of a player reference, as it reads now. *)
Definition AnvilPlayerRef_rootTag (self : AnvilPlayerRef) : M state compound :=
  match player_rootTag self with
  | OwnTag t => mret t
  | ThePlayerEntry =>
      m ← self_metadata;
      root ← lift (AnvilWorldMetadata.rootTag m);
      lift (getitem "Player" root ≫= compound_value)
  end.

(** [self.rootTag[name] = value] on a player reference. *)
Definition AnvilPlayerRef_setitem (name : string) (value : tag) (self : AnvilPlayerRef)
  : M state AnvilPlayerRef :=
  match player_rootTag self with
  | OwnTag t =>
      mret (mk_player (playerUUID self) (OwnTag (setitem name value t)) (player_dirty self))
  | ThePlayerEntry =>
      m ← self_metadata;
      root ← lift (AnvilWorldMetadata.rootTag m);
      player ← lift (getitem "Player" root ≫= compound_value);
      let root := setitem "Player" (TAG_Compound (setitem name value player)) root in
      modify (fun '(self, w) =>
                (set_metadata (AnvilWorldMetadata.set_rootTag root m) self, w));;
      mret self
  end.

(** The [Spawn] property of a player reference (lines 916-923). *)
Definition Spawn (self : AnvilPlayerRef) : M state (list Z) :=
  rootTag ← AnvilPlayerRef_rootTag self;
  x ← lift (getitem "SpawnX" rootTag ≫= int_value);
  y ← lift (getitem "SpawnY" rootTag ≫= int_value);
  z ← lift (getitem "SpawnZ" rootTag ≫= int_value);
  mret [x; y; z].

Definition set_Spawn (pos : list Z) (self : AnvilPlayerRef) : M state AnvilPlayerRef :=
  fold_left
    (fun acc '(name, val) =>
       self ← acc;
       AnvilPlayerRef_setitem name (TAG_Int val) self)
    (zip ["SpawnX"; "SpawnY"; "SpawnZ"] pos) (mret self).

Definition getPlayer (playerUUID : string) : M state AnvilPlayerRef :=
  AnvilPlayerRef__init__ PyAdapter (PyStr playerUUID).

Definition savePlayerTag (tag : compound) (playerUUID : string) : M state unit :=
  if String.eqb playerUUID ""
  then
    m ← self_metadata;
    modify (fun '(self, w) =>
              (set_metadata (AnvilWorldMetadata.mk (AnvilWorldMetadata.metadataTag m) true) self, w))
  else
    '(self, _) ← get;
    on_store (writeFile (selectedRevision self) (playerFilePath playerUUID) (nbt_save tag)).

(** Lines 840-844, once [player] is there. *)
Definition createPlayer_persist (playerUUID : string) (player : AnvilPlayerRef)
  : M state AnvilPlayerRef :=
  rootTag ← AnvilPlayerRef_rootTag player;
  let playerTag := SetNBTDefaults rootTag in
  (if negb (String.eqb playerUUID "Player")
   then
     checkSessionLock;;
     '(self, _) ← get;
     on_store (writeFile (selectedRevision self) (playerFilePath playerUUID)
                 (nbt_save playerTag))
   else mret tt);;
  getPlayer playerUUID.

Definition createPlayer (playerUUID : string) : M state AnvilPlayerRef :=
  '(self, w) ← get;
  if readonly self then raise (IOError "World is opened read only.")
  else
    playerTag ←
      (if String.eqb playerUUID ""
       then
         m ← self_metadata;
         root ← lift (AnvilWorldMetadata.rootTag m);
         data ← lift (getitem "Data" root ≫= compound_value);
         if contains "Player" data
         then raise (IOError "Single-player player already exists.")
         else
           let playerTag : compound := [] in
           let data := setitem "Player" (TAG_Compound playerTag) data in
           let root := setitem "Data" (TAG_Compound data) root in
           modify (fun '(self, w) =>
                     (set_metadata (AnvilWorldMetadata.set_rootTag root m) self, w));;
           mret playerTag
       else
         if containsFile (history w) (selectedRevision self) (playerFilePath playerUUID)
         then raise ValueError
         else mret []);
    player ← AnvilPlayerRef__init__ (PyTag playerTag) PyAdapter;
    createPlayer_persist playerUUID player.

(** [AnvilPlayerRef.save] (lines 925-928): the reference after the call. *)
Definition AnvilPlayerRef_save (self : AnvilPlayerRef) : M state AnvilPlayerRef :=
  if player_dirty self
  then
    rootTag ← AnvilPlayerRef_rootTag self;
    savePlayerTag rootTag (playerUUID self);;
    mret (mk_player (playerUUID self) (player_rootTag self) false)
  else mret self.

(** *** Revisions, chunks and the list of players
    (lines 586-595 and 705-775) *)

Context {Info : Type} `{!ChunkStore History Node Info} `{!ChunkFormat}.

(** What the generator yields when it is run to its end. *)
Definition listRevisions : M state (list (Z * Info)) :=
  '(self, w) ← get;
  mret (imap (fun ID node => (Z.of_nat ID, getRevisionInfo (history w) node))
          (nodes (history w))).

Definition readChunk (cx cz : Z) (dimName : string) : M state AnvilChunkData.t :=
  try_except
    ('(self, w) ← get;
     data ← lift (readChunkBytes (history w) (selectedRevision self) cx cz dimName);
     chunkTag ← lift (nbt_load data);
     lift (AnvilChunkData.__init__ cx cz dimName (Some chunkTag) false))
    (fun e => match e with KeyError | IndexError | zlib_error => true | _ => false end)
    (fun _ => raise AnvilChunkFormatError).

(** The chunk is an object of its own, changed by its [buildNBTTag]. *)
Definition writeChunk : M (AnvilChunkData.t * state) unit := fun '(chunk, st) =>
  match AnvilChunkData.buildNBTTag chunk with
  | (Raise e, chunk) => (Raise e, (chunk, st))
  | (Ok tag, chunk) =>
      let '(r, st) :=
        on_store (writeChunkBytes (selectedRevision st.1) (AnvilChunkData.cx chunk)
                    (AnvilChunkData.cz chunk) (AnvilChunkData.dimName chunk)
                    (nbt_save_uncompressed tag)) st in
      (r, (chunk, st))
  end.

Definition createChunk (cx cz : Z) (dimName : string) : M state AnvilChunkData.t :=
  '(self, w) ← get;
  if containsChunk (history w) (selectedRevision self) cx cz dimName
  then raise ValueError
  else
    chunk ← lift (AnvilChunkData.__init__ cx cz dimName None true);
    let '(tag, chunk) := AnvilChunkData.buildNBTTag chunk in
    tag ← lift tag;
    on_store (writeChunkBytes (selectedRevision self) cx cz dimName
                (nbt_save_uncompressed tag));;
    mret chunk.

(** What the generator yields when it is run to its end: the names from the
    [playerdata] folder, then the single player. *)
Definition listPlayers : M state (list string) :=
  '(self, w) ← get;
  let names :=
    map (str.slice 11 (-4))
      (List.filter (fun f => str.endswith f ".dat")
         (listFolder (history w) (selectedRevision self) "playerdata")) in
  m ← self_metadata;
  root ← lift (AnvilWorldMetadata.rootTag m);
  mret (names ++ if contains "Player" root then [""] else []).

End Adapter.

End AnvilWorldAdapter.

(** ** A store in memory, for running the adapter on sample worlds

    One revision, whose files are a list of names and contents; writing all
    changes through is counted.  The tag format of the samples knows one
    encoded record, the bytes [sample_bytes] for [sample_metadata]; any other
    bytes fail to decompress. *)

Module MemStore.

Record t := mk {
  files : list (string * list byte);
  written_through : nat
}.

Fixpoint file (name : string) (fs : list (string * list byte)) : option (list byte) :=
  match fs with
  | [] => None
  | (n, contents) :: rest => if String.eqb name n then Some contents else file name rest
  end.

#[global] Instance store : RevisionStore t unit unit := {|
  getHead _ := tt;
  nodes _ := [tt];
  getRevision _ _ := tt;
  getRevisionChanges _ _ _ := tt;
  writeAllChanges _ := fun h => (Ok tt, mk (files h) (S (written_through h)));
  readFile h _ name :=
    match file name (files h) with
    | Some contents => Ok contents
    | None => Raise (IOError "No such file or directory")
    end;
  writeFile _ name contents := fun h =>
    (Ok tt, mk ((name, contents) :: files h) (written_through h));
  containsFile h _ name :=
    match file name (files h) with Some _ => true | None => false end
|}.

Definition sample_metadata : compound :=
  [("Data", TAG_Compound [("version", TAG_Int VERSION_ANVIL);
                          ("LevelName", TAG_String "Backup");
                          ("RandomSeed", TAG_Long 42)])].

Definition sample_bytes : list byte := [x0a; x00; x00].

#[global] Instance format : TagFormat := {|
  nbt_load buf :=
    match buf with
    | [x0a; x00; x00] => Ok sample_metadata
    | _ => Raise zlib_error
    end;
  nbt_save _ := sample_bytes;
  SetNBTDefaults c := c
|}.

End MemStore.

(** ** Invariants and ranges *)

(** A grid as the section holds it: 16x16x16 cells of the given dtype. *)
Definition grid_ok (d : dtype) (a : ndarray) : Prop :=
  wf a /\ dtype_of a = d /\ shape a = [16; 16; 16]%nat.

(** All cells at most [hi]. *)
Definition cells_le (hi : Z) (a : ndarray) : Prop :=
  Forall (fun z => 0 <= z <= hi) (flat a).

(** What [_create] and [_load] establish for the four grids. *)
Definition section_ok (s : AnvilSection.t) : Prop :=
  grid_ok uint16 (AnvilSection.Blocks s) /\
  grid_ok uint8 (AnvilSection.Data s) /\
  grid_ok uint8 (AnvilSection.SkyLight s) /\
  grid_ok uint8 (AnvilSection.BlockLight s).

(** The declared ranges: block IDs of 12 bits, the rest of 4 bits. *)
Definition section_in_range (s : AnvilSection.t) : Prop :=
  cells_le 4095 (AnvilSection.Blocks s) /\
  cells_le 15 (AnvilSection.Data s) /\
  cells_le 15 (AnvilSection.SkyLight s) /\
  cells_le 15 (AnvilSection.BlockLight s).

(** The cells of the two codec functions, for stating what a call returns. *)
Definition packed_cells (d : dtype) (cells : list Z) : list Z :=
  map (fun '(lo, hi) => cast d (Z.lor (cast d (Z.shiftl hi 4)) lo)) (pairs cells).

Definition unpacked_cells (cells : list Z) : list Z :=
  flat_map (fun b => [Z.land (cast uint8 b) 15; Z.shiftr (cast uint8 b) 4]) cells.

(** [packNibbleArray] of a 16x16x16 grid, and [unpackNibbleArray] of a
    16x16x8 one. *)
Definition packed (u : ndarray) : ndarray :=
  mk_ndarray (dtype_of u) [16; 16; 8]%nat (packed_cells (dtype_of u) (flat u)).

Definition unpacked (p : ndarray) : ndarray :=
  mk_ndarray uint8 [16; 16; 16]%nat (unpacked_cells (flat p)).

(** What [buildNBTTag] returns for a section whose grids are 16x16x16. *)
Definition built_tag (s : AnvilSection.t) : compound :=
  let add := rshift (AnvilSection.Blocks s) 8 in
  let c := AnvilSection.old_section_tag s in
  let c := if any add
           then setitem "Add" (TAG_Byte_Array (astype uint8 (packed add))) c
           else c in
  let c := setitem "Blocks" (TAG_Byte_Array (astype uint8 (AnvilSection.Blocks s))) c in
  let c := setitem "Data" (TAG_Byte_Array (packed (AnvilSection.Data s))) c in
  let c := setitem "BlockLight" (TAG_Byte_Array (packed (AnvilSection.BlockLight s))) c in
  let c := setitem "SkyLight" (TAG_Byte_Array (packed (AnvilSection.SkyLight s))) c in
  setitem "Y" (TAG_Byte (AnvilSection.Y s)) c.

(** The section after [buildNBTTag]: its retained tag is the one returned. *)
Definition after_build (s : AnvilSection.t) : AnvilSection.t :=
  AnvilSection.mk (AnvilSection.Y s) (AnvilSection.Blocks s) (AnvilSection.Data s)
    (AnvilSection.SkyLight s) (AnvilSection.BlockLight s) (built_tag s).

(** An edit of the block IDs by the code that owns the section
    ([section.Blocks[...] = ...]). *)
Definition edit_Blocks (f : list Z -> list Z) (s : AnvilSection.t) : AnvilSection.t :=
  let b := AnvilSection.Blocks s in
  AnvilSection.mk (AnvilSection.Y s)
    (mk_ndarray (dtype_of b) (shape b) (f (flat b)))
    (AnvilSection.Data s) (AnvilSection.SkyLight s) (AnvilSection.BlockLight s)
    (AnvilSection.old_section_tag s).

(** A section is created, one block is given the ID 256, the section is
    saved, the block is set to the ID 1, and the section is saved again. *)
Definition resave_after_edit : result (compound * AnvilSection.t) :=
  let s := edit_Blocks (<[0%nat := 256]>) AnvilSection._create in
  '(_, s) ← AnvilSection.buildNBTTag s;
  let s := edit_Blocks (<[0%nat := 1]>) s in
  AnvilSection.buildNBTTag s.

(** Decidable forms of the range and shape predicates. *)
Definition cells_leb (hi : Z) (a : ndarray) : bool :=
  forallb (fun z => (0 <=? z) && (z <=? hi)) (flat a).

Definition grid_okb (d : dtype) (a : ndarray) : bool :=
  (length (flat a) =? size_of (shape a))%nat
  && forallb (fun z => (0 <=? z) && (z <? 2 ^ bits d)) (flat a)
  && bool_decide (dtype_of a = d)
  && bool_decide (shape a = [16; 16; 16]%nat).

Definition section_okb (s : AnvilSection.t) : bool :=
  grid_okb uint16 (AnvilSection.Blocks s)
  && grid_okb uint8 (AnvilSection.Data s)
  && grid_okb uint8 (AnvilSection.SkyLight s)
  && grid_okb uint8 (AnvilSection.BlockLight s).

Definition section_in_rangeb (s : AnvilSection.t) : bool :=
  cells_leb 4095 (AnvilSection.Blocks s)
  && cells_leb 15 (AnvilSection.Data s)
  && cells_leb 15 (AnvilSection.SkyLight s)
  && cells_leb 15 (AnvilSection.BlockLight s).

(** An [Add] entry left in a retained tag is one that a save wrote there:
    2048 bytes. *)
Definition retained_ok (c : compound) : Prop :=
  match find "Add" c with
  | None => True
  | Some (TAG_Byte_Array a) => length (flat a) = 2048%nat
  | Some _ => False
  end.

(** The elision rule in the words of the specification. *)
Definition trivial_section (s : AnvilSection.t) : Prop :=
  Forall (fun z => z = 0) (flat (AnvilSection.Blocks s)) /\
  Forall (fun z => z = 0) (flat (AnvilSection.BlockLight s)) /\
  Forall (fun z => z = 15) (flat (AnvilSection.SkyLight s)).

(** What [__init__] and [getSection] establish for a chunk: a [Level]
    compound in the root tag, and every held section filed under its own [Y],
    with grids of the right shape. *)
Definition chunk_ok (c : AnvilChunkData.t) : Prop :=
  (exists level, find "Level" (AnvilChunkData.rootTag c) = Some (TAG_Compound level)) /\
  forall cy s, AnvilChunkData._sections c !! cy = Some s ->
    AnvilSection.Y s = cy /\ section_ok s /\
    retained_ok (AnvilSection.old_section_tag s).

(** The [Sections] list of a chunk's tag. *)
Definition saved_sections (root : compound) : option (list tag) :=
  match find "Level" root with
  | Some (TAG_Compound level) =>
      match find "Sections" level with
      | Some (TAG_List secs) => Some secs
      | _ => None
      end
  | _ => None
  end.

(** ** Sample data

    Arrays: a packed grid and an unpacked one. *)
Definition sample_packed : ndarray :=
  mk_ndarray uint8 [16; 16; 8]%nat (replicate 2048 0xA7).
Definition sample_unpacked : ndarray :=
  mk_ndarray uint8 [16; 16; 16]%nat (replicate 4096 9).

Definition wfb (a : ndarray) : bool :=
  (length (flat a) =? size_of (shape a))%nat
  && forallb (fun z => (0 <=? z) && (z <? 2 ^ bits (dtype_of a))) (flat a).

(** Sample chunks: the chunk that [AnvilChunkData.__init__ 0 0 "" None true]
    returns, and a chunk that holds a section of air under open sky at index 0
    and a newly created section at index 1. *)
Definition new_chunk : AnvilChunkData.t :=
  AnvilChunkData.mk 0 0 ""
    (setitem "Level"
       (TAG_Compound
          (delitem "TileEntities"
             (delitem "Entities"
                (setitem "Biomes" (TAG_Byte_Array AnvilChunkData.default_biomes)
                   [("HeightMap", TAG_Int_Array (zeros [16; 16]%nat uint32));
                    ("TerrainPopulated", TAG_Byte 1);
                    ("xPos", TAG_Int 0); ("zPos", TAG_Int 0);
                    ("LastUpdate", TAG_Long 0);
                    ("Entities", TAG_List []); ("TileEntities", TAG_List [])]))))
       (AnvilChunkData._create 0 0))
    true ∅ [] [].

Definition open_sky_section : AnvilSection.t :=
  let s := AnvilSection._create in
  AnvilSection.mk 0 (AnvilSection.Blocks s) (AnvilSection.Data s)
    (mk_ndarray uint8 [16; 16; 16]%nat (replicate 4096 15))
    (AnvilSection.BlockLight s) (AnvilSection.old_section_tag s).

Definition new_section (cy : Z) : AnvilSection.t :=
  let s := AnvilSection._create in
  AnvilSection.mk cy (AnvilSection.Blocks s) (AnvilSection.Data s)
    (AnvilSection.SkyLight s) (AnvilSection.BlockLight s)
    (AnvilSection.old_section_tag s).

Definition sample_chunk : AnvilChunkData.t :=
  AnvilChunkData.set_sections
    (fun _ => <[0 := open_sky_section]> (<[1 := new_section 1]> ∅)) new_chunk.

(** Sample worlds: a folder whose [level.dat] does not decompress and whose
    [level.dat_old] is good; and the clock and seed of the samples. *)
Definition damaged_world : AnvilWorldAdapter.World :=
  AnvilWorldAdapter.mk_world AnvilWorldAdapter.IsDir true None
    (MemStore.mk [("level.dat", [x1f; x8b]); ("level.dat_old", MemStore.sample_bytes)] 0).

Definition sample_env : AnvilWorldAdapter.Env :=
  AnvilWorldAdapter.mk_env 1400000000000 1400000000001 7.

(** An adapter that holds the lock of its world, and the world. *)
Definition sample_adapter : AnvilWorldAdapter.t (Node := unit) :=
  AnvilWorldAdapter.mk "World" false 1400000000000 tt
    (Some (AnvilWorldMetadata.mk MemStore.sample_metadata false)).

Definition sample_world : AnvilWorldAdapter.World :=
  AnvilWorldAdapter.mk_world AnvilWorldAdapter.IsDir true
    (Some (struct.be_bytes 8 1400000000000))
    (MemStore.mk [("level.dat", MemStore.sample_bytes)] 0).

(** A section with one block of ID 300, as it is before its first save. *)
Definition sample_section : AnvilSection.t :=
  edit_Blocks (<[0%nat := 300]>) AnvilSection._create.

(** ** More invariants and sample data *)

(** An entry of a section tag that holds an array of [n] cells. *)
Definition array_entry (k : string) (n : nat) (c : compound) : Prop :=
  exists t a, find k c = Some t /\ array_value t = Ok a /\ length (flat a) = n.

(** The keys that [_load] takes out of a section tag. *)
Definition section_keys : list string :=
  ["Y"; "Blocks"; "Data"; "SkyLight"; "BlockLight"; "Add"].

(** The [Level] compound as [AnvilChunkData.__init__] leaves it: [Biomes] is
    there, and the three lists that the chunk object holds itself are not. *)
Definition level_ok (c : AnvilChunkData.t) : Prop :=
  exists level,
    find "Level" (AnvilChunkData.rootTag c) = Some (TAG_Compound level) /\
    contains "Biomes" level = true /\
    find "Sections" level = None /\
    find "Entities" level = None /\
    find "TileEntities" level = None.

(** The record that [_createMetadataTag] builds. *)
Definition default_metadataTag (level_name : string) (last_played random_seed : Z)
  : compound :=
  [("Data",
    TAG_Compound
      [("SpawnX", TAG_Int 0); ("SpawnY", TAG_Int 2); ("SpawnZ", TAG_Int 0);
       ("version", TAG_Int VERSION_ANVIL);
       ("LastPlayed", TAG_Long last_played);
       ("RandomSeed", TAG_Long random_seed);
       ("SizeOnDisk", TAG_Long 0);
       ("Time", TAG_Long 1);
       ("LevelName", TAG_String level_name)])].


(** A section as a chunk file stores it, with an entry under a key that
    [AnvilSection] does not know. *)
Definition stored_section_tag : compound :=
  [("Y", TAG_Byte 3);
   ("Blocks", TAG_Byte_Array (mk_ndarray uint8 [4096]%nat (replicate 4096 1)));
   ("Data", TAG_Byte_Array (mk_ndarray uint8 [2048]%nat (replicate 2048 0)));
   ("SkyLight", TAG_Byte_Array (mk_ndarray uint8 [2048]%nat (replicate 2048 0xFF)));
   ("BlockLight", TAG_Byte_Array (mk_ndarray uint8 [2048]%nat (replicate 2048 0)));
   ("Palette", TAG_String "kept")].


(** A second store in memory, with chunks and several revisions (which all
    show the same files), and tag formats that know one encoded record each,
    as [MemStore.format] does. *)

Module MemWorld.

Record t := mk {
  files : list (string * list byte);
  chunks : list (Z * Z * string * list byte);
  infos : list string
}.

Fixpoint chunk (cx cz : Z) (dimName : string) (cs : list (Z * Z * string * list byte))
  : option (list byte) :=
  match cs with
  | [] => None
  | (x, z, d, data) :: rest =>
      if (cx =? x) && (cz =? z) && String.eqb dimName d then Some data
      else chunk cx cz dimName rest
  end.

#[global] Instance store : RevisionStore t nat unit := {|
  getHead h := (length (infos h) - 1)%nat;
  nodes h := seq 0 (length (infos h));
  getRevision _ index := Z.to_nat index;
  getRevisionChanges _ _ _ := tt;
  writeAllChanges _ := fun h => (Ok tt, h);
  readFile h _ name :=
    match MemStore.file name (files h) with
    | Some contents => Ok contents
    | None => Raise (IOError "No such file or directory")
    end;
  writeFile _ name contents := fun h =>
    (Ok tt, mk ((name, contents) :: files h) (chunks h) (infos h));
  containsFile h _ name :=
    match MemStore.file name (files h) with Some _ => true | None => false end
|}.

#[global] Instance chunk_store : ChunkStore t nat string := {|
  containsChunk h _ cx cz dimName :=
    match chunk cx cz dimName (chunks h) with Some _ => true | None => false end;
  readChunkBytes h _ cx cz dimName :=
    match chunk cx cz dimName (chunks h) with
    | Some data => Ok data
    | None => Raise (OtherError "ChunkNotPresent")
    end;
  writeChunkBytes _ cx cz dimName data := fun h =>
    (Ok tt, mk (files h) ((cx, cz, dimName, data) :: chunks h) (infos h));
  listFolder h _ folder :=
    List.filter (String.prefix (folder +:+ "/")) (map fst (files h));
  getRevisionInfo h node := nth node (infos h) ""%string
|}.

End MemWorld.

Definition one_record (bytes : list byte) (record : compound) : TagFormat := {|
  nbt_load buf :=
    if List.list_eq_dec Byte.byte_eq_dec buf bytes then Ok record
    else Raise zlib_error;
  nbt_save _ := bytes;
  SetNBTDefaults c := c
|}.

Definition one_chunk_record (bytes : list byte) : ChunkFormat := {|
  nbt_save_uncompressed _ := bytes
|}.

(** Records for [level.dat]: one of the version before Anvil, and one that
    has no [Data] compound. *)
Definition mcr_metadata : compound :=
  [("Data", TAG_Compound [("version", TAG_Int VERSION_MCR);
                          ("LevelName", TAG_String "Old")])].

Definition no_Data_record : compound := [("Level", TAG_Compound [])].

(** A record with a single player in it, and an adapter that holds it. *)
Definition single_player_metadata : compound :=
  [("Data", TAG_Compound [("version", TAG_Int VERSION_ANVIL);
                          ("Player", TAG_Compound [("Score", TAG_Int 5)])])].

Definition single_player_adapter : AnvilWorldAdapter.t (Node := unit) :=
  AnvilWorldAdapter.mk "World" false 1400000000000 tt
    (Some (AnvilWorldMetadata.mk single_player_metadata false)).


Definition a_file : AnvilWorldAdapter.World :=
  AnvilWorldAdapter.mk_world AnvilWorldAdapter.IsFile false None (MemStore.mk [] 0).

Definition ruined_world : AnvilWorldAdapter.World :=
  AnvilWorldAdapter.mk_world AnvilWorldAdapter.IsDir true None
    (MemStore.mk [("level.dat", [x1f; x8b]); ("level.dat_old", [x00])] 0).

(** A folder whose [level.dat] holds the one byte that the formats of the
    samples below decode. *)
Definition one_byte_world : AnvilWorldAdapter.World :=
  AnvilWorldAdapter.mk_world AnvilWorldAdapter.IsDir true None
    (MemStore.mk [("level.dat", [x0a])] 0).

(** A world with three revisions, two player files and one chunk, and an
    adapter on its last revision. *)
Definition shared_world : AnvilWorldAdapter.World :=
  AnvilWorldAdapter.mk_world AnvilWorldAdapter.IsDir true
    (Some (struct.be_bytes 8 1400000000000))
    (MemWorld.mk
       [("playerdata/Steve.dat", MemStore.sample_bytes);
        ("playerdata/Alex.dat", MemStore.sample_bytes);
        ("playerdata/notes.txt", []);
        ("level.dat", MemStore.sample_bytes)]
       [(3, -2, "DIM1"%string, [x0a])] ["initial"; "dug a tunnel"; "built a tower"]).

Definition shared_adapter : AnvilWorldAdapter.t (Node := nat) :=
  AnvilWorldAdapter.mk "World" false 1400000000000 2%nat
    (Some (AnvilWorldMetadata.mk MemStore.sample_metadata false)).

(** The tag of the sample chunk, and a chunk record in which the [Blocks]
    array of the one section is too short. *)
Definition sample_chunk_tag : compound :=
  match AnvilChunkData.buildNBTTag sample_chunk with
  | (Ok tag, _) => tag
  | (Raise _, _) => []
  end.

Definition short_Blocks_section : compound :=
  setitem "Blocks" (TAG_Byte_Array (mk_ndarray uint8 [16]%nat (replicate 16 1)))
    stored_section_tag.

Definition short_Blocks_level : compound :=
  [("Sections", TAG_List [TAG_Compound short_Blocks_section]);
   ("Entities", TAG_List []); ("TileEntities", TAG_List [])].

Definition short_Blocks_record : compound :=
  [("Level", TAG_Compound short_Blocks_level)].


(** The arrays that [_load] takes from a section tag after [Y], in the order
    in which it takes them, each with the number of cells it must have. *)
Definition mandatory_arrays : list (string * nat) :=
  [("Blocks", 4096); ("Data", 2048); ("SkyLight", 2048); ("BlockLight", 2048)]%nat.

(** An entry that is a byte array of [n] cells. *)
Definition byte_array_entry (k : string) (n : nat) (c : compound) : Prop :=
  exists a, find k c = Some (TAG_Byte_Array a) /\ length (flat a) = n.

(** ** Theorems *)

(** *** The definitions at work *)

Example unpackNibbleArray_run :
  unpackNibbleArray (mk_ndarray uint8 [1; 1; 2]%nat [0xAB; 0x0F])
  = Ok (mk_ndarray uint8 [1; 1; 4]%nat [0xB; 0xA; 0xF; 0x0]).
Proof. reflexivity. Qed.

Example packNibbleArray_run :
  packNibbleArray (mk_ndarray uint8 [16; 16; 2]%nat (concat (replicate 256 [0xB; 0xA])))
  = Ok (mk_ndarray uint8 [16; 16; 1]%nat (replicate 256 0xAB)).
Proof. by vm_compute. Qed.

Example packNibbleArray_odd_axis :
  packNibbleArray (mk_ndarray uint8 [16; 16; 1]%nat (replicate 256 1)) = Raise ValueError.
Proof. by vm_compute. Qed.

(** A cell above 15 spills into the nibble packed next to it. *)
Example packNibbleArray_out_of_range :
  packNibbleArray (mk_ndarray uint8 [16; 16; 2]%nat (concat (replicate 256 [0x1B; 0xA])))
  = Ok (mk_ndarray uint8 [16; 16; 1]%nat (replicate 256 0xBB)).
Proof. by vm_compute. Qed.

Example unpackNibbleArray_in_place_run :
  InPlace.unpackNibbleArray 0%nat [mk_ndarray uint8 [1; 1; 2]%nat [0xAB; 0x0F]]
  = (Ok 1%nat, [mk_ndarray uint8 [1; 1; 2]%nat [0xAB; 0x0F];
                mk_ndarray uint8 [1; 1; 4]%nat [0xB; 0xA; 0xF; 0x0]]).
Proof. reflexivity. Qed.

Example setitem_replaces :
  setitem "Y" (TAG_Byte 3) [("Y", TAG_Byte 1); ("Add", TAG_Byte 0)]
  = [("Y", TAG_Byte 3); ("Add", TAG_Byte 0)].
Proof. reflexivity. Qed.

(** A section as [_create] makes it is dark: it is not elided. *)
Example new_section_is_saved : AnvilChunkData.elided AnvilSection._create = false.
Proof. by vm_compute. Qed.

Example open_sky_section_is_elided : AnvilChunkData.elided open_sky_section = true.
Proof. by vm_compute. Qed.

Example getSection_17 :
  AnvilChunkData.getSection 17 true new_chunk = (Raise ValueError, new_chunk).
Proof. reflexivity. Qed.

Example pack_q_run :
  struct.pack_q 258 = Ok [x00; x00; x00; x00; x00; x00; x01; x02] /\
  struct.pack_q (-2) = Ok [xff; xff; xff; xff; xff; xff; xff; xfe] /\
  struct.unpack_q [xff; xff; xff; xff; xff; xff; xff; xfe] = Ok (-2) /\
  struct.pack_q (2 ^ 63) = Raise struct_error.
Proof. repeat split; by vm_compute. Qed.

(** *** The codec *)

Lemma nibble_join (b : Z) :
  0 <= b < 256 ->
  Z.lor (Z.shiftl (Z.shiftr b 4) 4) (Z.land b 15) = b.
Proof.
  intros Hb. apply Z.bits_inj'. intros i Hi.
  rewrite Z.lor_spec, Z.shiftl_spec by lia.
  change 15 with (Z.ones 4). rewrite Z.land_spec.
  destruct (Z.lt_ge_cases i 4) as [Hlt | Hge].
  - rewrite Z.testbit_neg_r by lia.
    rewrite Z.ones_spec_low by lia. simpl. now rewrite andb_true_r.
  - rewrite Z.shiftr_spec by lia. rewrite Z.ones_spec_high by lia.
    rewrite andb_false_r, orb_false_r. f_equal. lia.
Qed.

Lemma nibble_split (lo hi : Z) :
  0 <= lo <= 15 -> 0 <= hi <= 15 ->
  Z.land (Z.lor (Z.shiftl hi 4) lo) 15 = lo /\
  Z.shiftr (Z.lor (Z.shiftl hi 4) lo) 4 = hi.
Proof.
  intros Hlo Hhi.
  assert (Hlow : forall i, 4 <= i -> Z.testbit lo i = false).
  { intros i Hi. apply Z.bits_above_log2; [lia |].
    destruct (Z.eq_dec lo 0) as [-> | Hne]; [simpl; lia |].
    apply Z.log2_lt_pow2; [lia |].
    apply Z.lt_le_trans with (2 ^ 4); [lia |].
    apply Z.pow_le_mono_r; lia. }
  split; apply Z.bits_inj'; intros i Hi.
  - change 15 with (Z.ones 4).
    rewrite Z.land_spec, Z.lor_spec, Z.shiftl_spec by lia.
    destruct (Z.lt_ge_cases i 4) as [Hlt | Hge].
    + rewrite Z.testbit_neg_r by lia.
      rewrite Z.ones_spec_low by lia. now rewrite andb_true_r.
    + rewrite Z.ones_spec_high by lia. rewrite andb_false_r.
      symmetry. now apply Hlow.
  - rewrite Z.shiftr_spec, Z.lor_spec, Z.shiftl_spec by lia.
    rewrite (Hlow (i + 4)) by lia. rewrite orb_false_r. f_equal. lia.
Qed.

Lemma cast_small (d : dtype) (z : Z) : 0 <= z < 2 ^ bits d -> cast d z = z.
Proof. intros H. unfold cast. now apply Z.mod_small. Qed.

Lemma bits_ge_8 (d : dtype) : 256 <= 2 ^ bits d.
Proof. destruct d; simpl; lia. Qed.

(** Two cells at a time. *)
Lemma list_ind2 {A} (P : list A -> Prop) :
  P [] -> (forall x, P [x]) -> (forall x y l, P l -> P (x :: y :: l)) ->
  forall l, P l.
Proof.
  intros H0 H1 H2.
  refine (fix go l := match l with
                      | [] => H0
                      | [x] => H1 x
                      | x :: y :: l' => H2 x y l' (go l')
                      end).
Qed.

Lemma pairs_flat_map {A} (f g : A -> Z) (l : list A) :
  pairs (flat_map (fun b => [f b; g b]) l) = map (fun b => (f b, g b)) l.
Proof. induction l as [| b l IH]; simpl; [done | by rewrite IH]. Qed.

Lemma length_pairs_even (l : list Z) (m : nat) :
  length l = (2 * m)%nat -> length (pairs l) = m.
Proof.
  revert m. induction l as [| x | x y l IH] using list_ind2; intros m Hm; simpl in *.
  - lia.
  - lia.
  - destruct m as [| m]; [lia |]. rewrite (IH m); lia.
Qed.

Lemma unpack_of_pack_cells (d : dtype) (l : list Z) :
  Nat.even (length l) = true ->
  Forall (fun z => 0 <= z <= 15) l ->
  flat_map (fun b => [Z.land (cast uint8 b) 15; Z.shiftr (cast uint8 b) 4])
    (map (fun '(lo, hi) => cast d (Z.lor (cast d (Z.shiftl hi 4)) lo)) (pairs l)) = l.
Proof.
  induction l as [| x | lo hi l IH] using list_ind2; intros Hev Hr.
  - done.
  - done.
  - apply Forall_cons in Hr as [Hlo Hr]. apply Forall_cons in Hr as [Hhi Hr].
    simpl. rewrite IH by done.
    assert (Hs : 0 <= Z.shiftl hi 4 < 256).
    { rewrite Z.shiftl_mul_pow2 by lia. lia. }
    pose proof (bits_ge_8 d) as Hd.
    rewrite (cast_small d (Z.shiftl hi 4)) by lia.
    destruct (nibble_split lo hi Hlo Hhi) as [Hl Hh].
    assert (Hp : 0 <= Z.lor (Z.shiftl hi 4) lo < 256).
    { split; [apply Z.lor_nonneg; lia |].
      change 256 with (2 ^ 8).
      destruct (Z.eq_dec (Z.lor (Z.shiftl hi 4) lo) 0) as [-> | Hne]; [lia |].
      apply Z.log2_lt_pow2; [pose proof (Z.lor_nonneg (Z.shiftl hi 4) lo); lia |].
      rewrite Z.log2_lor by lia.
      apply Z.max_lub_lt.
      - destruct (Z.eq_dec (Z.shiftl hi 4) 0) as [-> | Hn0]; [simpl; lia |].
        apply Z.log2_lt_pow2; lia.
      - destruct (Z.eq_dec lo 0) as [-> | Hn0]; [simpl; lia |].
        apply Z.log2_lt_pow2; lia. }
    rewrite (cast_small d _) by lia.
    rewrite (cast_small uint8 _) by (simpl; lia).
    by rewrite Hl, Hh.
Qed.

Lemma pack_of_unpack_cells (l : list Z) :
  Forall (fun z => 0 <= z < 256) l ->
  map (fun '(lo, hi) => cast uint8 (Z.lor (cast uint8 (Z.shiftl hi 4)) lo))
    (pairs (flat_map (fun b => [Z.land (cast uint8 b) 15; Z.shiftr (cast uint8 b) 4]) l)) = l.
Proof.
  intros Hl. rewrite pairs_flat_map, map_map.
  induction Hl as [| b l Hb Hl IH]; simpl; [done |].
  rewrite IH. f_equal.
  rewrite (cast_small uint8 b) by (simpl; lia).
  assert (Hs : 0 <= Z.shiftl (Z.shiftr b 4) 4 <= b).
  { rewrite Z.shiftl_mul_pow2, Z.shiftr_div_pow2 by lia.
    change (2 ^ 4) with 16. pose proof (Z.mul_div_le b 16). 
    pose proof (Z.div_pos b 16). lia. }
  rewrite (cast_small uint8 (Z.shiftl _ _)) by (simpl; lia).
  rewrite nibble_join by lia. apply cast_small. simpl; lia.
Qed.

(** The value-level round trips. *)
Lemma size_of_3 (a b c : nat) : size_of [a; b; c] = (a * b * c)%nat.
Proof. unfold size_of. cbn [foldr]. lia. Qed.

Lemma length_unpacked_cells (cells : list Z) :
  length (flat_map (fun b => [Z.land (cast uint8 b) 15; Z.shiftr (cast uint8 b) 4]) cells)
  = (2 * length cells)%nat.
Proof. induction cells as [| b l IH]; cbn [flat_map length app]; lia. Qed.

Lemma pack_unpackNibbleArray_value (g : ndarray) (n : nat) :
  wf g -> dtype_of g = uint8 -> shape g = [16; 16; n]%nat ->
  unpackNibbleArray g ≫= packNibbleArray = Ok g.
Proof.
  intros [Hlen Hrange] Hd Hs. destruct g as [d shp cells].
  cbn [dtype_of shape flat] in *. subst d shp.
  rewrite size_of_3 in Hlen.
  unfold unpackNibbleArray. cbn [shape flat mbind result_bind].
  unfold packNibbleArray. cbn [shape flat dtype_of].
  rewrite length_unpacked_cells, Hlen.
  assert (He : Nat.even (n * 2) = true).
  { rewrite Nat.even_mul. cbn. apply orb_true_r. }
  assert (Hdiv : (n * 2 / 2 = n)%nat) by (apply Nat.div_mul; lia).
  rewrite He, Hdiv.
  replace (2 * (16 * 16 * n) =? 16 * 16 * n * 2)%nat with true
    by (symmetry; apply Nat.eqb_eq; lia).
  cbn [andb].
  rewrite pack_of_unpack_cells; [done |].
  eapply Forall_impl; [exact Hrange |]. cbn. intros z Hz. lia.
Qed.

Lemma unpack_packNibbleArray_value (u : ndarray) :
  wf u -> shape u = [16; 16; 16]%nat ->
  Forall (fun z => 0 <= z <= 15) (flat u) ->
  exists u', packNibbleArray u ≫= unpackNibbleArray = Ok u' /\
             dtype_of u' = uint8 /\ shape u' = shape u /\ flat u' = flat u.
Proof.
  intros [Hlen _] Hs Hr. destruct u as [d shp cells].
  cbn [dtype_of shape flat] in *. subst shp.
  rewrite size_of_3 in Hlen.
  unfold packNibbleArray. cbn [shape flat dtype_of]. rewrite Hlen.
  change (Nat.even 16 && (16 * 16 * 16 =? 16 * 16 * (16 / 2) * 2)%nat) with true.
  cbn [mbind result_bind]. unfold unpackNibbleArray. cbn [shape flat].
  eexists. split; [reflexivity |]. cbn [dtype_of shape flat].
  split; [done |]. split; [done |].
  apply unpack_of_pack_cells; [| done]. by rewrite Hlen.
Qed.

(** The in-place functions compute the same arrays, allocate them at the end
    of the heap and change no array that was there. *)
Lemma update_cells_last (h : InPlace.heap) (a : ndarray) (f : list Z -> list Z) :
  InPlace.update_cells (length h) f (h ++ [a])
  = (Ok tt, h ++ [mk_ndarray (dtype_of a) (shape a) (f (flat a))]).
Proof.
  unfold InPlace.update_cells.
  rewrite lookup_app_r by lia. rewrite Nat.sub_diag. simpl.
  f_equal. replace (length h) with (length h + 0)%nat at 1 by lia.
  by rewrite insert_app_r.
Qed.

Lemma unpack_cells_in_place (src dst : list Z) :
  length dst = (2 * length src)%nat ->
  on_odd (fun _ z => Z.shiftr z 4)
    (assign_odd (map (cast uint8) src)
       (on_even (fun z => Z.land z 15)
          (assign_even (map (cast uint8) src) dst)))
  = flat_map (fun b => [Z.land (cast uint8 b) 15; Z.shiftr (cast uint8 b) 4]) src.
Proof.
  revert dst. induction src as [| b src IH]; intros dst Hlen.
  - destruct dst; [done | simpl in Hlen; lia].
  - destruct dst as [| e [| o dst]]; simpl in Hlen; try lia.
    simpl. rewrite IH by lia. done.
Qed.

Lemma pack_cells_in_place (d : dtype) (l : list Z) :
  take_odd (on_odd (fun lo hi => cast d (Z.lor hi lo))
              (on_odd (fun _ hi => cast d (Z.shiftl hi 4)) l))
  = map (fun '(lo, hi) => cast d (Z.lor (cast d (Z.shiftl hi 4)) lo)) (pairs l).
Proof.
  induction l as [| x | lo hi l IH] using list_ind2; simpl; [done | done |].
  by rewrite IH.
Qed.

Lemma unpackNibbleArray_in_place (h : InPlace.heap) (r : InPlace.ref) (a : ndarray) :
  h !! r = Some a ->
  length (flat a) = size_of (shape a) ->
  InPlace.unpackNibbleArray r h
  = match unpackNibbleArray a with
    | Ok a' => (Ok (length h), h ++ [a'])
    | Raise e => (Raise e, h)
    end.
Proof.
  intros Hr Hlen.
  unfold InPlace.unpackNibbleArray, unpackNibbleArray, mbind, M_bind, InPlace.deref.
  rewrite Hr.
  destruct (shape a) as [| s0 [| s1 [| s2 [| s3 shp]]]] eqn:Hs; try done.
  unfold InPlace.new, zeros.
  rewrite !update_cells_last. simpl.
  rewrite unpack_cells_in_place; [done |].
  rewrite length_replicate, Hlen. simpl. lia.
Qed.

Lemma packNibbleArray_in_place (h : InPlace.heap) (r : InPlace.ref) (a : ndarray) :
  h !! r = Some a ->
  exists scratch,
    InPlace.packNibbleArray r h
    = match packNibbleArray a with
      | Ok a' => (Ok (S (length h)), h ++ [scratch; a'])
      | Raise e => (Raise e, h)
      end.
Proof.
  intros Hr.
  unfold InPlace.packNibbleArray, packNibbleArray, mbind, M_bind, InPlace.deref.
  rewrite Hr.
  destruct (shape a) as [| s0 [| s1 [| n [| s3 shp]]]] eqn:Hs; try by exists a.
  destruct (Nat.even n && (length (flat a) =? 16 * 16 * (n / 2) * 2)%nat); [| by exists a].
  unfold InPlace.new.
  rewrite !update_cells_last. simpl.
  rewrite lookup_app_r by lia. rewrite Nat.sub_diag. simpl.
  eexists. rewrite length_app. simpl. rewrite Nat.add_1_r.
  rewrite <- app_assoc. simpl. rewrite pack_cells_in_place. reflexivity.
Qed.

Lemma cells_leb_spec (hi : Z) (a : ndarray) : cells_leb hi a = true -> cells_le hi a.
Proof.
  unfold cells_leb, cells_le. intros H. apply Forall_forall. intros z Hz.
  rewrite forallb_forall in H. specialize (H z). rewrite <- list_elem_of_In in H.
  specialize (H Hz). apply andb_true_iff in H as [H1 H2]. lia.
Qed.

Lemma wfb_spec (a : ndarray) : wfb a = true -> wf a.
Proof.
  unfold wfb, wf. intros H. apply andb_true_iff in H as [H1 H2].
  apply Nat.eqb_eq in H1. split; [done |].
  apply Forall_forall. intros z Hz. rewrite forallb_forall in H2.
  specialize (H2 z). rewrite <- list_elem_of_In in H2. specialize (H2 Hz).
  apply andb_true_iff in H2 as [Ha Hb]. lia.
Qed.

(** What [packNibbleArray] returns has as many cells as its shape says. *)
Lemma packNibbleArray_length (u p : ndarray) :
  packNibbleArray u = Ok p -> length (flat p) = size_of (shape p).
Proof.
  unfold packNibbleArray. intros H.
  destruct (shape u) as [| s0 [| s1 [| n [| s3 shp]]]]; try done.
  remember (n / 2)%nat as m eqn:Em.
  destruct (Nat.even n && _) eqn:E; [| done].
  apply andb_true_iff in E as [_ El]. apply Nat.eqb_eq in El.
  injection H as <-. cbn [flat shape]. rewrite length_map, size_of_3.
  apply length_pairs_even. rewrite El. lia.
Qed.

(** C1: on a packed grid [g] of 16x16x8 bytes, unpacking and packing again
    returns an array equal to [g]; on a grid [u] of 16x16x16 cells, all in
    0..15, packing and unpacking again returns an array with the shape and the
    cells of [u].  Both hold of the functions on values and of the functions
    on array objects, where each call only allocates: the heap afterwards is
    the heap before followed by new arrays, so no array that existed is
    changed. *)
Theorem nibble_codec_inverse (h : InPlace.heap) (rg ru : InPlace.ref) (g u : ndarray) :
  h !! rg = Some g -> wf g -> dtype_of g = uint8 -> shape g = [16; 16; 8]%nat ->
  h !! ru = Some u -> wf u -> shape u = [16; 16; 16]%nat -> cells_le 15 u ->
  unpackNibbleArray g ≫= packNibbleArray = Ok g /\
  (exists u', packNibbleArray u ≫= unpackNibbleArray = Ok u' /\
              shape u' = shape u /\ flat u' = flat u) /\
  (exists r fresh,
     (InPlace.unpackNibbleArray rg ≫= InPlace.packNibbleArray) h = (Ok r, h ++ fresh) /\
     (h ++ fresh) !! r = Some g) /\
  (exists r fresh u',
     (InPlace.packNibbleArray ru ≫= InPlace.unpackNibbleArray) h = (Ok r, h ++ fresh) /\
     (h ++ fresh) !! r = Some u' /\ shape u' = shape u /\ flat u' = flat u).
Proof.
  intros Hrg Hwg Hdg Hsg Hru Hwu Hsu Hcu.
  pose proof (pack_unpackNibbleArray_value g 8 Hwg Hdg Hsg) as Hg.
  destruct (unpack_packNibbleArray_value u Hwu Hsu Hcu) as (u' & Hu & _ & Hus & Huf).
  split; [exact Hg |]. split; [by exists u' |]. split.
  - (* unpack, then pack *)
    destruct (unpackNibbleArray g) as [a |] eqn:Ea; [| done].
    cbn [mbind result_bind] in Hg.
    unfold mbind at 1, M_bind.
    rewrite (unpackNibbleArray_in_place h rg g Hrg (proj1 Hwg)), Ea.
    destruct (packNibbleArray_in_place (h ++ [a]) (length h) a) as [scratch Hp].
    { rewrite lookup_app_r by lia. by rewrite Nat.sub_diag. }
    rewrite Hp, Hg. exists (S (length (h ++ [a]))), [a; scratch; g].
    split; [by rewrite <- app_assoc |].
    rewrite length_app. cbn [length].
    rewrite lookup_app_r by lia.
    by replace (S (length h + 1) - length h)%nat with 2%nat by lia.
  - (* pack, then unpack *)
    destruct (packNibbleArray u) as [p |] eqn:Ep; [| done].
    cbn [mbind result_bind] in Hu.
    unfold mbind at 1, M_bind.
    destruct (packNibbleArray_in_place h ru u Hru) as [scratch Hp].
    rewrite Hp, Ep.
    pose proof (packNibbleArray_length u p Ep) as Hlp.
    rewrite (unpackNibbleArray_in_place (h ++ [scratch; p]) (S (length h)) p); [| | done].
    + rewrite Hu. exists (length (h ++ [scratch; p])), [scratch; p; u'], u'.
      split; [by rewrite <- app_assoc |].
      split; [| done].
      rewrite length_app. cbn [length]. rewrite lookup_app_r by lia.
      by replace (length h + 2 - length h)%nat with 2%nat by lia.
    + rewrite lookup_app_r by lia.
      by replace (S (length h) - length h)%nat with 1%nat by lia.
Qed.

Lemma nibble_codec_inverse_witness :
  wf sample_packed /\ wf sample_unpacked /\ cells_le 15 sample_unpacked /\
  unpackNibbleArray sample_packed ≫= packNibbleArray = Ok sample_packed /\
  (exists u', packNibbleArray sample_unpacked ≫= unpackNibbleArray = Ok u' /\
              shape u' = shape sample_unpacked /\ flat u' = flat sample_unpacked) /\
  (exists r fresh,
     (InPlace.unpackNibbleArray 0%nat ≫= InPlace.packNibbleArray)
       [sample_packed; sample_unpacked]
     = (Ok r, [sample_packed; sample_unpacked] ++ fresh) /\
     ([sample_packed; sample_unpacked] ++ fresh) !! r = Some sample_packed) /\
  (exists r fresh u',
     (InPlace.packNibbleArray 1%nat ≫= InPlace.unpackNibbleArray)
       [sample_packed; sample_unpacked]
     = (Ok r, [sample_packed; sample_unpacked] ++ fresh) /\
     ([sample_packed; sample_unpacked] ++ fresh) !! r = Some u' /\
     shape u' = shape sample_unpacked /\ flat u' = flat sample_unpacked).
Proof.
  assert (Hg : wf sample_packed) by (apply wfb_spec; vm_compute; reflexivity).
  assert (Hu : wf sample_unpacked) by (apply wfb_spec; vm_compute; reflexivity).
  assert (Hr : cells_le 15 sample_unpacked)
    by (apply cells_leb_spec; vm_compute; reflexivity).
  split; [exact Hg |]. split; [exact Hu |]. split; [exact Hr |].
  apply (nibble_codec_inverse [sample_packed; sample_unpacked] 0%nat 1%nat
           sample_packed sample_unpacked).
  - reflexivity.
  - exact Hg.
  - reflexivity.
  - reflexivity.
  - reflexivity.
  - exact Hu.
  - reflexivity.
  - exact Hr.
Defined.

(** *** Compounds *)

Lemma find_setitem_eq (k : string) (v : tag) (c : compound) :
  find k (setitem k v c) = Some v.
Proof.
  induction c as [| [k' v'] c IH]; cbn [setitem find].
  - by rewrite String.eqb_refl.
  - destruct (String.eqb k k') eqn:E; cbn [find].
    + by rewrite String.eqb_refl.
    + by rewrite E.
Qed.

Lemma find_setitem_ne (k k' : string) (v : tag) (c : compound) :
  k <> k' -> find k' (setitem k v c) = find k' c.
Proof.
  intros Hne. induction c as [| [k0 v0] c IH]; cbn [setitem find].
  - apply String.eqb_neq in Hne. rewrite String.eqb_sym in Hne. by rewrite Hne.
  - destruct (String.eqb k k0) eqn:E; cbn [find].
    + apply String.eqb_eq in E. subst k0.
      assert (String.eqb k' k = false) as -> by (apply String.eqb_neq; congruence).
      done.
    + by rewrite IH.
Qed.

Lemma find_delitem_eq (k : string) (c : compound) : find k (delitem k c) = None.
Proof.
  induction c as [| [k' v'] c IH]; cbn [delitem find]; [done |].
  destruct (String.eqb k k') eqn:E; cbn [find]; [done |]. by rewrite E.
Qed.

Lemma find_delitem_ne (k k' : string) (c : compound) :
  k <> k' -> find k' (delitem k c) = find k' c.
Proof.
  intros Hne. induction c as [| [k0 v0] c IH]; cbn [delitem find]; [done |].
  destruct (String.eqb k k0) eqn:E; cbn [find].
  - apply String.eqb_eq in E. subst k0.
    assert (String.eqb k' k = false) as -> by (apply String.eqb_neq; congruence).
    done.
  - by rewrite IH.
Qed.

(** Looking a key up in a tag that was built by a run of [setitem] and
    [delitem] on other keys. *)
Ltac find_key :=
  repeat first
    [ rewrite find_setitem_eq
    | rewrite find_delitem_eq
    | rewrite find_setitem_ne by discriminate
    | rewrite find_delitem_ne by discriminate ].

(** *** Sections *)

Lemma pairs_length_4096 (l : list Z) :
  length l = 4096%nat -> length (pairs l) = 2048%nat.
Proof. intros H. apply length_pairs_even. rewrite H. reflexivity. Qed.

Lemma packed_cell_range (d : dtype) (lo hi : Z) :
  0 <= lo <= 15 -> 0 <= hi <= 15 ->
  0 <= cast d (Z.lor (cast d (Z.shiftl hi 4)) lo) < 256.
Proof.
  intros Hlo Hhi. pose proof (bits_ge_8 d) as Hd.
  assert (Hs : 0 <= Z.shiftl hi 4 < 256).
  { rewrite Z.shiftl_mul_pow2 by lia. lia. }
  rewrite (cast_small d (Z.shiftl hi 4)) by lia.
  assert (Hp : 0 <= Z.lor (Z.shiftl hi 4) lo < 2 ^ 8).
  { split; [apply Z.lor_nonneg; lia |].
    destruct (Z.eq_dec (Z.lor (Z.shiftl hi 4) lo) 0) as [-> | Hne]; [lia |].
    apply Z.log2_lt_pow2; [pose proof (Z.lor_nonneg (Z.shiftl hi 4) lo); lia |].
    rewrite Z.log2_lor by lia. apply Z.max_lub_lt.
    - destruct (Z.eq_dec (Z.shiftl hi 4) 0) as [-> | Hn0]; [simpl; lia |].
      apply Z.log2_lt_pow2; lia.
    - destruct (Z.eq_dec lo 0) as [-> | Hn0]; [simpl; lia |].
      apply Z.log2_lt_pow2; lia. }
  change (2 ^ 8) with 256 in Hp. rewrite cast_small; lia.
Qed.

Lemma packed_cells_range (d : dtype) (l : list Z) :
  Forall (fun z => 0 <= z <= 15) l ->
  Forall (fun z => 0 <= z < 256)
    (map (fun '(lo, hi) => cast d (Z.lor (cast d (Z.shiftl hi 4)) lo)) (pairs l)).
Proof.
  induction l as [| x | lo hi l IH] using list_ind2; intros Hr; cbn [pairs map].
  - constructor.
  - constructor.
  - apply Forall_cons in Hr as [Hlo Hr]. apply Forall_cons in Hr as [Hhi Hr].
    constructor; [by apply packed_cell_range | by apply IH].
Qed.

(** Packing a 16x16x16 grid, whatever its cells. *)
Lemma packNibbleArray_grid (u : ndarray) :
  length (flat u) = 4096%nat -> shape u = [16; 16; 16]%nat ->
  packNibbleArray u = Ok (packed u) /\ length (flat (packed u)) = 2048%nat.
Proof.
  intros Hlen Hs. split.
  - unfold packNibbleArray. rewrite Hs, Hlen.
    change (Nat.even 16 && (4096 =? 16 * 16 * (16 / 2) * 2)%nat) with true.
    reflexivity.
  - cbn [packed flat]. unfold packed_cells. rewrite length_map.
    by apply pairs_length_4096.
Qed.

Lemma length_packed (u : ndarray) :
  length (flat u) = 4096%nat -> length (flat (packed u)) = 2048%nat.
Proof.
  intros H. cbn [packed flat]. unfold packed_cells. rewrite length_map.
  by apply pairs_length_4096.
Qed.

(** Reading the packed array back gives the nibbles that went in. *)
Lemma unpacked_packed (u : ndarray) :
  length (flat u) = 4096%nat -> cells_le 15 u ->
  unpacked (packed u) = mk_ndarray uint8 [16; 16; 16]%nat (flat u) /\
  Forall (fun z => 0 <= z < 256) (flat (packed u)).
Proof.
  intros Hlen Hr. split.
  - unfold unpacked, packed. cbn [flat]. f_equal.
    apply unpack_of_pack_cells; [by rewrite Hlen | done].
  - by apply packed_cells_range.
Qed.

Lemma astype_small (d : dtype) (a : ndarray) :
  Forall (fun z => 0 <= z < 2 ^ bits d) (flat a) ->
  astype d a = mk_ndarray d (shape a) (flat a).
Proof.
  intros H. unfold astype. f_equal.
  induction H as [| z l Hz Hl IH]; cbn [map]; [done |].
  by rewrite IH, cast_small.
Qed.

Lemma grid_length (d : dtype) (a : ndarray) : grid_ok d a -> length (flat a) = 4096%nat.
Proof. intros [[Hlen _] [_ Hs]]. rewrite Hlen, Hs. reflexivity. Qed.

Lemma set_shape_ok (shp : list nat) (a : ndarray) :
  length (flat a) = size_of shp ->
  set_shape shp a = Ok (mk_ndarray (dtype_of a) shp (flat a)).
Proof. intros H. unfold set_shape. by rewrite H, Nat.eqb_refl. Qed.

(** Lines 131-134 on an entry that holds 2048 bytes. *)
Lemma load_nibbles_found (name : string) (p : ndarray) (c : compound) :
  find name c = Some (TAG_Byte_Array p) -> length (flat p) = 2048%nat ->
  AnvilSection.load_nibbles name c = Ok (unpacked p, delitem name c).
Proof.
  intros Hfind Hl.
  unfold AnvilSection.load_nibbles, pop. rewrite Hfind.
  cbn [mbind result_bind array_value].
  rewrite set_shape_ok by (by rewrite Hl). reflexivity.
Qed.

(** [_load] on a tag that holds the five mandatory entries: what is left to
    do is the [Add] entry. *)
Lemma _load_entries (c : compound) (y : Z) (b pD pS pB : ndarray) :
  find "Y" c = Some (TAG_Byte y) ->
  find "Blocks" c = Some (TAG_Byte_Array b) -> length (flat b) = 4096%nat ->
  find "Data" c = Some (TAG_Byte_Array pD) -> length (flat pD) = 2048%nat ->
  find "SkyLight" c = Some (TAG_Byte_Array pS) -> length (flat pS) = 2048%nat ->
  find "BlockLight" c = Some (TAG_Byte_Array pB) -> length (flat pB) = 2048%nat ->
  AnvilSection._load c =
    let Blocks := mk_ndarray uint16 [16; 16; 16]%nat (map (cast uint16) (flat b)) in
    let '(tag, rest) :=
      pop_default "Add"
        (delitem "BlockLight" (delitem "SkyLight" (delitem "Data"
           (delitem "Blocks" (delitem "Y" c))))) in
    Blocks ← match tag with
             | None => mret Blocks
             | Some tag =>
                 a ← array_value tag;
                 a ← set_shape [16; 16; 8]%nat a;
                 add ← unpackNibbleArray a;
                 ior Blocks (lshift (astype uint16 add) 8)
             end;
    mret (AnvilSection.mk y Blocks (unpacked pD) (unpacked pS) (unpacked pB) rest).
Proof.
  intros HY HBl Hlen HD lD HS lS HB lB.
  unfold AnvilSection._load, pop. rewrite HY.
  cbn [mbind result_bind int_value].
  rewrite find_delitem_ne by discriminate. rewrite HBl.
  cbn [mbind result_bind array_value].
  rewrite (set_shape_ok _ (astype uint16 b))
    by (cbn [astype flat]; by rewrite length_map, Hlen).
  cbn [mbind result_bind astype flat dtype_of].
  rewrite (load_nibbles_found "Data" pD) by (try done; by find_key).
  cbn [mbind result_bind].
  rewrite (load_nibbles_found "SkyLight" pS) by (try done; by find_key).
  cbn [mbind result_bind].
  rewrite (load_nibbles_found "BlockLight" pB) by (try done; by find_key).
  cbn [mbind result_bind]. reflexivity.
Qed.

Lemma block_id_join (b : Z) :
  0 <= b <= 4095 ->
  Z.lor (b mod 2 ^ 8) (Z.shiftl (Z.shiftr b 8) 8) = b.
Proof.
  intros Hb. apply Z.bits_inj'. intros i Hi.
  rewrite Z.lor_spec, Z.shiftl_spec by lia.
  destruct (Z.lt_ge_cases i 8) as [Hlt | Hge].
  - rewrite Z.mod_pow2_bits_low by lia.
    rewrite (Z.testbit_neg_r _ (i - 8)) by lia. apply orb_false_r.
  - rewrite Z.mod_pow2_bits_high by lia. rewrite Z.shiftr_spec by lia.
    cbn [orb]. f_equal. lia.
Qed.

Lemma high_nibble_range (b : Z) : 0 <= b <= 4095 -> 0 <= Z.shiftr b 8 <= 15.
Proof.
  intros Hb. rewrite Z.shiftr_div_pow2 by lia. change (2 ^ 8) with 256.
  split; [apply Z.div_pos; lia |].
  assert (b / 256 < 16) by (apply Z.div_lt_upper_bound; lia). lia.
Qed.

(** The cell that [_load] computes from the low byte and the high nibble. *)
Lemma block_id_cell (b : Z) :
  0 <= b <= 4095 ->
  cast uint16 (Z.lor (cast uint16 (cast uint8 b))
                 (cast uint16 (Z.shiftl (cast uint16 (Z.shiftr b 8)) 8))) = b.
Proof.
  intros Hb. pose proof (high_nibble_range b Hb) as Hh.
  assert (H8 : 0 <= b mod 2 ^ 8 < 256) by (apply Z.mod_pos_bound; lia).
  unfold cast at 3. cbn [bits].
  rewrite (cast_small uint16 (b mod 2 ^ 8)) by (cbn; lia).
  rewrite (cast_small uint16 (Z.shiftr b 8)) by (cbn; lia).
  assert (Hs : 0 <= Z.shiftl (Z.shiftr b 8) 8 <= 15 * 256).
  { rewrite Z.shiftl_mul_pow2 by lia. change (2 ^ 8) with 256. lia. }
  rewrite (cast_small uint16 (Z.shiftl _ _)) by (cbn; lia).
  rewrite block_id_join by lia. apply cast_small. cbn; lia.
Qed.

Lemma block_cells_join (l : list Z) :
  Forall (fun z => 0 <= z <= 4095) l ->
  zip_with (fun x y => cast uint16 (Z.lor x y))
    (map (cast uint16) (map (cast uint8) l))
    (map (fun z => cast uint16 (Z.shiftl z 8))
       (map (cast uint16) (map (fun z => Z.shiftr z 8) l))) = l.
Proof.
  induction 1 as [| b l Hb Hl IH]; cbn [map zip_with]; [done |].
  by rewrite IH, block_id_cell.
Qed.

(** No cell of [Blocks >> 8] is set: all IDs fit a byte. *)
Lemma any_rshift_false (l : list Z) :
  Forall (fun z => 0 <= z <= 4095) l ->
  existsb (fun z => negb (z =? 0)) (map (fun z => Z.shiftr z 8) l) = false ->
  Forall (fun z => 0 <= z <= 255) l.
Proof.
  induction 1 as [| b l Hb Hl IH]; cbn [map existsb]; intros Hany; [constructor |].
  apply orb_false_elim in Hany as [Hb0 Hrest]. constructor; [| by apply IH].
  apply negb_false_iff, Z.eqb_eq in Hb0.
  rewrite Z.shiftr_div_pow2 in Hb0 by lia. change (2 ^ 8) with 256 in Hb0.
  pose proof (Z.div_mod b 256 ltac:(lia)) as Hdm.
  pose proof (Z.mod_pos_bound b 256 ltac:(lia)). lia.
Qed.

Lemma any_rshift_true (l : list Z) :
  Forall (fun z => 0 <= z) l ->
  existsb (fun z => negb (z =? 0)) (map (fun z => Z.shiftr z 8) l) = true <->
  Exists (fun z => 256 <= z) l.
Proof.
  induction 1 as [| b l Hb Hl IH]; cbn [map existsb].
  - split; [done | by intros ?%Exists_nil].
  - rewrite orb_true_iff, Exists_cons, IH.
    assert (negb (Z.shiftr b 8 =? 0) = true <-> 256 <= b); [| tauto].
    rewrite negb_true_iff, Z.eqb_neq, Z.shiftr_div_pow2 by lia.
    change (2 ^ 8) with 256.
    pose proof (Z.div_mod b 256 ltac:(lia)) as Hdm.
    pose proof (Z.mod_pos_bound b 256 ltac:(lia)).
    pose proof (Z.div_pos b 256 Hb ltac:(lia)). lia.
Qed.

Lemma grid_okb_spec (d : dtype) (a : ndarray) : grid_okb d a = true -> grid_ok d a.
Proof.
  unfold grid_okb, grid_ok, wf. intros H.
  apply andb_true_iff in H as [H H4]. apply andb_true_iff in H as [H H3].
  apply andb_true_iff in H as [H1 H2].
  apply Nat.eqb_eq in H1. apply bool_decide_eq_true in H3, H4.
  repeat split; try done.
  apply Forall_forall. intros z Hz. rewrite forallb_forall in H2.
  specialize (H2 z). rewrite <- list_elem_of_In in H2. specialize (H2 Hz).
  apply andb_true_iff in H2 as [Ha Hb]. rewrite H3. lia.
Qed.

(** [buildNBTTag] never fails on a section whose grids have their shape. *)
Lemma buildNBTTag_ok (s : AnvilSection.t) :
  section_ok s ->
  AnvilSection.buildNBTTag s = Ok (built_tag s, after_build s).
Proof.
  intros (okBl & okD & okS & okB).
  pose proof (grid_length _ _ okBl) as lBl.
  destruct (packNibbleArray_grid (AnvilSection.Data s) (grid_length _ _ okD)) as [pkD _];
    [apply okD |].
  destruct (packNibbleArray_grid (AnvilSection.SkyLight s) (grid_length _ _ okS)) as [pkS _];
    [apply okS |].
  destruct (packNibbleArray_grid (AnvilSection.BlockLight s) (grid_length _ _ okB)) as [pkB _];
    [apply okB |].
  destruct (packNibbleArray_grid (rshift (AnvilSection.Blocks s) 8)) as [pkA _].
  { cbn [rshift flat]. by rewrite length_map. }
  { cbn [rshift shape]. apply okBl. }
  unfold AnvilSection.buildNBTTag. rewrite pkD, pkB, pkS.
  cbn [mbind result_bind]. unfold after_build, built_tag.
  destruct (any (rshift (AnvilSection.Blocks s) 8)); [rewrite pkA |]; reflexivity.
Qed.

(** The mandatory entries of a built tag. *)
Lemma built_tag_entries (s : AnvilSection.t) :
  find "Y" (built_tag s) = Some (TAG_Byte (AnvilSection.Y s)) /\
  find "Blocks" (built_tag s) = Some (TAG_Byte_Array (astype uint8 (AnvilSection.Blocks s))) /\
  find "Data" (built_tag s) = Some (TAG_Byte_Array (packed (AnvilSection.Data s))) /\
  find "SkyLight" (built_tag s) = Some (TAG_Byte_Array (packed (AnvilSection.SkyLight s))) /\
  find "BlockLight" (built_tag s) = Some (TAG_Byte_Array (packed (AnvilSection.BlockLight s))).
Proof. unfold built_tag. repeat split; by find_key. Qed.

(** The [Add] entry of a built tag: written when a block ID needs it, and
    otherwise whatever the retained tag held. *)
Lemma built_tag_Add (s : AnvilSection.t) :
  find "Add" (built_tag s) =
    if any (rshift (AnvilSection.Blocks s) 8)
    then Some (TAG_Byte_Array (astype uint8 (packed (rshift (AnvilSection.Blocks s) 8))))
    else find "Add" (AnvilSection.old_section_tag s).
Proof.
  unfold built_tag. find_key.
  destruct (any (rshift (AnvilSection.Blocks s) 8)); by find_key.
Qed.

Lemma find_deleted_Add (c : compound) :
  find "Add" (delitem "BlockLight" (delitem "SkyLight" (delitem "Data"
               (delitem "Blocks" (delitem "Y" c))))) = find "Add" c.
Proof. by find_key. Qed.

(** What [_load] makes of the tag of a section whose values are in their
    ranges and whose retained tag held no [Add] entry. *)
Lemma _load_built_tag_in_range (s : AnvilSection.t) :
  section_ok s -> section_in_range s ->
  find "Add" (AnvilSection.old_section_tag s) = None ->
  exists s'',
    AnvilSection._load (built_tag s) = Ok s'' /\
    AnvilSection.Y s'' = AnvilSection.Y s /\
    AnvilSection.Blocks s'' = AnvilSection.Blocks s /\
    AnvilSection.Data s'' = AnvilSection.Data s /\
    AnvilSection.SkyLight s'' = AnvilSection.SkyLight s /\
    AnvilSection.BlockLight s'' = AnvilSection.BlockLight s.
Proof.
  intros Hok (rBl & rD & rS & rB) Hold.
  pose proof Hok as (okBl & okD & okS & okB).
  pose proof (grid_length _ _ okBl) as lBl.
  pose proof (grid_length _ _ okD) as lD.
  pose proof (grid_length _ _ okS) as lS.
  pose proof (grid_length _ _ okB) as lB.
  destruct (built_tag_entries s) as (eY & eBl & eD & eS & eB).
  assert (l8 : length (flat (astype uint8 (AnvilSection.Blocks s))) = 4096%nat)
    by (cbn [astype flat]; by rewrite length_map).
  rewrite (_load_entries _ _ _ _ _ _ eY eBl l8
             eD (length_packed _ lD) eS (length_packed _ lS) eB (length_packed _ lB)).
  cbn zeta. unfold pop_default. rewrite find_deleted_Add, built_tag_Add.
  assert (HD : unpacked (packed (AnvilSection.Data s)) = AnvilSection.Data s).
  { destruct (unpacked_packed _ lD rD) as [-> _].
    destruct okD as (_ & Hd & Hs). destruct (AnvilSection.Data s); cbn in *. by subst. }
  assert (HS : unpacked (packed (AnvilSection.SkyLight s)) = AnvilSection.SkyLight s).
  { destruct (unpacked_packed _ lS rS) as [-> _].
    destruct okS as (_ & Hd & Hs). destruct (AnvilSection.SkyLight s); cbn in *. by subst. }
  assert (HB : unpacked (packed (AnvilSection.BlockLight s)) = AnvilSection.BlockLight s).
  { destruct (unpacked_packed _ lB rB) as [-> _].
    destruct okB as (_ & Hd & Hs). destruct (AnvilSection.BlockLight s); cbn in *. by subst. }
  rewrite HD, HS, HB.
  destruct okBl as (_ & dBl & sBl).
  destruct (AnvilSection.Blocks s) as [d shp cells] eqn:EBl.
  cbn [dtype_of shape flat] in *. subst d shp.
  unfold cells_le in rBl. cbn [flat] in rBl.
  destruct (any (rshift _ 8)) eqn:Hany.
  - (* some ID needs its high nibble *)
    set (add := rshift (mk_ndarray uint16 [16; 16; 16]%nat cells) 8).
    assert (lA : length (flat add) = 4096%nat) by (cbn; by rewrite length_map).
    assert (rA : cells_le 15 add).
    { unfold cells_le. cbn. apply Forall_map.
      eapply Forall_impl; [exact rBl |]. intros z Hz. by apply high_nibble_range. }
    destruct (unpacked_packed add lA rA) as [Hup Hpr].
    cbn [mbind result_bind array_value].
    rewrite (astype_small uint8 (packed add)) by exact Hpr.
    rewrite set_shape_ok by (cbn [flat]; by apply length_packed).
    cbn [dtype_of flat mbind result_bind].
    change (unpackNibbleArray (mk_ndarray uint8 [16; 16; 8]%nat (flat (packed add))))
      with (Ok (unpacked (packed add))).
    rewrite Hup. cbn [mbind result_bind]. unfold ior.
    cbn [shape lshift astype dtype_of flat]. rewrite decide_True by done.
    cbn [mret result_ret]. eexists. split; [reflexivity |].
    cbn. repeat split; try done. f_equal.
    unfold add. cbn [rshift flat]. by apply block_cells_join.
  - (* all IDs fit a byte, and no stale entry is in the way *)
    rewrite Hold. cbn [mbind result_bind mret result_ret].
    eexists. split; [reflexivity |].
    cbn. repeat split; try done. f_equal.
    pose proof (any_rshift_false cells rBl Hany) as Hsmall.
    clear -Hsmall. induction Hsmall as [| b l Hb Hl IH]; cbn [map]; [done |].
    rewrite IH. f_equal.
    rewrite (cast_small uint8 b) by (cbn; lia). apply cast_small. cbn; lia.
Qed.

(** X1: a section whose grids are 16x16x16 with values in their ranges, and
    whose retained tag holds no [Add] entry (as after [_create] or [_load]),
    is encoded by [buildNBTTag] and decoded by [_load] into a section with
    the same [Y] and the same four grids. *)
Lemma section_round_trip (s : AnvilSection.t) :
  section_ok s -> section_in_range s ->
  find "Add" (AnvilSection.old_section_tag s) = None ->
  exists tag s' s'',
    AnvilSection.buildNBTTag s = Ok (tag, s') /\
    AnvilSection._load tag = Ok s'' /\
    AnvilSection.Y s'' = AnvilSection.Y s /\
    AnvilSection.Blocks s'' = AnvilSection.Blocks s /\
    AnvilSection.Data s'' = AnvilSection.Data s /\
    AnvilSection.SkyLight s'' = AnvilSection.SkyLight s /\
    AnvilSection.BlockLight s'' = AnvilSection.BlockLight s.
Proof.
  intros Hok Hrange Hold.
  destruct (_load_built_tag_in_range s Hok Hrange Hold) as (s'' & Hload & Heq).
  exists (built_tag s), (after_build s), s''.
  split; [by apply buildNBTTag_ok |]. by split.
Qed.

(** X2: with no [Add] left in the retained tag, the tag that [buildNBTTag]
    returns has an [Add] entry exactly when some block ID is 256 or more. *)
Lemma Add_written_iff (s : AnvilSection.t) :
  section_ok s ->
  find "Add" (AnvilSection.old_section_tag s) = None ->
  exists tag s',
    AnvilSection.buildNBTTag s = Ok (tag, s') /\
    (contains "Add" tag = true <->
     Exists (fun z => 256 <= z) (flat (AnvilSection.Blocks s))).
Proof.
  intros Hok Hold. exists (built_tag s), (after_build s).
  split; [by apply buildNBTTag_ok |].
  unfold contains. rewrite built_tag_Add.
  destruct Hok as ((( _ & Hr) & _) & _).
  assert (Hpos : Forall (fun z => 0 <= z) (flat (AnvilSection.Blocks s))).
  { eapply Forall_impl; [exact Hr |]. cbn. intros z Hz. lia. }
  rewrite <- (any_rshift_true _ Hpos).
  unfold any. cbn [rshift flat].
  destruct (existsb _ _); [done |]. rewrite Hold. split; discriminate.
Qed.

(** [buildNBTTag] never removes an [Add] entry: one that is in the retained
    tag is in the tag returned, whatever the block IDs are now. *)
Lemma Add_never_removed (s : AnvilSection.t) :
  section_ok s ->
  contains "Add" (AnvilSection.old_section_tag s) = true ->
  exists tag s',
    AnvilSection.buildNBTTag s = Ok (tag, s') /\ contains "Add" tag = true.
Proof.
  intros Hok Hold. exists (built_tag s), (after_build s).
  split; [by apply buildNBTTag_ok |].
  unfold contains in *. rewrite built_tag_Add.
  by destruct (any (rshift (AnvilSection.Blocks s) 8)).
Qed.

(** The retained tag after a save holds what the save wrote. *)
Lemma Add_retained (s : AnvilSection.t) :
  section_ok s ->
  Exists (fun z => 256 <= z) (flat (AnvilSection.Blocks s)) ->
  exists tag s',
    AnvilSection.buildNBTTag s = Ok (tag, s') /\
    contains "Add" (AnvilSection.old_section_tag s') = true.
Proof.
  intros Hok Hbig. exists (built_tag s), (after_build s).
  split; [by apply buildNBTTag_ok |].
  cbn [after_build AnvilSection.old_section_tag].
  unfold contains. rewrite built_tag_Add.
  destruct Hok as ((( _ & Hr) & _) & _).
  assert (Hpos : Forall (fun z => 0 <= z) (flat (AnvilSection.Blocks s))).
  { eapply Forall_impl; [exact Hr |]. cbn. intros z Hz. lia. }
  apply (any_rshift_true _ Hpos) in Hbig.
  unfold any. cbn [rshift flat]. by rewrite Hbig.
Qed.

Lemma section_okb_spec (s : AnvilSection.t) : section_okb s = true -> section_ok s.
Proof.
  unfold section_okb, section_ok. intros H.
  apply andb_true_iff in H as [H H4]. apply andb_true_iff in H as [H H3].
  apply andb_true_iff in H as [H1 H2].
  split; [| split; [| split]]; by apply grid_okb_spec.
Qed.

Lemma section_in_rangeb_spec (s : AnvilSection.t) :
  section_in_rangeb s = true -> section_in_range s.
Proof.
  unfold section_in_rangeb, section_in_range. intros H.
  apply andb_true_iff in H as [H H4]. apply andb_true_iff in H as [H H3].
  apply andb_true_iff in H as [H1 H2].
  split; [| split; [| split]]; by apply cells_leb_spec.
Qed.

(** The scenario, step by step. *)
Lemma resave_after_edit_eq :
  let s0 := edit_Blocks (<[0%nat := 256]>) AnvilSection._create in
  let s1 := edit_Blocks (<[0%nat := 1]>) (after_build s0) in
  section_ok s1 /\ section_in_range s1 /\
  resave_after_edit = Ok (built_tag s1, after_build s1).
Proof.
  intros s0 s1.
  assert (Hok0 : section_ok s0) by (apply section_okb_spec; by vm_compute).
  assert (Hok1 : section_ok s1) by (apply section_okb_spec; by vm_compute).
  split; [done |]. split; [apply section_in_rangeb_spec; by vm_compute |].
  unfold resave_after_edit. fold s0.
  rewrite (buildNBTTag_ok s0 Hok0). cbn [mbind result_bind]. fold s1.
  by apply buildNBTTag_ok.
Qed.

(** C3 (the code at the failing input): after a save with the block ID 256
    and an edit back to the ID 1, every block ID of the section is at most
    255, yet the tag [buildNBTTag] returns still has its [Add] entry: the call
    only ever writes the entry, and the tag it writes to is the one of the
    save before. *)
Theorem stale_Add_is_emitted :
  exists tag s,
    resave_after_edit = Ok (tag, s) /\
    section_ok s /\
    cells_le 255 (AnvilSection.Blocks s) /\
    contains "Add" tag = true.
Proof.
  destruct resave_after_edit_eq as (Hok & _ & ->).
  eexists _, _. split; [reflexivity |]. split; [exact Hok |].
  split; [apply cells_leb_spec; by vm_compute |].
  unfold contains. rewrite built_tag_Add.
  match goal with
  | |- context [any ?a] => replace (any a) with false by (by vm_compute)
  end.
  cbn [edit_Blocks after_build AnvilSection.old_section_tag].
  rewrite built_tag_Add.
  match goal with
  | |- context [any ?a] => by replace (any a) with true by (by vm_compute)
  end.
Qed.

(** C2 (the code at the failing input): the same section, all of whose values
    are within their ranges, does not survive encoding and decoding: the block
    that holds the ID 1 comes back as 257, the stale high nibble added. *)
Theorem stale_Add_breaks_round_trip :
  exists tag s s',
    resave_after_edit = Ok (tag, s) /\
    section_ok s /\ section_in_range s /\
    AnvilSection._load tag = Ok s' /\
    flat (AnvilSection.Blocks s) !! 0%nat = Some 1 /\
    flat (AnvilSection.Blocks s') !! 0%nat = Some 257.
Proof.
  destruct resave_after_edit_eq as (Hok & Hr & ->).
  eexists _, _, _. split; [reflexivity |].
  split; [exact Hok |]. split; [exact Hr |].
  split; [vm_compute; reflexivity |].
  split; by vm_compute.
Qed.

(** *** Chunks *)

Lemma not_any_iff (l : list Z) :
  existsb (fun z => negb (z =? 0)) l = false <-> Forall (fun z => z = 0) l.
Proof.
  induction l as [| z l IH]; cbn [existsb].
  - split; [constructor | done].
  - rewrite orb_false_iff, negb_false_iff, Z.eqb_eq, IH, Forall_cons. tauto.
Qed.

Lemma all_eq_iff (v : Z) (l : list Z) :
  forallb (fun z => z =? v) l = true <-> Forall (fun z => z = v) l.
Proof.
  induction l as [| z l IH]; cbn [forallb].
  - split; [constructor | done].
  - rewrite andb_true_iff, Z.eqb_eq, IH, Forall_cons. tauto.
Qed.

(** The test of [buildNBTTag] is the elision rule of the specification. *)
Lemma elided_spec (s : AnvilSection.t) :
  AnvilChunkData.elided s = true <-> trivial_section s.
Proof.
  unfold AnvilChunkData.elided, trivial_section, any, all_eq.
  rewrite !andb_true_iff, !negb_true_iff, !not_any_iff, all_eq_iff. tauto.
Qed.

Lemma setitem_cons (k : string) (v : tag) (c : compound) :
  exists e rest, setitem k v c = e :: rest.
Proof.
  destruct c as [| [k' v'] c]; cbn [setitem]; [by eexists _, _ |].
  destruct (String.eqb k k'); by eexists _, _.
Qed.

Lemma __init___nonempty (c : compound) :
  c <> [] -> AnvilSection.__init__ (Some c) = AnvilSection._load c.
Proof. intros H. destruct c; [done | reflexivity]. Qed.

(** A tag that [buildNBTTag] wrote loads again, whatever the cells. *)
Lemma _load_built_tag (s : AnvilSection.t) :
  section_ok s -> retained_ok (AnvilSection.old_section_tag s) ->
  exists s', AnvilSection.__init__ (Some (built_tag s)) = Ok s' /\
             AnvilSection.Y s' = AnvilSection.Y s.
Proof.
  intros Hok Hret. pose proof Hok as (okBl & okD & okS & okB).
  pose proof (grid_length _ _ okBl) as lBl.
  pose proof (grid_length _ _ okD) as lD.
  pose proof (grid_length _ _ okS) as lS.
  pose proof (grid_length _ _ okB) as lB.
  destruct (built_tag_entries s) as (eY & eBl & eD & eS & eB).
  assert (l8 : length (flat (astype uint8 (AnvilSection.Blocks s))) = 4096%nat)
    by (cbn [astype flat]; by rewrite length_map).
  assert (Hinit : AnvilSection.__init__ (Some (built_tag s))
                  = AnvilSection._load (built_tag s)).
  { apply __init___nonempty. unfold built_tag. cbn zeta.
    match goal with
    | |- setitem ?k ?v ?c <> [] =>
        destruct (setitem_cons k v c) as (e & rest & ->); discriminate
    end. }
  rewrite Hinit.
  rewrite (_load_entries _ _ _ _ _ _ eY eBl l8
             eD (length_packed _ lD) eS (length_packed _ lS) eB (length_packed _ lB)).
  cbn zeta. unfold pop_default. rewrite find_deleted_Add, built_tag_Add.
  assert (Hadd : forall a, length (flat a) = 2048%nat ->
            exists Bl,
              (a ← array_value (TAG_Byte_Array a);
               a ← set_shape [16; 16; 8]%nat a;
               add ← unpackNibbleArray a;
               ior (mk_ndarray uint16 [16; 16; 16]%nat
                      (map (cast uint16) (flat (astype uint8 (AnvilSection.Blocks s)))))
                   (lshift (astype uint16 add) 8)) = Ok Bl).
  { intros a Ha. cbn [array_value mbind result_bind].
    rewrite set_shape_ok by (by rewrite Ha). cbn [mbind result_bind].
    unfold unpackNibbleArray. cbn [shape mbind result_bind].
    unfold ior. cbn [shape lshift astype]. rewrite decide_True by done. by eexists. }
  destruct (any (rshift _ 8)).
  - destruct (Hadd (astype uint8 (packed (rshift (AnvilSection.Blocks s) 8)))) as [Bl HBl].
    { cbn [astype flat]. rewrite length_map. apply length_packed.
      cbn [rshift flat]. by rewrite length_map. }
    rewrite HBl. cbn [mbind result_bind mret result_ret]. by eexists.
  - unfold retained_ok in Hret.
    destruct (find "Add" (AnvilSection.old_section_tag s)) as [[] |] eqn:E; try done.
    + destruct (Hadd value Hret) as [Bl HBl].
      rewrite HBl. cbn [mbind result_bind mret result_ret]. by eexists.
    + cbn [mbind result_bind mret result_ret]. by eexists.
Qed.

(** The loop of [buildNBTTag]: the tags of the sections that are not elided,
    in the order of the iteration. *)
Lemma build_sections_ok (items : list (Z * AnvilSection.t)) :
  Forall (fun p => section_ok p.2) items ->
  forall (acc : list tag) (c : AnvilChunkData.t),
  exists c',
    AnvilChunkData.build_sections items acc c
    = (Ok (acc ++ map (fun p => TAG_Compound (built_tag p.2))
                    (filter (fun p => AnvilChunkData.elided p.2 = false) items)), c') /\
    AnvilChunkData.rootTag c' = AnvilChunkData.rootTag c /\
    AnvilChunkData.Entities c' = AnvilChunkData.Entities c /\
    AnvilChunkData.TileEntities c' = AnvilChunkData.TileEntities c.
Proof.
  induction 1 as [| [cy s] items Hs Hitems IH]; intros acc c.
  - exists c. cbn [AnvilChunkData.build_sections]. rewrite filter_nil.
    cbn [map]. by rewrite app_nil_r.
  - cbn [AnvilChunkData.build_sections]. cbn [snd] in Hs.
    destruct (AnvilChunkData.elided s) eqn:E.
    + rewrite filter_cons_False by (cbn; congruence). apply IH.
    + rewrite filter_cons_True by done. cbn [map snd].
      unfold mbind at 1, M_bind, lift. rewrite (buildNBTTag_ok s Hs).
      unfold mbind at 1, M_bind, modify.
      destruct (IH (acc ++ [TAG_Compound (built_tag s)])
                  (AnvilChunkData.set_sections (insert cy (after_build s)) c))
        as (c' & -> & Hr & He & Ht).
      exists c'. by rewrite <- app_assoc.
Qed.

(** The tag of a chunk: its root tag with the section list and the two
    entity lists put into [Level]. *)
Lemma chunk_buildNBTTag_ok (c : AnvilChunkData.t) (level : compound) :
  find "Level" (AnvilChunkData.rootTag c) = Some (TAG_Compound level) ->
  (forall cy s, AnvilChunkData._sections c !! cy = Some s -> section_ok s) ->
  exists c',
    AnvilChunkData.buildNBTTag c
    = (Ok (setitem "Level"
             (TAG_Compound
                (setitem "TileEntities" (TAG_List (AnvilChunkData.TileEntities c))
                   (setitem "Entities" (TAG_List (AnvilChunkData.Entities c))
                      (setitem "Sections"
                         (TAG_List
                            (map (fun p => TAG_Compound (built_tag p.2))
                               (filter (fun p => AnvilChunkData.elided p.2 = false)
                                  (map_to_list (AnvilChunkData._sections c)))))
                         level))))
             (AnvilChunkData.rootTag c)), c').
Proof.
  intros Hlevel Hsec.
  assert (Hitems : Forall (fun p => section_ok p.2)
                     (map_to_list (AnvilChunkData._sections c))).
  { apply Forall_forall. intros [cy s] Hin. apply elem_of_map_to_list in Hin.
    by apply (Hsec cy). }
  destruct (build_sections_ok _ Hitems [] c) as (c' & Hb & Hr & He & Ht).
  exists c'. unfold AnvilChunkData.buildNBTTag.
  unfold mbind at 1, M_bind, get.
  unfold mbind at 1, M_bind. rewrite Hb. cbn [app].
  unfold mbind at 1, M_bind.
  unfold mbind at 1, M_bind, lift, getitem. rewrite Hlevel.
  cbn [mbind result_bind compound_value]. rewrite He, Ht. reflexivity.
Qed.

(** The loop of [_load] over tags that [buildNBTTag] wrote: a section under
    every stored [Y], and nothing else new. *)
Lemma load_sections_built (ss : list AnvilSection.t) :
  Forall (fun s => section_ok s /\ retained_ok (AnvilSection.old_section_tag s)) ss ->
  forall m : gmap Z AnvilSection.t,
  exists m',
    AnvilChunkData.load_sections (map (fun s => TAG_Compound (built_tag s)) ss) m = Ok m' /\
    forall cy, is_Some (m' !! cy) <->
               is_Some (m !! cy) \/ cy ∈ map AnvilSection.Y ss.
Proof.
  induction 1 as [| s ss [Hok Hret] Hss IH]; intros m.
  - exists m. split; [done |]. intros cy. cbn [map].
    rewrite elem_of_nil. tauto.
  - cbn [map AnvilChunkData.load_sections compound_value mbind result_bind].
    destruct (built_tag_entries s) as (eY & _).
    unfold getitem. rewrite eY. cbn [mbind result_bind int_value].
    destruct (_load_built_tag s Hok Hret) as (s' & -> & HY).
    cbn [mbind result_bind].
    destruct (IH (<[AnvilSection.Y s := s']> m)) as (m' & -> & Hm').
    exists m'. split; [done |]. intros cy. rewrite Hm', elem_of_cons.
    destruct (decide (cy = AnvilSection.Y s)) as [-> | Hne].
    + rewrite lookup_insert_eq. split; [intros _; by right; left |].
      intros _. left. by eexists.
    + rewrite lookup_insert_ne by done. tauto.
Qed.

Lemma held_section_Y (c : AnvilChunkData.t) (cy : Z) :
  chunk_ok c ->
  cy ∈ map AnvilSection.Y
         (map snd (filter (fun p => AnvilChunkData.elided p.2 = false)
                     (map_to_list (AnvilChunkData._sections c)))) <->
  exists s, AnvilChunkData._sections c !! cy = Some s /\ ~ trivial_section s.
Proof.
  intros [_ Hsec]. rewrite list_elem_of_In, in_map_iff. split.
  - intros (s & HY & Hin). apply in_map_iff in Hin as ([cy' s'] & Hs & Hin).
    cbn [snd] in Hs. subst s'.
    apply list_elem_of_In, list_elem_of_filter in Hin as [He Hin].
    apply elem_of_map_to_list in Hin. cbn [snd] in He.
    destruct (Hsec cy' s Hin) as (HY' & _). exists s. split; [congruence |].
    rewrite <- elided_spec. congruence.
  - intros (s & Hs & Hnt). exists s. split; [by apply Hsec |].
    apply in_map_iff. exists (cy, s). split; [done |].
    apply list_elem_of_In, list_elem_of_filter. split.
    + cbn [snd]. rewrite <- elided_spec in Hnt. by destruct (AnvilChunkData.elided s).
    + by apply elem_of_map_to_list.
Qed.

(** C4: the [Sections] list that [buildNBTTag] puts into the chunk's tag
    holds the encoded tag of every held section that is not trivial (some
    block or some block light not zero, or some sky light not 15), once each,
    and nothing else; the chunk loaded again from that tag has a section at an
    index exactly when the saved chunk held a section there that was not
    trivial, so a trivial one leaves no section at its index. *)
Theorem elided_sections_are_omitted (c : AnvilChunkData.t) :
  chunk_ok c ->
  exists tag secs c' reloaded,
    AnvilChunkData.buildNBTTag c = (Ok tag, c') /\
    saved_sections tag = Some secs /\
    (forall t, t ∈ secs <->
       exists cy s t' s',
         AnvilChunkData._sections c !! cy = Some s /\ ~ trivial_section s /\
         AnvilSection.buildNBTTag s = Ok (t', s') /\ t = TAG_Compound t') /\
    length secs
    = length (filter (fun p => AnvilChunkData.elided p.2 = false)
                (map_to_list (AnvilChunkData._sections c))) /\
    AnvilChunkData.__init__ (AnvilChunkData.cx c) (AnvilChunkData.cz c)
      (AnvilChunkData.dimName c) (Some tag) false = Ok reloaded /\
    (forall cy s, AnvilChunkData._sections c !! cy = Some s -> trivial_section s ->
       AnvilChunkData._sections reloaded !! cy = None) /\
    (forall cy, is_Some (AnvilChunkData._sections reloaded !! cy) <->
       exists s, AnvilChunkData._sections c !! cy = Some s /\ ~ trivial_section s).
Proof.
  intros Hc. pose proof Hc as [[level Hlevel] Hsec].
  destruct (chunk_buildNBTTag_ok c level Hlevel) as [c' Hb].
  { intros cy s Hs. by apply (Hsec cy). }
  set (items := filter (fun p => AnvilChunkData.elided p.2 = false)
                  (map_to_list (AnvilChunkData._sections c))) in *.
  set (secs := map (fun p : Z * AnvilSection.t => TAG_Compound (built_tag p.2)) items) in *.
  set (L := setitem "TileEntities" (TAG_List (AnvilChunkData.TileEntities c))
              (setitem "Entities" (TAG_List (AnvilChunkData.Entities c))
                 (setitem "Sections" (TAG_List secs) level))) in *.
  set (tag := setitem "Level" (TAG_Compound L) (AnvilChunkData.rootTag c)) in *.
  assert (HL : find "Level" tag = Some (TAG_Compound L)) by apply find_setitem_eq.
  assert (HS : find "Sections" L = Some (TAG_List secs)) by (unfold L; by find_key).
  (* the reload *)
  assert (Hss : Forall (fun s => section_ok s /\ retained_ok (AnvilSection.old_section_tag s))
                  (map snd items)).
  { apply Forall_forall. intros s Hin.
    apply list_elem_of_In, in_map_iff in Hin as ([cy s'] & <- & Hin).
    apply list_elem_of_In, list_elem_of_filter in Hin as [_ Hin].
    apply elem_of_map_to_list in Hin. destruct (Hsec cy s' Hin) as (_ & ? & ?). done. }
  destruct (load_sections_built _ Hss ∅) as (m' & Hm' & Hdom).
  rewrite map_map in Hm'. fold secs in Hm'.
  assert (Hreload : exists reloaded,
            AnvilChunkData.__init__ (AnvilChunkData.cx c) (AnvilChunkData.cz c)
              (AnvilChunkData.dimName c) (Some tag) false = Ok reloaded /\
            AnvilChunkData._sections reloaded = m').
  { unfold AnvilChunkData.__init__, AnvilChunkData._load, getitem.
    rewrite HL. cbn [mbind result_bind compound_value].
    unfold pop_default. rewrite HS. cbn [mbind result_bind list_value].
    rewrite Hm'. cbn [mbind result_bind mret result_ret].
    rewrite find_setitem_eq. cbn [mbind result_bind compound_value].
    set (L' := if contains "Biomes" (delitem "Sections" L) then delitem "Sections" L
               else setitem "Biomes" (TAG_Byte_Array AnvilChunkData.default_biomes)
                      (delitem "Sections" L)).
    assert (HE : find "Entities" L' = Some (TAG_List (AnvilChunkData.Entities c))).
    { unfold L', L. destruct (contains "Biomes" _); by find_key. }
    assert (HT : find "TileEntities" (delitem "Entities" L')
                 = Some (TAG_List (AnvilChunkData.TileEntities c))).
    { unfold L', L. destruct (contains "Biomes" _); by find_key. }
    rewrite HE. cbn [mbind result_bind list_value]. rewrite HT.
    cbn [mbind result_bind list_value]. by eexists. }
  destruct Hreload as (reloaded & Hre & Hsecs).
  assert (Hiff : forall cy, is_Some (AnvilChunkData._sections reloaded !! cy) <->
            exists s, AnvilChunkData._sections c !! cy = Some s /\ ~ trivial_section s).
  { intros cy. rewrite Hsecs, Hdom, lookup_empty, <- (held_section_Y c cy Hc).
    fold items. split; [intros [[? ?] | ?]; done | by right]. }
  exists tag, secs, c', reloaded.
  split; [exact Hb |].
  split; [unfold saved_sections; by rewrite HL, HS |].
  split.
  { intros t. unfold secs. rewrite list_elem_of_In, in_map_iff. split.
    - intros ([cy s] & <- & Hin).
      apply list_elem_of_In, list_elem_of_filter in Hin as [He Hin].
      apply elem_of_map_to_list in Hin. cbn [snd] in *.
      destruct (Hsec cy s Hin) as (_ & Hok & _).
      exists cy, s, (built_tag s), (after_build s).
      split; [done |]. split; [rewrite <- elided_spec; congruence |].
      split; [by apply buildNBTTag_ok | done].
    - intros (cy & s & t' & s' & Hs & Hnt & Hbuild & ->).
      destruct (Hsec cy s Hs) as (_ & Hok & _).
      rewrite (buildNBTTag_ok s Hok) in Hbuild. injection Hbuild as <- <-.
      exists (cy, s). split; [done |].
      apply list_elem_of_In, list_elem_of_filter. split.
      + cbn [snd]. rewrite <- elided_spec in Hnt.
        by destruct (AnvilChunkData.elided s).
      + by apply elem_of_map_to_list. }
  split; [unfold secs; by rewrite length_map |].
  split; [exact Hre |].
  split; [| exact Hiff].
  intros cy s Hs Htriv.
  destruct (AnvilChunkData._sections reloaded !! cy) as [s2 |] eqn:E; [| done].
  assert (His : is_Some (AnvilChunkData._sections reloaded !! cy)) by (by rewrite E).
  apply Hiff in His as (s3 & Hs3 & Hnt). congruence.
Qed.

(** *** What the chunk code establishes *)

Lemma new_chunk_eq : AnvilChunkData.__init__ 0 0 "" None true = Ok new_chunk.
Proof. reflexivity. Qed.

Lemma new_section_ok (cy : Z) :
  section_ok (new_section cy) /\ retained_ok (AnvilSection.old_section_tag (new_section cy)).
Proof. split; [apply section_okb_spec; by vm_compute | exact I]. Qed.

(** [getSection] keeps the invariant of the chunk. *)
Lemma getSection_chunk_ok (cy : Z) (create : bool) (c : AnvilChunkData.t) :
  chunk_ok c -> chunk_ok (AnvilChunkData.getSection cy create c).2.
Proof.
  intros Hc. unfold AnvilChunkData.getSection.
  destruct (_ || _); [by destruct create |].
  unfold mbind, M_bind, get.
  destruct (AnvilChunkData._sections c !! cy) as [s |] eqn:E; [done |].
  destruct create; [| done]. cbn.
  destruct Hc as [Hl Hsec]. split; [done |].
  intros cy' s'. cbn. rewrite lookup_insert_Some.
  intros [[<- <-] | [Hne Hs]]; [| by apply Hsec].
  split; [done |]. apply (new_section_ok cy).
Qed.

(** X3: for an index [cy] with [(cy << 4) > maxHeight] or [cy < 0],
    [getSection] raises [ValueError] when asked to create and returns [None]
    when not, and leaves the chunk as it was. *)
Lemma getSection_rejected (cy : Z) (c : AnvilChunkData.t) :
  maxHeight < Z.shiftl cy 4 \/ cy < 0 ->
  AnvilChunkData.getSection cy true c = (Raise ValueError, c) /\
  AnvilChunkData.getSection cy false c = (Ok None, c).
Proof.
  intros H. unfold AnvilChunkData.getSection.
  assert ((Z.shiftl cy 4 >? maxHeight) || (cy <? 0) = true) as ->; [| done].
  apply orb_true_iff. destruct H; [left | right]; lia.
Qed.

(** Inside the range it tests, [getSection] creates what is missing. *)
Lemma getSection_creates (cy : Z) (c : AnvilChunkData.t) :
  Z.shiftl cy 4 <= maxHeight -> 0 <= cy ->
  AnvilChunkData._sections c !! cy = None ->
  AnvilChunkData.getSection cy true c
  = (Ok (Some (new_section cy)),
     AnvilChunkData.set_sections (insert cy (new_section cy)) c).
Proof.
  intros Hhi Hlo Hnone. unfold AnvilChunkData.getSection.
  assert ((Z.shiftl cy 4 >? maxHeight) || (cy <? 0) = false) as ->.
  { apply orb_false_iff. split; lia. }
  unfold mbind, M_bind, get. by rewrite Hnone.
Qed.

Lemma getSection_held (cy : Z) (create : bool) (c : AnvilChunkData.t) (s : AnvilSection.t) :
  Z.shiftl cy 4 <= maxHeight -> 0 <= cy ->
  AnvilChunkData._sections c !! cy = Some s ->
  AnvilChunkData.getSection cy create c = (Ok (Some s), c).
Proof.
  intros Hhi Hlo Hs. unfold AnvilChunkData.getSection.
  assert ((Z.shiftl cy 4 >? maxHeight) || (cy <? 0) = false) as ->.
  { apply orb_false_iff. split; lia. }
  unfold mbind, M_bind, get. by rewrite Hs.
Qed.

(** C6 (the code at the failing input): the slab of index 16 starts at
    [maxHeight], outside the world, and [getSection(16, create=True)] on a new
    chunk raises nothing: it creates the section and files it; from then on
    [getSection(16, create=False)] returns that section. *)
Theorem getSection_16_is_created :
  Z.shiftl 16 4 = maxHeight /\
  exists s c',
    AnvilChunkData.getSection 16 true new_chunk = (Ok (Some s), c') /\
    AnvilSection.Y s = 16 /\
    AnvilChunkData._sections c' !! 16 = Some s /\
    AnvilChunkData.getSection 16 false c' = (Ok (Some s), c').
Proof.
  split; [reflexivity |].
  exists (new_section 16),
         (AnvilChunkData.set_sections (insert 16 (new_section 16)) new_chunk).
  assert (Hin : AnvilChunkData._sections
                  (AnvilChunkData.set_sections (insert 16 (new_section 16)) new_chunk)
                !! 16 = Some (new_section 16)) by apply lookup_insert_eq.
  split; [apply getSection_creates; [by vm_compute | lia | apply lookup_empty] |].
  split; [done |]. split; [exact Hin |].
  apply getSection_held; [by vm_compute | lia | exact Hin].
Qed.

Lemma sample_chunk_ok : chunk_ok sample_chunk.
Proof.
  split; [by eexists |].
  intros cy s. cbn [sample_chunk AnvilChunkData.set_sections AnvilChunkData._sections].
  rewrite lookup_insert_Some, lookup_insert_Some, lookup_empty.
  intros [[<- <-] | [_ [[<- <-] | [_ ?]]]]; [| | done].
  - split; [done |]. split; [apply section_okb_spec; by vm_compute | exact I].
  - split; [done |]. apply (new_section_ok 1).
Qed.

(** In the sample chunk the section at index 0 is the trivial one: it is not
    saved and not there after the reload; the one at index 1 is. *)
Lemma elided_sections_are_omitted_witness :
  chunk_ok sample_chunk /\
  AnvilChunkData._sections sample_chunk !! 0 = Some open_sky_section /\
  trivial_section open_sky_section /\
  exists tag secs c' reloaded,
    AnvilChunkData.buildNBTTag sample_chunk = (Ok tag, c') /\
    saved_sections tag = Some secs /\
    length secs = 1%nat /\
    AnvilChunkData.__init__ 0 0 "" (Some tag) false = Ok reloaded /\
    AnvilChunkData._sections reloaded !! 0 = None /\
    is_Some (AnvilChunkData._sections reloaded !! 1).
Proof.
  assert (H0 : AnvilChunkData._sections sample_chunk !! 0 = Some open_sky_section)
    by apply lookup_insert_eq.
  assert (Ht : trivial_section open_sky_section) by (apply elided_spec; by vm_compute).
  split; [exact sample_chunk_ok |]. split; [exact H0 |]. split; [exact Ht |].
  destruct (elided_sections_are_omitted sample_chunk sample_chunk_ok)
    as (tag & secs & c' & reloaded & Hb & Hsaved & _ & Hlen & Hre & Hnone & Hsome).
  exists tag, secs, c', reloaded.
  split; [exact Hb |]. split; [exact Hsaved |].
  split; [rewrite Hlen; by vm_compute |].
  split; [exact Hre |]. split; [exact (Hnone 0 open_sky_section H0 Ht) |].
  apply Hsome. exists (new_section 1). split.
  - cbn [sample_chunk AnvilChunkData.set_sections AnvilChunkData._sections].
    rewrite lookup_insert_ne by done. apply lookup_insert_eq.
  - rewrite <- elided_spec. by vm_compute.
Defined.

(** *** The session lock *)

Lemma Z_of_byte_of_Z (z : Z) : struct.Z_of_byte (struct.byte_of_Z z) = z mod 256.
Proof.
  unfold struct.Z_of_byte, struct.byte_of_Z.
  pose proof (Z.mod_pos_bound z 256 ltac:(lia)) as Hm.
  destruct (Byte.of_N (Z.to_N (z mod 256))) as [b |] eqn:E.
  - apply Byte.to_of_N in E. rewrite E. lia.
  - apply Byte.of_N_None_iff in E. lia.
Qed.

Lemma be_value_snoc (s : list byte) (b : byte) :
  struct.be_value (s ++ [b]) = struct.be_value s * 256 + struct.Z_of_byte b.
Proof. unfold struct.be_value. by rewrite fold_left_app. Qed.

Lemma length_be_bytes (n : nat) (u : Z) : length (struct.be_bytes n u) = n.
Proof.
  revert u. induction n as [| n IH]; intros u; cbn [struct.be_bytes]; [done |].
  rewrite length_app, IH. cbn. lia.
Qed.

(** The bytes of a number, read back, are the number, as far as they reach. *)
Lemma be_value_be_bytes (n : nat) (u : Z) :
  struct.be_value (struct.be_bytes n u) = u mod 256 ^ Z.of_nat n.
Proof.
  revert u. induction n as [| n IH]; intros u; cbn [struct.be_bytes].
  - by rewrite Z.mod_1_r.
  - rewrite be_value_snoc, IH, Z_of_byte_of_Z.
    rewrite Nat2Z.inj_succ, Z.pow_succ_r by lia.
    rewrite (Z.rem_mul_r u 256 (256 ^ Z.of_nat n)) by lia. lia.
Qed.

(** [struct.unpack] undoes [struct.pack]. *)
Lemma unpack_pack_q (v : Z) :
  - 2 ^ 63 <= v < 2 ^ 63 ->
  exists packed, struct.pack_q v = Ok packed /\ length packed = 8%nat /\
                 struct.unpack_q packed = Ok v.
Proof.
  intros Hv. unfold struct.pack_q.
  assert ((- 2 ^ 63 <=? v) && (v <? 2 ^ 63) = true) as ->.
  { apply andb_true_iff. split; lia. }
  eexists. split; [reflexivity |]. split; [apply length_be_bytes |].
  unfold struct.unpack_q. rewrite length_be_bytes. cbn [Nat.eqb].
  rewrite be_value_be_bytes. change (256 ^ Z.of_nat 8) with (2 ^ 64).
  rewrite Z.mod_mod by lia. f_equal.
  destruct (Z.lt_ge_cases v 0) as [Hneg | Hpos].
  - replace (v mod 2 ^ 64) with (v + 2 ^ 64).
    + destruct (Z.ltb_spec (v + 2 ^ 64) (2 ^ 63)); lia.
    + apply Z.mod_unique with (-1); [left; lia | lia].
  - rewrite Z.mod_small by lia.
    destruct (Z.ltb_spec v (2 ^ 63)); lia.
Qed.

Section SessionLock.

Context {History Node Changes : Type}.
Context `{!RevisionStore History Node Changes} `{!TagFormat}.

Implicit Types (self : AnvilWorldAdapter.t (Node := Node)).
Implicit Types (w : AnvilWorldAdapter.World (History := History)).

Lemma acquireSessionLock_ok self w (now : Z) (packed : list byte) :
  struct.pack_q now = Ok packed ->
  AnvilWorldAdapter.acquireSessionLock now (self, w)
  = (Ok tt, (AnvilWorldAdapter.set_lockTime now self,
             AnvilWorldAdapter.set_session_lock packed w)).
Proof.
  intros Hp. unfold AnvilWorldAdapter.acquireSessionLock.
  unfold mbind, M_bind, modify, lift. by rewrite Hp.
Qed.

(** What [checkSessionLock] decides on a writable adapter. *)
Lemma checkSessionLock_decides self w (contents : list byte) :
  AnvilWorldAdapter.readonly self = false ->
  AnvilWorldAdapter.session_lock w = Some contents ->
  (struct.unpack_q contents = Ok (AnvilWorldAdapter.lockTime self) ->
   AnvilWorldAdapter.checkSessionLock (self, w) = (Ok tt, (self, w))) /\
  (struct.unpack_q contents <> Ok (AnvilWorldAdapter.lockTime self) ->
   AnvilWorldAdapter.lockTime self <> -1 \/ struct.unpack_q contents <> Raise struct_error ->
   exists msg,
     AnvilWorldAdapter.checkSessionLock (self, w) = (Raise (SessionLockLost msg), (self, w))).
Proof.
  intros Hrw Hlock. unfold AnvilWorldAdapter.checkSessionLock.
  unfold mbind, M_bind, get. rewrite Hrw, Hlock. split.
  - intros ->. by rewrite Z.eqb_refl.
  - intros Hne Hsentinel.
    destruct (struct.unpack_q contents) as [lock | e] eqn:E.
    + destruct (Z.eqb_spec lock (AnvilWorldAdapter.lockTime self)) as [-> | Hd]; [done |].
      by eexists.
    + assert (e = struct_error) as ->.
      { unfold struct.unpack_q in E. destruct (_ =? _)%nat; congruence. }
      destruct Hsentinel as [Hs | Hs]; [| done].
      destruct (Z.eqb_spec (-1) (AnvilWorldAdapter.lockTime self)) as [Heq | Hd]; [congruence |].
      by eexists.
Qed.

(** [saveChanges] stops at a lost lock, before the store is told to write. *)
Lemma saveChanges_lock_lost self w (e : exn) :
  AnvilWorldAdapter.readonly self = false ->
  AnvilWorldAdapter.checkSessionLock (self, w) = (Raise e, (self, w)) ->
  AnvilWorldAdapter.saveChanges (self, w) = (Raise e, (self, w)).
Proof.
  intros Hrw Hcheck. unfold AnvilWorldAdapter.saveChanges.
  unfold mbind at 1, M_bind, get. rewrite Hrw.
  unfold mbind at 1, M_bind. by rewrite Hcheck.
Qed.

(** C5: on a writable adapter, after [acquireSessionLock] at a time [now]
    that fits 64 bits, [checkSessionLock] returns without raising; once the
    lock file holds the packed form of another timestamp, [checkSessionLock]
    raises [SessionLockLost], and so does [saveChanges], which leaves the
    adapter and the world, the store included, as they were. *)
Theorem session_lock_guards_saves self w (now other : Z) :
  AnvilWorldAdapter.readonly self = false ->
  - 2 ^ 63 <= now < 2 ^ 63 ->
  - 2 ^ 63 <= other < 2 ^ 63 ->
  other <> now ->
  exists self' w' rewritten,
    AnvilWorldAdapter.acquireSessionLock now (self, w) = (Ok tt, (self', w')) /\
    AnvilWorldAdapter.checkSessionLock (self', w') = (Ok tt, (self', w')) /\
    struct.pack_q other = Ok rewritten /\
    let w'' := AnvilWorldAdapter.set_session_lock rewritten w' in
    (exists msg, AnvilWorldAdapter.checkSessionLock (self', w'')
                 = (Raise (SessionLockLost msg), (self', w''))) /\
    (exists msg, AnvilWorldAdapter.saveChanges (self', w'')
                 = (Raise (SessionLockLost msg), (self', w''))).
Proof.
  intros Hrw Hnow Hother Hne.
  destruct (unpack_pack_q now Hnow) as (packed & Hp & _ & Hu).
  destruct (unpack_pack_q other Hother) as (rewritten & Hp' & _ & Hu').
  exists (AnvilWorldAdapter.set_lockTime now self),
         (AnvilWorldAdapter.set_session_lock packed w), rewritten.
  split; [by apply acquireSessionLock_ok |].
  split; [by apply (checkSessionLock_decides _ _ packed) |].
  split; [done |]. cbn zeta.
  assert (Hlost : exists msg,
            AnvilWorldAdapter.checkSessionLock
              (AnvilWorldAdapter.set_lockTime now self,
               AnvilWorldAdapter.set_session_lock rewritten
                 (AnvilWorldAdapter.set_session_lock packed w))
            = (Raise (SessionLockLost msg),
               (AnvilWorldAdapter.set_lockTime now self,
                AnvilWorldAdapter.set_session_lock rewritten
                  (AnvilWorldAdapter.set_session_lock packed w)))).
  { apply (checkSessionLock_decides _ _ rewritten); try done.
    - rewrite Hu'. cbn. congruence.
    - right. by rewrite Hu'. }
  split; [exact Hlost |].
  destruct Hlost as [msg Hlost]. exists msg. by apply saveChanges_lock_lost.
Qed.

(** C10: on a writable adapter whose acquisition timestamp is not [-1], a
    lock file that does not hold exactly 8 bytes makes [checkSessionLock]
    raise [SessionLockLost]: the failed parse is caught, the lock value is
    taken to be [-1], and the comparison fails. *)
Theorem malformed_lock_is_lost self w (contents : list byte) :
  AnvilWorldAdapter.readonly self = false ->
  AnvilWorldAdapter.session_lock w = Some contents ->
  length contents <> 8%nat ->
  AnvilWorldAdapter.lockTime self <> -1 ->
  struct.unpack_q contents = Raise struct_error /\
  exists msg,
    AnvilWorldAdapter.checkSessionLock (self, w) = (Raise (SessionLockLost msg), (self, w)).
Proof.
  intros Hrw Hlock Hlen Hts.
  assert (Hu : struct.unpack_q contents = Raise struct_error).
  { unfold struct.unpack_q. by apply Nat.eqb_neq in Hlen as ->. }
  split; [exact Hu |].
  apply (checkSessionLock_decides _ _ contents); try done.
  - by rewrite Hu.
  - by left.
Qed.

(** C9: [selectRevision] with a negative index, or one that is not below the
    number of revisions, returns [None] and changes neither the adapter (its
    selected revision included) nor the store. *)
Theorem selectRevision_out_of_range self w (index : Z) :
  index < 0 \/ Z.of_nat (length (nodes (AnvilWorldAdapter.history w))) <= index ->
  AnvilWorldAdapter.selectRevision index (self, w) = (Ok None, (self, w)).
Proof.
  intros Hidx. unfold AnvilWorldAdapter.selectRevision.
  unfold mbind, M_bind, get.
  assert ((index <? 0)
          || (index >=? Z.of_nat (length (nodes (AnvilWorldAdapter.history w)))) = true) as ->.
  { apply orb_true_iff. destruct Hidx; [left | right]; lia. }
  done.
Qed.

(** Inside the range the selection moves to the revision asked for. *)
Lemma selectRevision_in_range self w (index : Z) :
  0 <= index < Z.of_nat (length (nodes (AnvilWorldAdapter.history w))) ->
  AnvilWorldAdapter.selectRevision index (self, w)
  = (Ok (Some (getRevisionChanges (AnvilWorldAdapter.history w)
                 (AnvilWorldAdapter.selectedRevision self)
                 (getRevision (AnvilWorldAdapter.history w) index))),
     (AnvilWorldAdapter.set_selectedRevision
        (getRevision (AnvilWorldAdapter.history w) index) self, w)).
Proof.
  intros Hidx. unfold AnvilWorldAdapter.selectRevision.
  unfold mbind, M_bind, get.
  assert ((index <? 0)
          || (index >=? Z.of_nat (length (nodes (AnvilWorldAdapter.history w)))) = false) as ->.
  { apply orb_false_iff. split; lia. }
  done.
Qed.

End SessionLock.

(** *** Opening a world *)

Section Opening.

Context {History Node Changes : Type}.
Context `{!RevisionStore History Node Changes} `{!TagFormat}.

Implicit Types (self : AnvilWorldAdapter.t (Node := Node)).
Implicit Types (w : AnvilWorldAdapter.World (History := History)).

Lemma load_metadata_raises self w (name : string) (e : exn) :
  readFile (AnvilWorldAdapter.history w) (AnvilWorldAdapter.selectedRevision self) name
    ≫= nbt_load = Raise e ->
  AnvilWorldAdapter.load_metadata name (self, w) = (Raise e, (self, w)).
Proof.
  intros Hr. unfold AnvilWorldAdapter.load_metadata.
  unfold mbind at 1, M_bind, get. unfold mbind at 1, M_bind, lift.
  destruct (readFile _ _ name) as [buf | e'].
  - cbn [mbind result_bind] in Hr. unfold mbind at 1, M_bind. by rewrite Hr.
  - cbn [mbind result_bind] in Hr. congruence.
Qed.

Lemma load_metadata_ok self w (name : string) (buf : list byte) (tag : compound) :
  readFile (AnvilWorldAdapter.history w) (AnvilWorldAdapter.selectedRevision self) name = Ok buf ->
  nbt_load buf = Ok tag ->
  is_Some (find "Data" tag) ->
  AnvilWorldAdapter.load_metadata name (self, w)
  = (Ok tt, (AnvilWorldAdapter.set_metadata (AnvilWorldMetadata.mk tag false) self, w)).
Proof.
  intros Hr Hl [d Hd]. unfold AnvilWorldAdapter.load_metadata.
  unfold mbind, M_bind, get, lift, modify. rewrite Hr, Hl.
  unfold AnvilWorldMetadata.__init__, getitem. by rewrite Hd.
Qed.

(** The backup branch, over any store: a world opened for writing whose
    [level.dat] cannot be read or decompressed and whose [level.dat_old] holds
    a record of the current version opens; the metadata is the record of the
    backup, not marked dirty; the one call on the store is the
    [writeAllChanges] of [saveChanges], so the record is given to no
    revision. *)
Lemma backup_branch w (filename : string)
    (env : AnvilWorldAdapter.Env) (e : exn) (buf : list byte) (backup : compound)
    (h' : History) :
  AnvilWorldAdapter.path w = AnvilWorldAdapter.IsDir ->
  - 2 ^ 63 <= AnvilWorldAdapter.lock_now env < 2 ^ 63 ->
  readFile (AnvilWorldAdapter.history w) (getHead (AnvilWorldAdapter.history w)) "level.dat"
    ≫= nbt_load = Raise e ->
  is_EnvironmentError e || is_zlib_error e = true ->
  readFile (AnvilWorldAdapter.history w) (getHead (AnvilWorldAdapter.history w)) "level.dat_old"
    = Ok buf ->
  nbt_load buf = Ok backup ->
  is_Some (find "Data" backup) ->
  AnvilWorldMetadata.version (AnvilWorldMetadata.mk backup false) = Ok VERSION_ANVIL ->
  writeAllChanges (getHead (AnvilWorldAdapter.history w)) (AnvilWorldAdapter.history w)
    = (Ok tt, h') ->
  exists self w',
    AnvilWorldAdapter.__init__ filename false false env w = (Ok self, w') /\
    AnvilWorldAdapter.metadata self = Some (AnvilWorldMetadata.mk backup false) /\
    AnvilWorldAdapter.history w' = h' /\
    AnvilWorldAdapter.selectedRevision self = getHead h' /\
    AnvilWorldAdapter.lockTime self = AnvilWorldAdapter.lock_now env.
Proof.
  intros Hdir Hnow Hprimary Hcaught Hread Hload Hdata Hversion Hwrite.
  destruct (unpack_pack_q _ Hnow) as (packed & Hp & _ & Hu).
  unfold AnvilWorldAdapter.__init__. cbn [andb negb].
  rewrite Hdir. cbn [AnvilWorldAdapter.isdir negb andb].
  rewrite Hdir. cbn [AnvilWorldAdapter.isdir negb].
  set (self0 := AnvilWorldAdapter.mk (AnvilWorldAdapter.resolve filename) false 0
                  (getHead (AnvilWorldAdapter.history w)) None).
  set (self1 := AnvilWorldAdapter.set_lockTime (AnvilWorldAdapter.lock_now env) self0).
  set (w1 := AnvilWorldAdapter.set_session_lock packed w).
  set (self2 := AnvilWorldAdapter.set_metadata (AnvilWorldMetadata.mk backup false) self1).
  unfold mbind at 1, M_bind. rewrite (acquireSessionLock_ok self0 w _ packed Hp).
  fold self1 w1.
  unfold mbind at 1, M_bind.
  unfold try_except at 1.
  rewrite (load_metadata_raises self1 w1 "level.dat" e Hprimary), Hcaught.
  unfold try_except at 1. unfold mbind at 1, M_bind.
  rewrite (load_metadata_ok self1 w1 "level.dat_old" buf backup Hread Hload Hdata).
  fold self2.
  assert (Hsave : AnvilWorldAdapter.saveChanges (self2, w1)
                  = (Ok tt, (AnvilWorldAdapter.set_selectedRevision (getHead h') self2,
                             AnvilWorldAdapter.set_history h' w1))).
  { unfold AnvilWorldAdapter.saveChanges.
    unfold mbind at 1, M_bind, get. cbn [AnvilWorldAdapter.readonly self2 self1 self0
      AnvilWorldAdapter.set_metadata AnvilWorldAdapter.set_lockTime].
    unfold mbind at 1, M_bind.
    destruct (checkSessionLock_decides self2 w1 packed eq_refl eq_refl) as [Hc _].
    rewrite (Hc Hu).
    unfold mbind at 1, M_bind, get. unfold mbind at 1, M_bind.
    unfold AnvilWorldAdapter.on_store.
    cbn [AnvilWorldAdapter.selectedRevision self2 self1 self0
      AnvilWorldAdapter.set_metadata AnvilWorldAdapter.set_lockTime
      AnvilWorldAdapter.history w1 AnvilWorldAdapter.set_session_lock].
    rewrite Hwrite. reflexivity. }
  rewrite Hsave.
  unfold mbind at 1, M_bind, AnvilWorldAdapter.self_metadata.
  unfold mbind at 1, M_bind, get.
  cbn [AnvilWorldAdapter.metadata AnvilWorldAdapter.set_selectedRevision self2
    AnvilWorldAdapter.set_metadata mret M_ret].
  unfold mbind at 1, M_bind, lift. rewrite Hversion.
  rewrite Z.eqb_refl. cbn [negb mret M_ret].
  eexists _, _. split; [reflexivity |]. by cbn.
Qed.

End Opening.

(** *** The sample worlds *)

Lemma session_lock_guards_saves_witness :
  AnvilWorldAdapter.readonly sample_adapter = false /\
  1400000000555 <> 1400000000000 /\
  exists self' w' rewritten,
    AnvilWorldAdapter.acquireSessionLock 1400000000000 (sample_adapter, damaged_world)
    = (Ok tt, (self', w')) /\
    AnvilWorldAdapter.checkSessionLock (self', w') = (Ok tt, (self', w')) /\
    struct.pack_q 1400000000555 = Ok rewritten /\
    let w'' := AnvilWorldAdapter.set_session_lock rewritten w' in
    (exists msg, AnvilWorldAdapter.checkSessionLock (self', w'')
                 = (Raise (SessionLockLost msg), (self', w''))) /\
    (exists msg, AnvilWorldAdapter.saveChanges (self', w'')
                 = (Raise (SessionLockLost msg), (self', w''))).
Proof.
  split; [reflexivity |]. split; [lia |].
  apply (session_lock_guards_saves sample_adapter damaged_world 1400000000000 1400000000555).
  - reflexivity.
  - lia.
  - lia.
  - lia.
Defined.

Lemma malformed_lock_is_lost_witness :
  AnvilWorldAdapter.readonly sample_adapter = false /\
  length [x00; x01; x02] <> 8%nat /\
  AnvilWorldAdapter.lockTime sample_adapter <> -1 /\
  struct.unpack_q [x00; x01; x02] = Raise struct_error /\
  exists msg,
    AnvilWorldAdapter.checkSessionLock
      (sample_adapter, AnvilWorldAdapter.set_session_lock [x00; x01; x02] sample_world)
    = (Raise (SessionLockLost msg),
       (sample_adapter, AnvilWorldAdapter.set_session_lock [x00; x01; x02] sample_world)).
Proof.
  split; [reflexivity |]. split; [cbn; lia |]. split; [cbn; lia |].
  apply (malformed_lock_is_lost sample_adapter
           (AnvilWorldAdapter.set_session_lock [x00; x01; x02] sample_world)
           [x00; x01; x02]).
  - reflexivity.
  - reflexivity.
  - cbn. lia.
  - cbn. lia.
Defined.

Lemma selectRevision_out_of_range_witness :
  length (nodes (AnvilWorldAdapter.history sample_world)) = 1%nat /\
  AnvilWorldAdapter.selectRevision 1 (sample_adapter, sample_world)
  = (Ok None, (sample_adapter, sample_world)) /\
  AnvilWorldAdapter.selectRevision (-1) (sample_adapter, sample_world)
  = (Ok None, (sample_adapter, sample_world)).
Proof.
  split; [reflexivity |]. split.
  - apply (selectRevision_out_of_range sample_adapter sample_world 1).
    right. cbn. lia.
  - apply (selectRevision_out_of_range sample_adapter sample_world (-1)).
    left. lia.
Defined.

(** C7 (the code at the failing input): the sample folder has a
    [level.dat] that does not decompress and a good [level.dat_old].  Opened
    for writing it opens, and the metadata is the record of the backup; but
    the metadata is not marked dirty, and the record has been given to no
    revision: the files of the store are those it had.  So the next save
    writes nothing of it: [syncToDisk] returns without a call on the store,
    [saveChanges] leaves the files as they are, and [level.dat] still does
    not decompress. *)
Theorem restored_backup_is_not_persisted :
  readFile (AnvilWorldAdapter.history damaged_world) tt "level.dat" ≫= nbt_load
  = Raise zlib_error /\
  readFile (AnvilWorldAdapter.history damaged_world) tt "level.dat_old" ≫= nbt_load
  = Ok MemStore.sample_metadata /\
  exists self w' w'',
    AnvilWorldAdapter.__init__ "World" false false sample_env damaged_world = (Ok self, w') /\
    AnvilWorldAdapter.metadata self
    = Some (AnvilWorldMetadata.mk MemStore.sample_metadata false) /\
    MemStore.files (AnvilWorldAdapter.history w')
    = MemStore.files (AnvilWorldAdapter.history damaged_world) /\
    AnvilWorldAdapter.syncToDisk (self, w') = (Ok tt, (self, w')) /\
    AnvilWorldAdapter.saveChanges (self, w') = (Ok tt, (self, w'')) /\
    MemStore.files (AnvilWorldAdapter.history w'')
    = MemStore.files (AnvilWorldAdapter.history damaged_world) /\
    readFile (AnvilWorldAdapter.history w'') tt "level.dat" ≫= nbt_load = Raise zlib_error.
Proof.
  split; [reflexivity |]. split; [reflexivity |].
  eexists _, _, _. split; [vm_compute; reflexivity |].
  split; [reflexivity |]. split; [reflexivity |].
  split; [vm_compute; reflexivity |].
  split; [vm_compute; reflexivity |].
  split; reflexivity.
Qed.

(** *** Players *)

Section Players.

Context {History Node Changes : Type}.
Context `{!RevisionStore History Node Changes} `{!TagFormat}.

Implicit Types (st : AnvilWorldAdapter.state (History := History) (Node := Node)).

(** X5: no call of [createPlayer] returns: it hands [AnvilPlayerRef] the new
    tag where the constructor expects the adapter, and every path that gets
    that far raises there. *)
Lemma createPlayer_never_returns (playerUUID : string) st :
  exists e st', AnvilWorldAdapter.createPlayer playerUUID st = (Raise e, st').
Proof.
  destruct st as [self w]. unfold AnvilWorldAdapter.createPlayer.
  unfold mbind at 1, M_bind, get.
  destruct (AnvilWorldAdapter.readonly self); [by eexists _, _ |].
  unfold mbind at 1, M_bind.
  destruct (String.eqb playerUUID "").
  - unfold mbind at 1, M_bind, AnvilWorldAdapter.self_metadata.
    unfold mbind at 1, M_bind, get.
    destruct (AnvilWorldAdapter.metadata self) as [m |]; [| by eexists _, _].
    cbn [mret M_ret]. unfold mbind at 1, M_bind, lift.
    destruct (AnvilWorldMetadata.rootTag m) as [root |]; [| by eexists _, _].
    unfold mbind at 1, M_bind.
    destruct (getitem "Data" root ≫= compound_value) as [data |]; [| by eexists _, _].
    destruct (contains "Player" data); [by eexists _, _ |].
    unfold mbind at 1, M_bind, modify. cbn [mret M_ret].
    unfold AnvilWorldAdapter.AnvilPlayerRef__init__, raise. by eexists _, _.
  - destruct (containsFile _ _ _); [by eexists _, _ |].
    cbn [mret M_ret]. unfold AnvilWorldAdapter.AnvilPlayerRef__init__, raise.
    by eexists _, _.
Qed.

End Players.

(** C8 (the code at the failing input): the sample adapter holds a valid
    lock and its world has no player.  [createPlayer("Steve")] raises
    [AttributeError] where it constructs the [AnvilPlayerRef], before the lock
    is checked, and writes no file; [createPlayer("")] raises [KeyError] at
    [rootTag["Data"]]. *)
Theorem createPlayer_persists_nothing :
  AnvilWorldAdapter.checkSessionLock (sample_adapter, sample_world)
  = (Ok tt, (sample_adapter, sample_world)) /\
  containsFile (AnvilWorldAdapter.history sample_world) tt
    (AnvilWorldAdapter.playerFilePath "Steve") = false /\
  AnvilWorldAdapter.createPlayer "Steve" (sample_adapter, sample_world)
  = (Raise AttributeError, (sample_adapter, sample_world)) /\
  AnvilWorldAdapter.createPlayer "" (sample_adapter, sample_world)
  = (Raise KeyError, (sample_adapter, sample_world)).
Proof.
  split; [by vm_compute |]. split; [reflexivity |].
  split; by vm_compute.
Qed.

(** Lines 840-844 for the single-player record, had the constructor returned
    a player: the test is against the string "Player", so for the empty
    identifier too the lock is checked and a file, [playerdata/.dat], is
    written at once. *)
Lemma single_player_is_written_at_once :
  exists self w',
    AnvilWorldAdapter.createPlayer_persist ""
      (AnvilWorldAdapter.mk_player "" (AnvilWorldAdapter.OwnTag []) false)
      (sample_adapter, sample_world)
    = (Raise PlayerNotFound, (self, w')) /\
    MemStore.file "playerdata/.dat" (MemStore.files (AnvilWorldAdapter.history w'))
    = Some MemStore.sample_bytes /\
    AnvilWorldAdapter.metadata self = AnvilWorldAdapter.metadata sample_adapter.
Proof.
  eexists _, _. split; [vm_compute; reflexivity |]. split; reflexivity.
Qed.

(** *** The invariants are those of the code

    [chunk_ok] holds of every chunk that [__init__] returns, and [getSection]
    and [buildNBTTag] keep it. *)

Lemma bind_Ok {A B} (m : result A) (k : A -> result B) (b : B) :
  m ≫= k = Ok b -> exists a, m = Ok a /\ k a = Ok b.
Proof. destruct m as [a | e]; [by exists a | done]. Qed.

Ltac inv_bind H :=
  let a := fresh "a" in
  let Ha := fresh "Ha" in
  apply bind_Ok in H as (a & Ha & H).

Lemma unpacked_cells_range (cells : list Z) :
  Forall (fun z => 0 <= z < 256) (unpacked_cells cells).
Proof.
  induction cells as [| b l IH]; cbn [unpacked_cells flat_map app]; [constructor |].
  pose proof (Z.mod_pos_bound b (2 ^ 8) ltac:(lia)) as Hm.
  constructor; [| constructor; [| exact IH]]; unfold cast; cbn [bits].
  - change 15 with (Z.ones 4). rewrite Z.land_ones by lia.
    pose proof (Z.mod_pos_bound (b mod 2 ^ 8) (2 ^ 4) ltac:(lia)). lia.
  - rewrite Z.shiftr_div_pow2 by lia.
    pose proof (Z.div_pos (b mod 2 ^ 8) (2 ^ 4) ltac:(lia) ltac:(lia)).
    assert (b mod 2 ^ 8 / 2 ^ 4 < 16) by (apply Z.div_lt_upper_bound; lia). lia.
Qed.

Lemma load_nibbles_grid (name : string) (c c' : compound) (u : ndarray) :
  AnvilSection.load_nibbles name c = Ok (u, c') ->
  grid_ok uint8 u /\ forall k, k <> name -> find k c' = find k c.
Proof.
  unfold AnvilSection.load_nibbles, pop. intros H.
  destruct (find name c) as [t |]; [| done]. cbn [mbind result_bind] in H.
  inv_bind H. unfold set_shape in H.
  destruct (_ =? _)%nat eqn:El; [| done]. cbn [mbind result_bind] in H.
  apply Nat.eqb_eq in El.
  unfold unpackNibbleArray in H. cbn [shape flat mbind result_bind mret result_ret] in H.
  injection H as <- <-. split.
  - split; [| done]. split; cbn [flat shape dtype_of].
    + fold (unpacked_cells (flat a)). unfold unpacked_cells.
      rewrite length_unpacked_cells, El. reflexivity.
    + apply (unpacked_cells_range (flat a)).
  - intros k Hk. by apply find_delitem_ne.
Qed.

Lemma Forall_cast (d : dtype) (l : list Z) :
  Forall (fun z => 0 <= z < 2 ^ bits d) (map (cast d) l).
Proof.
  apply Forall_map, Forall_forall. intros z _. unfold cast.
  apply Z.mod_pos_bound. destruct d; cbn; lia.
Qed.

(** What [_load] returns is a section in order, under the [Y] of the tag. *)
Lemma _load_section_ok (c : compound) (s : AnvilSection.t) :
  AnvilSection._load c = Ok s ->
  section_ok s /\ retained_ok (AnvilSection.old_section_tag s) /\
  getitem "Y" c ≫= int_value = Ok (AnvilSection.Y s).
Proof.
  unfold AnvilSection._load, pop, getitem. intros H.
  destruct (find "Y" c) as [ytag |]; [| done]. cbn [mbind result_bind] in H.
  inv_bind H. rename a into y, Ha into Hy.
  destruct (find "Blocks" (delitem "Y" c)) as [btag |]; [| done].
  cbn [mbind result_bind] in H.
  inv_bind H. rename a into b8. clear Ha.
  inv_bind H. rename a into Blocks0, Ha into HBl.
  inv_bind H. destruct a as [D c3]. apply load_nibbles_grid in Ha as [okD HcD].
  inv_bind H. destruct a as [S c4]. apply load_nibbles_grid in Ha as [okS HcS].
  inv_bind H. destruct a as [B c5]. apply load_nibbles_grid in Ha as [okB HcB].
  unfold set_shape in HBl. destruct (_ =? _)%nat eqn:El; [| done].
  apply Nat.eqb_eq in El. injection HBl as <-.
  cbn [astype flat dtype_of] in *.
  assert (ok0 : grid_ok uint16 (mk_ndarray uint16 [16; 16; 16]%nat (map (cast uint16) (flat b8)))).
  { split; [| done]. split; [done | apply Forall_cast]. }
  unfold pop_default in H.
  assert (Hrest : forall rest Bl,
            grid_ok uint16 Bl -> find "Add" rest = None ->
            Ok (AnvilSection.mk y Bl D S B rest) = Ok s ->
            section_ok s /\ retained_ok (AnvilSection.old_section_tag s) /\
            Ok y = Ok (AnvilSection.Y s)).
  { intros rest Bl okBl Hno [= <-]. cbn. split; [done |]. split; [| done].
    unfold retained_ok. by rewrite Hno. }
  cbn [mbind result_bind]. rewrite Hy.
  destruct (find "Add" c5) as [atag |] eqn:EA.
  - inv_bind H. rename a into Bl.
    apply (Hrest (delitem "Add" c5) Bl); [| apply find_delitem_eq | exact H].
    inv_bind Ha. inv_bind Ha. rename a0 into a', Ha1 into Hs.
    inv_bind Ha. rename a0 into add, Ha1 into Hun.
    unfold set_shape in Hs. destruct (_ =? _)%nat eqn:El'; [| done].
    apply Nat.eqb_eq in El'. injection Hs as <-.
    unfold unpackNibbleArray in Hun. cbn [shape flat] in Hun. injection Hun as <-.
    unfold ior in Ha. cbn [shape lshift astype dtype_of flat] in Ha.
    rewrite decide_True in Ha by done. injection Ha as <-.
    split; [| done]. split; cbn [flat shape dtype_of].
    + rewrite length_map in El.
      rewrite length_zip_with, !length_map, length_unpacked_cells, El', El.
      reflexivity.
    + clear. generalize (map (cast uint16) (flat b8)).
      generalize (map (fun z => cast uint16 (Z.shiftl z 8))
                    (map (cast uint16)
                       (flat_map (fun b => [Z.land (cast uint8 b) 15; Z.shiftr (cast uint8 b) 4])
                          (flat a)))).
      intros l2 l1. revert l2. induction l1 as [| x l1 IH]; intros [| z l2];
        cbn [zip_with]; try constructor; [| apply IH].
      unfold cast. apply Z.mod_pos_bound. cbn; lia.
  - cbn [mbind result_bind mret result_ret] in H. by apply (Hrest c5 _ ok0 EA).
Qed.

Lemma load_sections_ok (secs : list tag) :
  forall m m' : gmap Z AnvilSection.t,
  (forall cy s, m !! cy = Some s ->
     AnvilSection.Y s = cy /\ section_ok s /\ retained_ok (AnvilSection.old_section_tag s)) ->
  AnvilChunkData.load_sections secs m = Ok m' ->
  forall cy s, m' !! cy = Some s ->
    AnvilSection.Y s = cy /\ section_ok s /\ retained_ok (AnvilSection.old_section_tag s).
Proof.
  induction secs as [| sec secs IH]; intros m m' Hm Hload.
  - cbn in Hload. by injection Hload as <-.
  - cbn [AnvilChunkData.load_sections] in Hload.
    inv_bind Hload. rename a into c, Ha into Hc.
    inv_bind Hload. rename a into y, Ha into Hy.
    inv_bind Hload. rename a into section, Ha into Hs.
    assert (Hne : c <> []) by (intros ->; by cbn in Hy).
    rewrite (__init___nonempty c Hne) in Hs.
    apply _load_section_ok in Hs as (Hok & Hret & HY).
    rewrite Hy in HY. injection HY as ->.
    refine (IH _ _ _ Hload).
    intros cy s. rewrite lookup_insert_Some.
    intros [[<- <-] | [_ Hs]]; [done | by apply Hm].
Qed.

(** X4: every chunk that [__init__] returns, new or loaded from a tag, is in
    order: a [Level] compound in the root tag, each section under its own [Y]
    with grids of 16x16x16, and no [Add] left in a retained tag. *)
Lemma __init___chunk_ok (cx cz : Z) (dimName : string) (rootTag : option compound)
    (create : bool) (c : AnvilChunkData.t) :
  AnvilChunkData.__init__ cx cz dimName rootTag create = Ok c -> chunk_ok c.
Proof.
  unfold AnvilChunkData.__init__. intros H.
  inv_bind H. destruct a as [[root sections] dirty].
  assert (Hsec : forall cy s, sections !! cy = Some s ->
            AnvilSection.Y s = cy /\ section_ok s /\
            retained_ok (AnvilSection.old_section_tag s)).
  { destruct create.
    - injection Ha as <- <- <-. intros cy s. by rewrite lookup_empty.
    - destruct rootTag as [r |]; [| done].
      inv_bind Ha. destruct a as [root' sections'].
      injection Ha as <- <- <-.
      unfold AnvilChunkData._load in Ha0.
      inv_bind Ha0. rename a into level.
      destruct (pop_default "Sections" level) as [secs level'].
      inv_bind Ha0. rename a into secs'.
      inv_bind Ha0. injection Ha0 as <- <-.
      apply (load_sections_ok secs' ∅ a); [| done].
      intros cy s. by rewrite lookup_empty. }
  inv_bind H. inv_bind H. inv_bind H. injection H as <-.
  split; [| exact Hsec].
  cbn [AnvilChunkData.rootTag]. eexists. apply find_setitem_eq.
Qed.

Lemma after_build_ok (s : AnvilSection.t) :
  section_ok s -> retained_ok (AnvilSection.old_section_tag s) ->
  section_ok (after_build s) /\ retained_ok (AnvilSection.old_section_tag (after_build s)).
Proof.
  intros Hok Hret. split; [exact Hok |].
  cbn [after_build AnvilSection.old_section_tag].
  unfold retained_ok. rewrite built_tag_Add.
  destruct (any (rshift (AnvilSection.Blocks s) 8)); [| exact Hret].
  cbn [astype flat]. rewrite length_map. apply length_packed.
  cbn [rshift flat]. rewrite length_map. apply (grid_length uint16), Hok.
Qed.

Lemma build_sections_chunk_ok (items : list (Z * AnvilSection.t)) :
  Forall (fun p => AnvilSection.Y p.2 = p.1 /\ section_ok p.2 /\
                   retained_ok (AnvilSection.old_section_tag p.2)) items ->
  forall (acc : list tag) (c : AnvilChunkData.t),
  chunk_ok c -> chunk_ok (AnvilChunkData.build_sections items acc c).2.
Proof.
  induction 1 as [| [cy s] items (HY & Hok & Hret) Hitems IH]; intros acc c Hc; [done |].
  cbn [AnvilChunkData.build_sections]. cbn [fst snd] in *.
  destruct (AnvilChunkData.elided s); [by apply IH |].
  unfold mbind at 1, M_bind, lift. rewrite (buildNBTTag_ok s Hok).
  unfold mbind at 1, M_bind, modify. apply IH.
  destruct Hc as [Hl Hsec]. split; [done |].
  intros cy' s'. cbn [AnvilChunkData.set_sections AnvilChunkData._sections].
  rewrite lookup_insert_Some.
  intros [[<- <-] | [_ Hs]]; [| by apply Hsec].
  split; [done |]. by apply after_build_ok.
Qed.

(** [buildNBTTag] keeps the chunk in order. *)
Lemma buildNBTTag_chunk_ok (c : AnvilChunkData.t) :
  chunk_ok c -> chunk_ok (AnvilChunkData.buildNBTTag c).2.
Proof.
  intros Hc. unfold AnvilChunkData.buildNBTTag.
  unfold mbind at 1, M_bind, get. unfold mbind at 1, M_bind.
  assert (Hitems : Forall (fun p => AnvilSection.Y p.2 = p.1 /\ section_ok p.2 /\
                      retained_ok (AnvilSection.old_section_tag p.2))
                     (map_to_list (AnvilChunkData._sections c))).
  { apply Forall_forall. intros [cy s] Hin. apply elem_of_map_to_list in Hin.
    by apply (proj2 Hc). }
  pose proof (build_sections_chunk_ok _ Hitems [] c Hc) as Hc'.
  destruct (AnvilChunkData.build_sections _ [] c) as [[secs | e] c']; [| exact Hc'].
  cbn [snd] in Hc'. unfold mbind at 1, M_bind, get. unfold mbind at 1, M_bind, lift.
  destruct (getitem "Level" (AnvilChunkData.rootTag c) ≫= compound_value); exact Hc'.
Qed.

(** *** More of the sample data *)

Lemma section_round_trip_witness :
  exists tag s' s'',
    AnvilSection.buildNBTTag sample_section = Ok (tag, s') /\
    AnvilSection._load tag = Ok s'' /\
    AnvilSection.Y s'' = AnvilSection.Y sample_section /\
    AnvilSection.Blocks s'' = AnvilSection.Blocks sample_section /\
    AnvilSection.Data s'' = AnvilSection.Data sample_section /\
    AnvilSection.SkyLight s'' = AnvilSection.SkyLight sample_section /\
    AnvilSection.BlockLight s'' = AnvilSection.BlockLight sample_section.
Proof.
  apply (section_round_trip sample_section).
  - apply section_okb_spec. vm_compute. reflexivity.
  - apply section_in_rangeb_spec. vm_compute. reflexivity.
  - reflexivity.
Defined.

Lemma Add_written_iff_witness :
  exists tag s',
    AnvilSection.buildNBTTag sample_section = Ok (tag, s') /\
    (contains "Add" tag = true <->
     Exists (fun z => 256 <= z) (flat (AnvilSection.Blocks sample_section))).
Proof.
  apply (Add_written_iff sample_section).
  - apply section_okb_spec. vm_compute. reflexivity.
  - reflexivity.
Defined.

Lemma getSection_rejected_witness :
  AnvilChunkData.getSection (-1) true new_chunk = (Raise ValueError, new_chunk) /\
  AnvilChunkData.getSection (-1) false new_chunk = (Ok None, new_chunk).
Proof.
  apply (getSection_rejected (-1) new_chunk). right. lia.
Defined.

Lemma __init___chunk_ok_witness : chunk_ok new_chunk.
Proof.
  apply (__init___chunk_ok 0 0 "" None true new_chunk). reflexivity.
Defined.

(** *** More of the codec *)

Lemma nibble_range (b : Z) :
  0 <= Z.land (cast uint8 b) 15 <= 15 /\ 0 <= Z.shiftr (cast uint8 b) 4 <= 15.
Proof.
  unfold cast. cbn [bits].
  pose proof (Z.mod_pos_bound b (2 ^ 8) ltac:(lia)) as Hm. split.
  - assert (Z.land (b mod 2 ^ 8) 15 = (b mod 2 ^ 8) mod 16) as ->.
    { change 15 with (Z.ones 4). by rewrite Z.land_ones by lia. }
    pose proof (Z.mod_pos_bound (b mod 2 ^ 8) 16 ltac:(lia)). lia.
  - rewrite Z.shiftr_div_pow2 by lia. change (2 ^ 4) with 16.
    change (2 ^ 8) with 256 in *.
    pose proof (Z.div_pos (b mod 256) 16 ltac:(lia) ltac:(lia)).
    assert (b mod 256 / 16 < 16) by (apply Z.div_lt_upper_bound; lia). lia.
Qed.

(** X7: on every array of three axes [unpackNibbleArray] returns; the result
    is of dtype [uint8], its last axis is twice as long, it has twice the
    cells, and every cell is a nibble, whatever the bytes were. *)
Lemma unpackNibbleArray_nibbles (a : ndarray) (s0 s1 s2 : nat) :
  shape a = [s0; s1; s2] ->
  exists u, unpackNibbleArray a = Ok u /\
    dtype_of u = uint8 /\ shape u = [s0; s1; (s2 * 2)%nat] /\
    length (flat u) = (2 * length (flat a))%nat /\
    cells_le 15 u.
Proof.
  intros Hs. unfold unpackNibbleArray. rewrite Hs. eexists. split; [reflexivity |].
  cbn [dtype_of shape flat]. split; [done |]. split; [done |]. split.
  - induction (flat a) as [| b l IH]; cbn [flat_map app length]; [done |].
    rewrite IH. lia.
  - unfold cells_le. cbn [flat].
    induction (flat a) as [| b l IH]; cbn [flat_map app]; [constructor |].
    destruct (nibble_range b) as [Hlo Hhi].
    constructor; [exact Hlo | constructor; [exact Hhi | exact IH]].
Qed.

Lemma unpackNibbleArray_nibbles_witness :
  exists u, unpackNibbleArray sample_packed = Ok u /\
    dtype_of u = uint8 /\ shape u = [16; 16; (8 * 2)]%nat /\
    length (flat u) = (2 * length (flat sample_packed))%nat /\
    cells_le 15 u.
Proof. apply (unpackNibbleArray_nibbles sample_packed 16 16 8). reflexivity. Defined.

(** X8: [packNibbleArray] raises [ValueError] on an array of three axes
    whose cells are not 16 * 16 * (n / 2) * 2 in number, [n] being the length
    of its last axis: so on every non-empty array whose last axis is odd, and
    on one whose first two axes are not 16 by 16 in size. *)
Lemma packNibbleArray_size_mismatch (u : ndarray) (s0 s1 n : nat) :
  shape u = [s0; s1; n] ->
  length (flat u) <> (16 * 16 * (n / 2) * 2)%nat ->
  packNibbleArray u = Raise ValueError.
Proof.
  intros Hs Hlen. unfold packNibbleArray. rewrite Hs.
  apply Nat.eqb_neq in Hlen. rewrite Hlen. by rewrite andb_false_r.
Qed.

Lemma packNibbleArray_size_mismatch_witness :
  packNibbleArray (mk_ndarray uint8 [16; 16; 3]%nat (replicate 768 1)) = Raise ValueError /\
  packNibbleArray (mk_ndarray uint8 [8; 16; 2]%nat (replicate 256 1)) = Raise ValueError.
Proof.
  split.
  - apply (packNibbleArray_size_mismatch _ 16 16 3); [reflexivity |].
    vm_compute. lia.
  - apply (packNibbleArray_size_mismatch _ 8 16 2); [reflexivity |].
    vm_compute. lia.
Defined.

(** *** More of the sections *)

Lemma load_nibbles_entry (name : string) (c c' : compound) (u : ndarray) :
  AnvilSection.load_nibbles name c = Ok (u, c') ->
  array_entry name 2048 c /\ c' = delitem name c.
Proof.
  unfold AnvilSection.load_nibbles, pop. intros H.
  destruct (find name c) as [t |] eqn:E; [| done]. cbn [mbind result_bind] in H.
  inv_bind H. unfold set_shape in H.
  destruct (_ =? _)%nat eqn:El; [| done]. cbn [mbind result_bind] in H.
  apply Nat.eqb_eq in El.
  unfold unpackNibbleArray in H. cbn [shape flat mbind result_bind mret result_ret] in H.
  injection H as _ <-. split; [| done]. by exists t, a.
Qed.

Lemma array_entry_delitem (k k' : string) (n : nat) (c : compound) :
  k' <> k -> array_entry k n (delitem k' c) -> array_entry k n c.
Proof.
  intros Hne (t & a & Hf & Ha & Hl). exists t, a.
  by rewrite find_delitem_ne in Hf.
Qed.

(** What [_load] took from a tag it accepted, and what it left in it. *)
Lemma _load_inv (c : compound) (s : AnvilSection.t) :
  AnvilSection._load c = Ok s ->
  (contains "Y" c = true /\
   array_entry "Blocks" 4096 c /\
   array_entry "Data" 2048 c /\
   array_entry "SkyLight" 2048 c /\
   array_entry "BlockLight" 2048 c /\
   (contains "Add" c = true -> array_entry "Add" 2048 c)) /\
  forall k, k ∉ section_keys -> find k (AnvilSection.old_section_tag s) = find k c.
Proof.
  unfold AnvilSection._load, pop. intros H.
  destruct (find "Y" c) as [ytag |] eqn:EY; [| done]. cbn [mbind result_bind] in H.
  inv_bind H. rename a into y, Ha into Hy.
  destruct (find "Blocks" (delitem "Y" c)) as [btag |] eqn:EB; [| done].
  cbn [mbind result_bind] in H.
  inv_bind H. rename a into b8, Ha into Hb8.
  inv_bind H. rename a into Blocks0, Ha into HBl.
  inv_bind H. destruct a as [D c3]. apply load_nibbles_entry in Ha as [eD ->].
  inv_bind H. destruct a as [S c4]. apply load_nibbles_entry in Ha as [eS ->].
  inv_bind H. destruct a as [B c5]. apply load_nibbles_entry in Ha as [eB ->].
  unfold set_shape in HBl. destruct (_ =? _)%nat eqn:El; [| done].
  apply Nat.eqb_eq in El. cbn [astype flat] in El. rewrite length_map in El.
  change (size_of [16; 16; 16]%nat) with 4096%nat in El.
  set (c5 := delitem "BlockLight" (delitem "SkyLight" (delitem "Data"
               (delitem "Blocks" (delitem "Y" c))))) in *.
  assert (HA : find "Add" c5 = find "Add" c) by (unfold c5; by find_key).
  assert (Hkeep : forall k, k ∉ section_keys -> find k (delitem "Add" c5) = find k c
                                                /\ find k c5 = find k c).
  { intros k Hk. unfold section_keys in Hk.
    rewrite !not_elem_of_cons in Hk. destruct Hk as (? & ? & ? & ? & ? & ? & _).
    unfold c5. by rewrite !find_delitem_ne by done. }
  split.
  - split; [unfold contains; by rewrite EY |].
    split.
    { exists btag, b8. by rewrite find_delitem_ne in EB. }
    split.
    { do 2 (apply array_entry_delitem in eD; [| done]). exact eD. }
    split.
    { do 3 (apply array_entry_delitem in eS; [| done]). exact eS. }
    split.
    { do 4 (apply array_entry_delitem in eB; [| done]). exact eB. }
    unfold contains. rewrite <- HA. unfold pop_default in H.
    destruct (find "Add" c5) as [atag |] eqn:EA; [| done]. intros _.
    inv_bind H. inv_bind Ha. inv_bind Ha. unfold set_shape in Ha1.
    destruct (_ =? _)%nat eqn:El'; [| done]. apply Nat.eqb_eq in El'.
    exists atag, a0. by rewrite <- HA.
  - intros k Hk. destruct (Hkeep k Hk) as [Hk1 Hk2].
    unfold pop_default in H.
    destruct (find "Add" c5) as [atag |] eqn:EA.
    + inv_bind H. by injection H as <-.
    + cbn [mbind result_bind mret result_ret] in H. by injection H as <-.
Qed.

Lemma load_nibbles_missing (name : string) (c : compound) :
  find name c = None -> AnvilSection.load_nibbles name c = Raise KeyError.
Proof. intros H. unfold AnvilSection.load_nibbles, pop. by rewrite H. Qed.

Lemma load_nibbles_short (name : string) (a : ndarray) (c : compound) :
  find name c = Some (TAG_Byte_Array a) -> length (flat a) <> 2048%nat ->
  AnvilSection.load_nibbles name c = Raise ValueError.
Proof.
  intros H Hl. unfold AnvilSection.load_nibbles, pop. rewrite H.
  cbn [mbind result_bind array_value]. unfold set_shape.
  change (size_of [16; 16; 8]%nat) with 2048%nat.
  apply Nat.eqb_neq in Hl. by rewrite Hl.
Qed.

(** [_load] as far as the [Blocks] entry. *)
Lemma _load_Blocks (c : compound) (y : Z) :
  find "Y" c = Some (TAG_Byte y) ->
  (find "Blocks" c = None -> AnvilSection._load c = Raise KeyError) /\
  (forall b, find "Blocks" c = Some (TAG_Byte_Array b) ->
     length (flat b) <> 4096%nat -> AnvilSection._load c = Raise ValueError) /\
  (forall b, find "Blocks" c = Some (TAG_Byte_Array b) ->
     length (flat b) = 4096%nat ->
     AnvilSection._load c =
       let c2 := delitem "Blocks" (delitem "Y" c) in
       let Blocks := mk_ndarray uint16 [16; 16; 16]%nat (map (cast uint16) (flat b)) in
       '(Data, c3) ← AnvilSection.load_nibbles "Data" c2;
       '(SkyLight, c4) ← AnvilSection.load_nibbles "SkyLight" c3;
       '(BlockLight, c5) ← AnvilSection.load_nibbles "BlockLight" c4;
       let '(tag, c6) := pop_default "Add" c5 in
       Blocks ← match tag with
                | None => mret Blocks
                | Some tag =>
                    a ← array_value tag;
                    a ← set_shape [16; 16; 8]%nat a;
                    add ← unpackNibbleArray a;
                    ior Blocks (lshift (astype uint16 add) 8)
                end;
       mret (AnvilSection.mk y Blocks Data SkyLight BlockLight c6)).
Proof.
  intros HY. unfold AnvilSection._load, pop. rewrite HY.
  cbn [mbind result_bind int_value]. rewrite find_delitem_ne by discriminate.
  split; [by intros -> |]. split.
  - intros b -> Hl. cbn [mbind result_bind array_value]. unfold set_shape.
    cbn [astype flat]. rewrite length_map.
    change (size_of [16; 16; 16]%nat) with 4096%nat.
    apply Nat.eqb_neq in Hl. by rewrite Hl.
  - intros b -> Hl. cbn [mbind result_bind array_value].
    rewrite (set_shape_ok _ (astype uint16 b))
      by (cbn [astype flat]; by rewrite length_map, Hl).
    reflexivity.
Qed.

(** X9: [_load] takes [Y], then [Blocks], [Data], [SkyLight] and
    [BlockLight], then [Add].  Without [Y] it raises [KeyError].  With a [Y]
    byte, and the arrays before one of the four in order (byte arrays of 4096
    cells for [Blocks] and of 2048 for the others), it raises [KeyError] when
    that one is missing and [ValueError] when it is a byte array of another
    size; with all four in order it raises [ValueError] for an [Add] byte
    array not of 2048 cells.  And a tag that it accepts holds [Y], the four
    arrays with these sizes, and an [Add] array of 2048 cells if it has an
    [Add] entry at all. *)
Theorem _load_requires_entries (c : compound) :
  (find "Y" c = None -> AnvilSection._load c = Raise KeyError) /\
  (forall y before k n after,
     find "Y" c = Some (TAG_Byte y) ->
     mandatory_arrays = before ++ (k, n) :: after ->
     Forall (fun e => byte_array_entry e.1 e.2 c) before ->
     (find k c = None -> AnvilSection._load c = Raise KeyError) /\
     (forall a, find k c = Some (TAG_Byte_Array a) -> length (flat a) <> n ->
        AnvilSection._load c = Raise ValueError)) /\
  (forall y a,
     find "Y" c = Some (TAG_Byte y) ->
     Forall (fun e => byte_array_entry e.1 e.2 c) mandatory_arrays ->
     find "Add" c = Some (TAG_Byte_Array a) -> length (flat a) <> 2048%nat ->
     AnvilSection._load c = Raise ValueError) /\
  (forall s, AnvilSection._load c = Ok s ->
     contains "Y" c = true /\
     array_entry "Blocks" 4096 c /\
     array_entry "Data" 2048 c /\
     array_entry "SkyLight" 2048 c /\
     array_entry "BlockLight" 2048 c /\
     (contains "Add" c = true -> array_entry "Add" 2048 c)).
Proof.
  split.
  { intros HY. unfold AnvilSection._load, pop. by rewrite HY. }
  split.
  { intros y before k n after HY Hsplit Hbefore.
    destruct (_load_Blocks c y HY) as (HnoB & HshortB & HokB).
    unfold mandatory_arrays in Hsplit.
    destruct before as [| e1 before]; cbn [app] in Hsplit.
    { injection Hsplit as <- <- _. split; [exact HnoB | exact HshortB]. }
    injection Hsplit as <- Hsplit. apply Forall_cons in Hbefore as [(b & Hb & Hlb) Hbefore].
    cbn [fst snd] in Hb, Hlb. rewrite (HokB b Hb Hlb). cbn zeta.
    destruct before as [| e2 before]; cbn [app] in Hsplit.
    { injection Hsplit as <- <- _. split.
      - intros Hk. rewrite load_nibbles_missing by (by find_key). reflexivity.
      - intros a Ha Hl. rewrite (load_nibbles_short "Data" a) by (try done; by find_key).
        reflexivity. }
    injection Hsplit as <- Hsplit. apply Forall_cons in Hbefore as [(d & Hd & Hld) Hbefore].
    cbn [fst snd] in Hd, Hld.
    rewrite (load_nibbles_found "Data" d) by (try done; by find_key).
    cbn [mbind result_bind].
    destruct before as [| e3 before]; cbn [app] in Hsplit.
    { injection Hsplit as <- <- _. split.
      - intros Hk. rewrite load_nibbles_missing by (by find_key). reflexivity.
      - intros a Ha Hl. rewrite (load_nibbles_short "SkyLight" a) by (try done; by find_key).
        reflexivity. }
    injection Hsplit as <- Hsplit. apply Forall_cons in Hbefore as [(sl & Hs & Hls) Hbefore].
    cbn [fst snd] in Hs, Hls.
    rewrite (load_nibbles_found "SkyLight" sl) by (try done; by find_key).
    cbn [mbind result_bind].
    destruct before as [| e4 before]; cbn [app] in Hsplit.
    { injection Hsplit as <- <- _. split.
      - intros Hk. rewrite load_nibbles_missing by (by find_key). reflexivity.
      - intros a Ha Hl. rewrite (load_nibbles_short "BlockLight" a) by (try done; by find_key).
        reflexivity. }
    injection Hsplit as _ Hsplit. by destruct before. }
  split.
  { intros y a HY Hall HA Hl.
    unfold mandatory_arrays in Hall.
    apply Forall_cons in Hall as [(b & Hb & Hlb) Hall].
    apply Forall_cons in Hall as [(d & Hd & Hld) Hall].
    apply Forall_cons in Hall as [(sl & Hs & Hls) Hall].
    apply Forall_cons in Hall as [(bl & Hbl & Hlbl) _].
    cbn [fst snd] in *.
    rewrite (_load_entries c y b d sl bl HY Hb Hlb Hd Hld Hs Hls Hbl Hlbl).
    cbn zeta. unfold pop_default. rewrite find_deleted_Add, HA.
    cbn [mbind result_bind array_value]. unfold set_shape.
    change (size_of [16; 16; 8]%nat) with 2048%nat.
    apply Nat.eqb_neq in Hl. by rewrite Hl. }
  intros s Hs. apply (_load_inv c s Hs).
Qed.

Lemma find_built_tag_other (s : AnvilSection.t) (k : string) :
  k ∉ section_keys -> find k (built_tag s) = find k (AnvilSection.old_section_tag s).
Proof.
  intros Hk. unfold section_keys in Hk.
  rewrite !not_elem_of_cons in Hk. destruct Hk as (? & ? & ? & ? & ? & ? & _).
  unfold built_tag. cbn zeta. rewrite !find_setitem_ne by done.
  destruct (any _); [by rewrite find_setitem_ne by done | done].
Qed.

(** X10: the entries of a stored section under keys other than [Y],
    [Blocks], [Data], [SkyLight], [BlockLight] and [Add] stay in the tag the
    section retains, and [buildNBTTag] returns them as they were loaded. *)
Lemma unknown_entries_survive (c : compound) (s : AnvilSection.t) :
  AnvilSection._load c = Ok s ->
  exists tag s',
    AnvilSection.buildNBTTag s = Ok (tag, s') /\
    forall k, k ∉ section_keys ->
      find k (AnvilSection.old_section_tag s) = find k c /\ find k tag = find k c.
Proof.
  intros H. destruct (_load_section_ok c s H) as (Hok & _ & _).
  exists (built_tag s), (after_build s). split; [by apply buildNBTTag_ok |].
  intros k Hk. destruct (_load_inv c s H) as [_ Hkeep].
  split; [by apply Hkeep |]. rewrite find_built_tag_other by done. by apply Hkeep.
Qed.

Lemma setitem_same (k : string) (v : tag) (c : compound) :
  find k c = Some v -> setitem k v c = c.
Proof.
  induction c as [| [k' v'] c IH]; cbn [find setitem]; [done |].
  destruct (String.eqb k k') eqn:E.
  - apply String.eqb_eq in E. by intros [= ->]; subst.
  - intros H. by rewrite IH.
Qed.

Lemma built_tag_after_build (s : AnvilSection.t) :
  built_tag (after_build s) = built_tag s.
Proof.
  destruct (built_tag_entries s) as (eY & eBl & eD & eS & eB).
  pose proof (built_tag_Add s) as eA.
  unfold built_tag at 1.
  cbn [after_build AnvilSection.old_section_tag AnvilSection.Blocks AnvilSection.Data
         AnvilSection.SkyLight AnvilSection.BlockLight AnvilSection.Y].
  cbn zeta.
  assert (HA : (if any (rshift (AnvilSection.Blocks s) 8)
                then setitem "Add"
                       (TAG_Byte_Array (astype uint8 (packed (rshift (AnvilSection.Blocks s) 8))))
                       (built_tag s)
                else built_tag s) = built_tag s).
  { destruct (any _); [| done]. by apply setitem_same. }
  rewrite HA.
  rewrite (setitem_same "Blocks" _ _ eBl), (setitem_same "Data" _ _ eD),
    (setitem_same "BlockLight" _ _ eB), (setitem_same "SkyLight" _ _ eS).
  exact (setitem_same "Y" _ _ eY).
Qed.

(** X11: saving a section twice with no edit in between gives the same tag
    twice, and the second save leaves the section as the first left it. *)
Lemma buildNBTTag_twice (s : AnvilSection.t) :
  section_ok s ->
  exists tag s',
    AnvilSection.buildNBTTag s = Ok (tag, s') /\
    AnvilSection.buildNBTTag s' = Ok (tag, s').
Proof.
  intros Hok. exists (built_tag s), (after_build s).
  split; [by apply buildNBTTag_ok |].
  rewrite (buildNBTTag_ok (after_build s)) by exact Hok.
  rewrite built_tag_after_build. do 2 f_equal.
  unfold after_build at 1.
  cbn [after_build AnvilSection.Blocks AnvilSection.Data
         AnvilSection.SkyLight AnvilSection.BlockLight AnvilSection.Y].
  by rewrite built_tag_after_build.
Qed.

(** A stored section, and the same tag without its [SkyLight], with a
    [Data] array that is too short, and with an [Add] array that is. *)
Lemma _load_requires_entries_witness :
  (exists s, AnvilSection._load stored_section_tag = Ok s) /\
  AnvilSection._load (delitem "Y" stored_section_tag) = Raise KeyError /\
  AnvilSection._load (delitem "SkyLight" stored_section_tag) = Raise KeyError /\
  AnvilSection._load
    (setitem "Data" (TAG_Byte_Array (mk_ndarray uint8 [7]%nat (replicate 7 0)))
       stored_section_tag) = Raise ValueError /\
  AnvilSection._load
    (setitem "Add" (TAG_Byte_Array (mk_ndarray uint8 [7]%nat (replicate 7 0)))
       stored_section_tag) = Raise ValueError.
Proof.
  split; [by vm_compute; eexists |].
  split.
  { apply (proj1 (_load_requires_entries (delitem "Y" stored_section_tag))). reflexivity. }
  split.
  { destruct (_load_requires_entries (delitem "SkyLight" stored_section_tag))
      as (_ & Hmissing & _).
    apply (Hmissing 3 [("Blocks", 4096%nat); ("Data", 2048%nat)] "SkyLight" 2048%nat
             [("BlockLight", 2048%nat)]).
    - reflexivity.
    - reflexivity.
    - repeat constructor; eexists; (split; [reflexivity | by vm_compute]).
    - reflexivity. }
  split.
  { destruct (_load_requires_entries
                (setitem "Data" (TAG_Byte_Array (mk_ndarray uint8 [7]%nat (replicate 7 0)))
                   stored_section_tag)) as (_ & Hshort & _).
    apply (Hshort 3 [("Blocks", 4096%nat)] "Data" 2048%nat
             [("SkyLight", 2048%nat); ("BlockLight", 2048%nat)])
      with (a := mk_ndarray uint8 [7]%nat (replicate 7 0)).
    - reflexivity.
    - reflexivity.
    - repeat constructor; eexists; (split; [reflexivity | by vm_compute]).
    - reflexivity.
    - vm_compute. lia. }
  destruct (_load_requires_entries
              (setitem "Add" (TAG_Byte_Array (mk_ndarray uint8 [7]%nat (replicate 7 0)))
                 stored_section_tag)) as (_ & _ & HAdd & _).
  apply (HAdd 3 (mk_ndarray uint8 [7]%nat (replicate 7 0))).
  - reflexivity.
  - repeat constructor; eexists; (split; [reflexivity | by vm_compute]).
  - reflexivity.
  - vm_compute. lia.
Defined.

Lemma unknown_entries_survive_witness :
  ("Palette" ∉ section_keys) /\
  exists s tag s',
    AnvilSection._load stored_section_tag = Ok s /\
    AnvilSection.buildNBTTag s = Ok (tag, s') /\
    find "Palette" tag = Some (TAG_String "kept").
Proof.
  assert (Hk : "Palette" ∉ section_keys).
  { unfold section_keys. rewrite !not_elem_of_cons. repeat split; try discriminate.
    apply not_elem_of_nil. }
  split; [exact Hk |].
  destruct (AnvilSection._load stored_section_tag) as [s | e] eqn:E;
    [| by vm_compute in E].
  destruct (unknown_entries_survive _ s E) as (tag & s' & Hb & Hkeep).
  exists s, tag, s'. split; [reflexivity |]. split; [exact Hb |].
  by destruct (Hkeep "Palette" Hk) as [_ ->].
Defined.

Lemma buildNBTTag_twice_witness :
  exists tag s',
    AnvilSection.buildNBTTag sample_section = Ok (tag, s') /\
    AnvilSection.buildNBTTag s' = Ok (tag, s').
Proof.
  apply (buildNBTTag_twice sample_section).
  apply section_okb_spec. vm_compute. reflexivity.
Defined.

(** *** More of the chunks *)

Lemma shiftl_4_le (cy : Z) : 0 <= cy <= 16 -> Z.shiftl cy 4 <= maxHeight.
Proof. intros H. rewrite Z.shiftl_mul_pow2 by lia. unfold maxHeight. lia. Qed.

(** X12: for an index from 0 to 16, [getSection(cy, create=True)] returns a
    section and files it under [cy], leaving the other indices as they were;
    from then on [getSection(cy)] returns that same section, with or without
    [create], and changes nothing.  The section is the one the chunk held, or
    a new one of zeros whose [Y] is [cy]. *)
Lemma getSection_create_then_get (cy : Z) (c : AnvilChunkData.t) :
  0 <= cy <= 16 ->
  exists s c',
    AnvilChunkData.getSection cy true c = (Ok (Some s), c') /\
    AnvilChunkData._sections c' !! cy = Some s /\
    (forall cy', cy' <> cy ->
       AnvilChunkData._sections c' !! cy' = AnvilChunkData._sections c !! cy') /\
    (forall create, AnvilChunkData.getSection cy create c' = (Ok (Some s), c')) /\
    (AnvilChunkData._sections c !! cy = None -> s = new_section cy) /\
    (forall s0, AnvilChunkData._sections c !! cy = Some s0 -> s = s0 /\ c' = c).
Proof.
  intros Hcy. pose proof (shiftl_4_le cy Hcy) as Hhi.
  destruct (AnvilChunkData._sections c !! cy) as [s0 |] eqn:E.
  - exists s0, c. split; [apply getSection_held; [done | lia | done] |].
    split; [done |]. split; [done |].
    split; [intros create; apply getSection_held; [done | lia | done] |].
    split; [done |]. by intros s1 [= <-].
  - exists (new_section cy),
           (AnvilChunkData.set_sections (insert cy (new_section cy)) c).
    assert (Hin : AnvilChunkData._sections
                    (AnvilChunkData.set_sections (insert cy (new_section cy)) c)
                  !! cy = Some (new_section cy)) by apply lookup_insert_eq.
    split; [apply getSection_creates; [done | lia | done] |].
    split; [exact Hin |].
    split; [intros cy' Hne; cbn; by rewrite lookup_insert_ne |].
    split; [intros create; apply getSection_held; [done | lia | done] |].
    split; [done |]. intros s1 [=].
Qed.

Lemma getSection_create_then_get_witness :
  exists s c',
    AnvilChunkData.getSection 5 true new_chunk = (Ok (Some s), c') /\
    AnvilChunkData._sections c' !! 5 = Some s /\
    (forall cy', cy' <> 5 ->
       AnvilChunkData._sections c' !! cy' = AnvilChunkData._sections new_chunk !! cy') /\
    (forall create, AnvilChunkData.getSection 5 create c' = (Ok (Some s), c')) /\
    (AnvilChunkData._sections new_chunk !! 5 = None -> s = new_section 5) /\
    (forall s0, AnvilChunkData._sections new_chunk !! 5 = Some s0 -> s = s0 /\ c' = new_chunk).
Proof. apply (getSection_create_then_get 5 new_chunk). lia. Defined.

(** X13: a section that [getSection] has just created is all zeros, sky
    light included, so it is not one of those [buildNBTTag] leaves out: its
    tag, with [Y] the index asked for, is in the [Sections] list. *)
Lemma created_section_is_saved (cy : Z) (c : AnvilChunkData.t) :
  chunk_ok c -> 0 <= cy <= 16 ->
  AnvilChunkData._sections c !! cy = None ->
  exists s c1 tag c2 secs t s',
    AnvilChunkData.getSection cy true c = (Ok (Some s), c1) /\
    AnvilChunkData.buildNBTTag c1 = (Ok tag, c2) /\
    saved_sections tag = Some secs /\
    AnvilSection.buildNBTTag s = Ok (t, s') /\
    TAG_Compound t ∈ secs /\
    find "Y" t = Some (TAG_Byte cy).
Proof.
  intros Hc Hcy Hnone. pose proof (shiftl_4_le cy Hcy) as Hhi.
  set (s := new_section cy).
  set (c1 := AnvilChunkData.set_sections (insert cy s) c).
  assert (Hget : AnvilChunkData.getSection cy true c = (Ok (Some s), c1)).
  { apply getSection_creates; [done | lia | done]. }
  assert (Hc1 : chunk_ok c1).
  { pose proof (getSection_chunk_ok cy true c Hc) as H. by rewrite Hget in H. }
  destruct Hc1 as [[level Hlevel] Hsec].
  destruct (chunk_buildNBTTag_ok c1 level Hlevel) as [c2 Hb].
  { intros cy' s' Hs'. by apply (Hsec cy'). }
  destruct (new_section_ok cy) as [Hok _].
  eexists s, c1, _, c2, _, (built_tag s), (after_build s).
  split; [exact Hget |]. split; [exact Hb |].
  split; [unfold saved_sections; by find_key |].
  split; [by apply buildNBTTag_ok |].
  split.
  - apply list_elem_of_In, in_map_iff. exists (cy, s). split; [done |].
    apply list_elem_of_In, list_elem_of_filter. split; [by vm_compute |].
    apply elem_of_map_to_list. apply lookup_insert_eq.
  - by destruct (built_tag_entries s) as (-> & _).
Qed.

Lemma created_section_is_saved_witness :
  exists s c1 tag c2 secs t s',
    AnvilChunkData.getSection 2 true sample_chunk = (Ok (Some s), c1) /\
    AnvilChunkData.buildNBTTag c1 = (Ok tag, c2) /\
    saved_sections tag = Some secs /\
    AnvilSection.buildNBTTag s = Ok (t, s') /\
    TAG_Compound t ∈ secs /\
    find "Y" t = Some (TAG_Byte 2).
Proof.
  apply (created_section_is_saved 2 sample_chunk).
  - exact sample_chunk_ok.
  - lia.
  - reflexivity.
Defined.

(** *** A chunk saved and loaded again *)


Lemma find_app (k : string) (a b : compound) :
  find k (a ++ b) = match find k a with Some v => Some v | None => find k b end.
Proof.
  induction a as [| [k' v'] a IH]; cbn [app find]; [done |].
  by destruct (String.eqb k k').
Qed.

Lemma setitem_absent (k : string) (v : tag) (c : compound) :
  find k c = None -> setitem k v c = c ++ [(k, v)].
Proof.
  induction c as [| [k' v'] c IH]; cbn [find setitem app]; [done |].
  destruct (String.eqb k k'); [done |]. intros H. by rewrite IH.
Qed.

Lemma delitem_absent (k : string) (c : compound) :
  find k c = None -> delitem k c = c.
Proof.
  induction c as [| [k' v'] c IH]; cbn [find delitem]; [done |].
  destruct (String.eqb k k'); [done |]. intros H. by rewrite IH.
Qed.

Lemma delitem_app (k : string) (a b : compound) :
  delitem k (a ++ b) = delitem k a ++ delitem k b.
Proof.
  induction a as [| [k' v'] a IH]; cbn [app delitem]; [done |].
  destruct (String.eqb k k'); [done |]. cbn [app]. by rewrite IH.
Qed.

Lemma setitem_setitem (k : string) (v v' : tag) (c : compound) :
  setitem k v (setitem k v' c) = setitem k v c.
Proof.
  induction c as [| [k0 v0] c IH]; cbn [setitem].
  - by rewrite String.eqb_refl.
  - destruct (String.eqb k k0) eqn:E; cbn [setitem].
    + by rewrite String.eqb_refl.
    + by rewrite E, IH.
Qed.

(** The three lists go into [Level] at its end and come out of it again. *)
Lemma level_restored (level : compound) (secs E T : tag) :
  contains "Biomes" level = true ->
  find "Sections" level = None ->
  find "Entities" level = None ->
  find "TileEntities" level = None ->
  let L := setitem "TileEntities" T (setitem "Entities" E (setitem "Sections" secs level)) in
  let L' := if contains "Biomes" (delitem "Sections" L) then delitem "Sections" L
            else setitem "Biomes" (TAG_Byte_Array AnvilChunkData.default_biomes)
                   (delitem "Sections" L) in
  delitem "TileEntities" (delitem "Entities" L') = level.
Proof.
  intros HB HS HE HT. cbn zeta.
  rewrite (setitem_absent "Sections") by done.
  rewrite (setitem_absent "Entities") by (rewrite find_app, HE; reflexivity).
  rewrite (setitem_absent "TileEntities")
    by (rewrite !find_app, HT; reflexivity).
  rewrite !delitem_app, (delitem_absent "Sections" level) by done.
  cbn [delitem String.eqb Ascii.eqb Bool.eqb app].
  rewrite app_nil_r.
  assert (contains "Biomes" ((level ++ [("Entities", E)])
                             ++ [("TileEntities", T)]) = true) as ->.
  { unfold contains in *. rewrite !find_app.
    by destruct (find "Biomes" level). }
  rewrite !delitem_app, (delitem_absent "Entities" level) by done.
  rewrite (delitem_absent "TileEntities" level) by done.
  cbn [delitem String.eqb Ascii.eqb Bool.eqb app].
  by rewrite !app_nil_r.
Qed.

Lemma __init___built_tag (s : AnvilSection.t) :
  AnvilSection.__init__ (Some (built_tag s)) = AnvilSection._load (built_tag s).
Proof.
  apply __init___nonempty. unfold built_tag. cbn zeta.
  match goal with
  | |- setitem ?k ?v ?c <> [] =>
      destruct (setitem_cons k v c) as (e & rest & ->); discriminate
  end.
Qed.

(** The loop of [_load] over the tags of sections filed under their own [Y]:
    each is there under its index, loaded from its tag. *)
Lemma load_sections_built_lookup (items : list (Z * AnvilSection.t)) :
  Forall (fun p => AnvilSection.Y p.2 = p.1 /\ section_ok p.2 /\
                   retained_ok (AnvilSection.old_section_tag p.2)) items ->
  NoDup items.*1 ->
  forall m : gmap Z AnvilSection.t,
  exists m',
    AnvilChunkData.load_sections
      (map (fun p => TAG_Compound (built_tag p.2)) items) m = Ok m' /\
    (forall cy s, (cy, s) ∈ items ->
       exists s', m' !! cy = Some s' /\ AnvilSection._load (built_tag s) = Ok s') /\
    (forall cy, cy ∉ items.*1 -> m' !! cy = m !! cy).
Proof.
  induction 1 as [| [cy s] items (HY & Hok & Hret) Hitems IH]; intros Hnd m.
  - exists m. split; [done |]. split; [| done]. intros cy s Hin. by apply elem_of_nil in Hin.
  - cbn [fst snd] in *. cbn [fmap list_fmap] in Hnd. apply NoDup_cons in Hnd as [Hnotin Hnd].
    cbn [map AnvilChunkData.load_sections compound_value mbind result_bind snd].
    destruct (built_tag_entries s) as (eY & _).
    unfold getitem. rewrite eY. cbn [mbind result_bind int_value].
    destruct (_load_built_tag s Hok Hret) as (s1 & Hs1 & _).
    rewrite Hs1. cbn [mbind result_bind]. rewrite __init___built_tag in Hs1.
    destruct (IH Hnd (<[AnvilSection.Y s := s1]> m)) as (m' & -> & Hin & Hout).
    exists m'. split; [done |]. rewrite HY in *. split.
    + intros cy' s' Hel. apply elem_of_cons in Hel as [[= -> ->] | Hel].
      * exists s1. split; [| done]. rewrite Hout by done. apply lookup_insert_eq.
      * by apply Hin.
    + intros cy' Hcy'. cbn [fmap list_fmap fst] in Hcy'.
      apply not_elem_of_cons in Hcy' as [Hne Hcy'].
      rewrite Hout by done. by rewrite lookup_insert_ne.
Qed.

(** [__init__] on a tag that [buildNBTTag] returned. *)
Lemma __init___of_built_tag (cx cz : Z) (dimName : string) (root level : compound)
    (secs E T : list tag) (m' : gmap Z AnvilSection.t) :
  find "Level" root = Some (TAG_Compound level) ->
  AnvilChunkData.load_sections secs ∅ = Ok m' ->
  let L := setitem "TileEntities" (TAG_List T)
             (setitem "Entities" (TAG_List E)
                (setitem "Sections" (TAG_List secs) level)) in
  let L' := if contains "Biomes" (delitem "Sections" L) then delitem "Sections" L
            else setitem "Biomes" (TAG_Byte_Array AnvilChunkData.default_biomes)
                   (delitem "Sections" L) in
  AnvilChunkData.__init__ cx cz dimName
    (Some (setitem "Level" (TAG_Compound L) root)) false
  = Ok (AnvilChunkData.mk cx cz dimName
          (setitem "Level" (TAG_Compound (delitem "TileEntities" (delitem "Entities" L')))
             root)
          false m' E T).
Proof.
  intros Hlevel Hm'. cbn zeta.
  set (L := setitem "TileEntities" (TAG_List T)
              (setitem "Entities" (TAG_List E)
                 (setitem "Sections" (TAG_List secs) level))).
  assert (HS : find "Sections" L = Some (TAG_List secs)) by (unfold L; by find_key).
  unfold AnvilChunkData.__init__, AnvilChunkData._load, getitem.
  rewrite find_setitem_eq. cbn [mbind result_bind compound_value].
  unfold pop_default. rewrite HS. cbn [mbind result_bind list_value].
  rewrite Hm'. cbn [mbind result_bind mret result_ret].
  rewrite find_setitem_eq. cbn [mbind result_bind compound_value].
  set (L' := if contains "Biomes" (delitem "Sections" L) then delitem "Sections" L
             else setitem "Biomes" (TAG_Byte_Array AnvilChunkData.default_biomes)
                    (delitem "Sections" L)).
  assert (HE : find "Entities" L' = Some (TAG_List E)).
  { unfold L', L. destruct (contains "Biomes" _); by find_key. }
  assert (HT : find "TileEntities" (delitem "Entities" L') = Some (TAG_List T)).
  { unfold L', L. destruct (contains "Biomes" _); by find_key. }
  rewrite HE. cbn [mbind result_bind list_value]. rewrite HT.
  cbn [mbind result_bind list_value]. by rewrite !setitem_setitem.
Qed.

(** X14: a chunk as [__init__] and [getSection] leave it is saved by
    [buildNBTTag] and loaded again by [__init__] into a chunk with the same
    root tag, entities and tile entities, not marked dirty, in which every
    section that was saved, that held values in their ranges and whose
    retained tag had no [Add] entry is there under its index with the same
    four grids. *)
Theorem chunk_round_trip (c : AnvilChunkData.t) :
  chunk_ok c -> level_ok c ->
  exists tag c' r,
    AnvilChunkData.buildNBTTag c = (Ok tag, c') /\
    AnvilChunkData.__init__ (AnvilChunkData.cx c) (AnvilChunkData.cz c)
      (AnvilChunkData.dimName c) (Some tag) false = Ok r /\
    AnvilChunkData.rootTag r = AnvilChunkData.rootTag c /\
    AnvilChunkData.Entities r = AnvilChunkData.Entities c /\
    AnvilChunkData.TileEntities r = AnvilChunkData.TileEntities c /\
    AnvilChunkData.dirty r = false /\
    forall cy s,
      AnvilChunkData._sections c !! cy = Some s ->
      ~ trivial_section s -> section_in_range s ->
      find "Add" (AnvilSection.old_section_tag s) = None ->
      exists s',
        AnvilChunkData._sections r !! cy = Some s' /\
        AnvilSection.Y s' = cy /\
        AnvilSection.Blocks s' = AnvilSection.Blocks s /\
        AnvilSection.Data s' = AnvilSection.Data s /\
        AnvilSection.SkyLight s' = AnvilSection.SkyLight s /\
        AnvilSection.BlockLight s' = AnvilSection.BlockLight s.
Proof.
  intros [_ Hsec] (level & Hlevel & HB & HS & HE & HT).
  destruct (chunk_buildNBTTag_ok c level Hlevel) as [c' Hb].
  { intros cy s Hs. by apply (Hsec cy). }
  set (items := filter (fun p => AnvilChunkData.elided p.2 = false)
                  (map_to_list (AnvilChunkData._sections c))) in *.
  assert (Hitems : Forall (fun p => AnvilSection.Y p.2 = p.1 /\ section_ok p.2 /\
                      retained_ok (AnvilSection.old_section_tag p.2)) items).
  { apply Forall_forall. intros [cy s] Hin.
    apply list_elem_of_filter in Hin as [_ Hin]. apply elem_of_map_to_list in Hin.
    by apply Hsec. }
  assert (Hnd : NoDup items.*1).
  { apply (NoDup_fmap_fst items).
    - intros cy s1 s2 H1 H2.
      apply list_elem_of_filter in H1 as [_ H1]. apply elem_of_map_to_list in H1.
      apply list_elem_of_filter in H2 as [_ H2]. apply elem_of_map_to_list in H2.
      congruence.
    - apply NoDup_filter, NoDup_map_to_list. }
  destruct (load_sections_built_lookup items Hitems Hnd ∅) as (m' & Hm' & Hin & _).
  pose proof (__init___of_built_tag (AnvilChunkData.cx c) (AnvilChunkData.cz c)
                (AnvilChunkData.dimName c) (AnvilChunkData.rootTag c) level _
                (AnvilChunkData.Entities c) (AnvilChunkData.TileEntities c) m'
                Hlevel Hm') as Hre.
  cbn zeta in Hre. rewrite level_restored in Hre by done.
  rewrite (setitem_same "Level" _ _ Hlevel) in Hre.
  eexists _, c', _. split; [exact Hb |]. split; [exact Hre |].
  cbn [AnvilChunkData.rootTag AnvilChunkData.Entities AnvilChunkData.TileEntities
         AnvilChunkData.dirty AnvilChunkData._sections].
  do 4 (split; [done |]).
  intros cy s Hs Hnt Hrange Hadd.
  destruct (Hsec cy s Hs) as (HY & Hok & _).
  destruct (Hin cy s) as (s' & Hs' & Hload).
  { apply list_elem_of_filter. split.
    - cbn [snd]. rewrite <- elided_spec in Hnt. by destruct (AnvilChunkData.elided s).
    - by apply elem_of_map_to_list. }
  destruct (_load_built_tag_in_range s Hok Hrange Hadd) as (s'' & Hload' & Heq).
  rewrite Hload in Hload'. injection Hload' as <-.
  exists s'. split; [exact Hs' |]. destruct Heq as (-> & Heq). by split.
Qed.

(** [__init__] leaves [Level] in that state, and neither [getSection] nor
    [buildNBTTag] touches the root tag. *)
Lemma __init___level_ok (cx cz : Z) (dimName : string) (rootTag : option compound)
    (create : bool) (c : AnvilChunkData.t) :
  AnvilChunkData.__init__ cx cz dimName rootTag create = Ok c -> level_ok c.
Proof.
  unfold AnvilChunkData.__init__. intros H.
  inv_bind H. destruct a as [[root sections] dirty].
  assert (Hroot : forall level0,
            getitem "Level" root ≫= compound_value = Ok level0 ->
            find "Sections" level0 = None).
  { destruct create.
    - injection Ha as <- <- <-. by intros level0 [= <-].
    - destruct rootTag as [r |]; [| done].
      inv_bind Ha. destruct a as [root' sections'].
      injection Ha as <- <- <-.
      unfold AnvilChunkData._load in Ha0.
      inv_bind Ha0. rename a into level.
      unfold pop_default in Ha0.
      intros level0. unfold getitem.
      destruct (find "Sections" level) as [secs |] eqn:ES.
      + inv_bind Ha0. inv_bind Ha0. injection Ha0 as <- <-.
        rewrite find_setitem_eq. intros [= <-]. apply find_delitem_eq.
      + inv_bind Ha0. inv_bind Ha0. injection Ha0 as <- <-.
        rewrite find_setitem_eq. by intros [= <-]. }
  inv_bind H. rename a into level0, Ha0 into Hlevel0.
  specialize (Hroot level0 Hlevel0).
  inv_bind H. inv_bind H. injection H as <-.
  eexists. cbn [AnvilChunkData.rootTag]. split; [apply find_setitem_eq |].
  unfold contains.
  destruct (find "Biomes" level0) as [b |] eqn:EB; find_key; by rewrite ?EB.
Qed.

Lemma sample_chunk_level_ok : level_ok sample_chunk.
Proof. eexists. repeat split; reflexivity. Qed.

Lemma chunk_round_trip_witness :
  exists tag c' r,
    AnvilChunkData.buildNBTTag sample_chunk = (Ok tag, c') /\
    AnvilChunkData.__init__ 0 0 "" (Some tag) false = Ok r /\
    AnvilChunkData.rootTag r = AnvilChunkData.rootTag sample_chunk /\
    AnvilChunkData.Entities r = [] /\
    AnvilChunkData.TileEntities r = [] /\
    AnvilChunkData.dirty r = false /\
    exists s',
      AnvilChunkData._sections r !! 1 = Some s' /\
      AnvilSection.Y s' = 1 /\
      AnvilSection.Blocks s' = AnvilSection.Blocks (new_section 1) /\
      AnvilSection.Data s' = AnvilSection.Data (new_section 1) /\
      AnvilSection.SkyLight s' = AnvilSection.SkyLight (new_section 1) /\
      AnvilSection.BlockLight s' = AnvilSection.BlockLight (new_section 1).
Proof.
  destruct (chunk_round_trip sample_chunk sample_chunk_ok sample_chunk_level_ok)
    as (tag & c' & r & Hb & Hre & Hroot & HE & HT & Hd & Hsec).
  exists tag, c', r. do 6 (split; [done |]).
  apply (Hsec 1 (new_section 1)).
  - reflexivity.
  - rewrite <- elided_spec. by vm_compute.
  - apply section_in_rangeb_spec. by vm_compute.
  - reflexivity.
Defined.

(** *** The metadata and its way to the disk *)

Lemma rootTag_set_rootTag (root : compound) (m : AnvilWorldMetadata.t) :
  AnvilWorldMetadata.rootTag (AnvilWorldMetadata.set_rootTag root m) = Ok root.
Proof.
  unfold AnvilWorldMetadata.rootTag, AnvilWorldMetadata.set_rootTag, getitem.
  cbn [AnvilWorldMetadata.metadataTag]. by rewrite find_setitem_eq.
Qed.

Lemma setWorldSpawnPosition_3 (m : AnvilWorldMetadata.t) (root : compound) (x y z : Z) :
  AnvilWorldMetadata.rootTag m = Ok root ->
  exists m',
    AnvilWorldMetadata.setWorldSpawnPosition [x; y; z] m = Ok m' /\
    AnvilWorldMetadata.rootTag m'
    = Ok (setitem "SpawnZ" (TAG_Int z)
            (setitem "SpawnY" (TAG_Int y) (setitem "SpawnX" (TAG_Int x) root))) /\
    AnvilWorldMetadata.dirty m' = AnvilWorldMetadata.dirty m.
Proof.
  intros Hroot. unfold AnvilWorldMetadata.setWorldSpawnPosition.
  cbn [zip zip_with fold_left]. cbn [mbind result_bind]. rewrite Hroot.
  do 2 (cbn [mbind result_bind mret result_ret]; rewrite rootTag_set_rootTag).
  cbn [mbind result_bind mret result_ret].
  eexists. split; [reflexivity |]. split; [apply rootTag_set_rootTag | reflexivity].
Qed.

Section Sync.

Context {History Node Changes : Type}.
Context `{!RevisionStore History Node Changes} `{!TagFormat}.

Implicit Types (self : AnvilWorldAdapter.t (Node := Node)).
Implicit Types (w : AnvilWorldAdapter.World (History := History)).

Lemma syncToDisk_clean self w (m : AnvilWorldMetadata.t) :
  AnvilWorldAdapter.metadata self = Some m ->
  AnvilWorldMetadata.dirty m = false ->
  AnvilWorldAdapter.syncToDisk (self, w) = (Ok tt, (self, w)).
Proof.
  intros Hm Hd. unfold AnvilWorldAdapter.syncToDisk.
  unfold mbind at 1, M_bind, AnvilWorldAdapter.self_metadata.
  unfold mbind at 1, M_bind, get. rewrite Hm. cbn [mret M_ret]. by rewrite Hd.
Qed.

Lemma syncToDisk_dirty self w (m : AnvilWorldMetadata.t) (r : result unit) (h' : History) :
  AnvilWorldAdapter.metadata self = Some m ->
  AnvilWorldMetadata.dirty m = true ->
  writeFile (AnvilWorldAdapter.selectedRevision self) "level.dat"
    (nbt_save (AnvilWorldMetadata.metadataTag m)) (AnvilWorldAdapter.history w) = (r, h') ->
  AnvilWorldAdapter.syncToDisk (self, w)
  = match r with
    | Ok _ =>
        (Ok tt,
         (AnvilWorldAdapter.set_metadata
            (AnvilWorldMetadata.mk (AnvilWorldMetadata.metadataTag m) false) self,
          AnvilWorldAdapter.set_history h' w))
    | Raise e => (Raise e, (self, AnvilWorldAdapter.set_history h' w))
    end.
Proof.
  intros Hm Hd Hw. unfold AnvilWorldAdapter.syncToDisk.
  unfold mbind at 1, M_bind, AnvilWorldAdapter.self_metadata.
  unfold mbind at 1, M_bind, get. rewrite Hm. cbn [mret M_ret]. rewrite Hd.
  unfold mbind at 1, M_bind, get. unfold mbind at 1, M_bind.
  unfold AnvilWorldAdapter.on_store. rewrite Hw. by destruct r as [[] |].
Qed.

(** X16: [syncToDisk] gives the record to the store, under [level.dat],
    exactly when the metadata is marked dirty, whether or not the adapter is
    read-only and whatever the lock file holds.  When the store has accepted
    the record the mark is cleared, so that a second call does nothing; when
    the store raises, the mark stays. *)
Theorem syncToDisk_writes_when_dirty self w (m : AnvilWorldMetadata.t)
    (r : result unit) (h' : History) :
  AnvilWorldAdapter.metadata self = Some m ->
  writeFile (AnvilWorldAdapter.selectedRevision self) "level.dat"
    (nbt_save (AnvilWorldMetadata.metadataTag m)) (AnvilWorldAdapter.history w) = (r, h') ->
  exists r' self' w',
    AnvilWorldAdapter.syncToDisk (self, w) = (r', (self', w')) /\
    (AnvilWorldMetadata.dirty m = false -> r' = Ok tt /\ self' = self /\ w' = w) /\
    (AnvilWorldMetadata.dirty m = true ->
     r' = r /\ AnvilWorldAdapter.history w' = h' /\
     AnvilWorldAdapter.session_lock w' = AnvilWorldAdapter.session_lock w /\
     match r with
     | Ok _ =>
         AnvilWorldAdapter.metadata self'
         = Some (AnvilWorldMetadata.mk (AnvilWorldMetadata.metadataTag m) false) /\
         AnvilWorldAdapter.syncToDisk (self', w') = (Ok tt, (self', w'))
     | Raise _ => self' = self
     end).
Proof.
  intros Hm Hw. destruct (AnvilWorldMetadata.dirty m) eqn:Hd.
  - rewrite (syncToDisk_dirty self w m r h' Hm Hd Hw). destruct r as [[] | e].
    + eexists _, _, _. split; [reflexivity |]. split; [done |]. intros _.
      split; [done |]. split; [done |]. split; [done |]. split; [done |].
      by apply (syncToDisk_clean _ _
                  (AnvilWorldMetadata.mk (AnvilWorldMetadata.metadataTag m) false)).
    + eexists _, _, _. split; [reflexivity |]. split; [done |]. intros _.
      by repeat split.
  - rewrite (syncToDisk_clean self w m Hm Hd).
    eexists _, _, _. split; [reflexivity |]. by split.
Qed.

(** X15: [setWorldSpawnPosition] with three coordinates stores them, so
    that [worldSpawnPosition] returns them, and changes no other entry of the
    record.  It does not mark the metadata dirty: when the metadata was
    clean, [syncToDisk] after it returns without a call on the store. *)
Theorem spawn_is_set_but_not_marked self w (m : AnvilWorldMetadata.t) (root : compound)
    (x y z : Z) :
  AnvilWorldAdapter.metadata self = Some m ->
  AnvilWorldMetadata.rootTag m = Ok root ->
  exists m' root',
    AnvilWorldMetadata.setWorldSpawnPosition [x; y; z] m = Ok m' /\
    AnvilWorldMetadata.worldSpawnPosition m' = Ok (x, y, z) /\
    AnvilWorldMetadata.rootTag m' = Ok root' /\
    (forall k, k ∉ ["SpawnX"; "SpawnY"; "SpawnZ"] -> find k root' = find k root) /\
    AnvilWorldMetadata.dirty m' = AnvilWorldMetadata.dirty m /\
    (AnvilWorldMetadata.dirty m = false ->
     let st := (AnvilWorldAdapter.set_metadata m' self, w) in
     AnvilWorldAdapter.syncToDisk st = (Ok tt, st)).
Proof.
  intros Hm Hroot.
  destruct (setWorldSpawnPosition_3 m root x y z Hroot) as (m' & -> & Hr & Hd).
  exists m', (setitem "SpawnZ" (TAG_Int z)
                (setitem "SpawnY" (TAG_Int y) (setitem "SpawnX" (TAG_Int x) root))).
  split; [reflexivity |]. split.
  { unfold AnvilWorldMetadata.worldSpawnPosition. rewrite Hr.
    cbn [mbind result_bind]. unfold getitem. find_key. reflexivity. }
  split; [exact Hr |]. split.
  { intros k Hk. rewrite !not_elem_of_cons in Hk. destruct Hk as (? & ? & ? & _).
    by rewrite !find_setitem_ne by done. }
  split; [exact Hd |].
  intros Hclean. cbn zeta. apply (syncToDisk_clean _ _ m'); [reflexivity | congruence].
Qed.

End Sync.

(** *** More of opening a world *)

Section OpeningMore.

Context {History Node Changes : Type}.
Context `{!RevisionStore History Node Changes} `{!TagFormat}.

Implicit Types (self : AnvilWorldAdapter.t (Node := Node)).
Implicit Types (w : AnvilWorldAdapter.World (History := History)).

Lemma _createMetadataTag_eq self w (last_played random_seed : Z) :
  AnvilWorldAdapter._createMetadataTag last_played random_seed (self, w)
  = (Ok tt,
     (AnvilWorldAdapter.set_metadata
        (AnvilWorldMetadata.mk
           (default_metadataTag (os_path.basename (AnvilWorldAdapter.filename self))
              last_played random_seed)
           true) self, w)).
Proof. by destruct self. Qed.

(** [load_metadata] raises what reading, decoding or [AnvilWorldMetadata]
    raises, and assigns nothing. *)
Lemma load_metadata_fails self w (name : string) (e : exn) :
  (readFile (AnvilWorldAdapter.history w) (AnvilWorldAdapter.selectedRevision self) name
     ≫= nbt_load) ≫= AnvilWorldMetadata.__init__ = Raise e ->
  AnvilWorldAdapter.load_metadata name (self, w) = (Raise e, (self, w)).
Proof.
  intros Hr. unfold AnvilWorldAdapter.load_metadata.
  unfold mbind at 1, M_bind, get. unfold mbind at 1, M_bind, lift.
  destruct (readFile _ _ name) as [buf | e']; cbn [mbind result_bind] in Hr;
    [| congruence].
  unfold mbind at 1, M_bind.
  destruct (nbt_load buf) as [tag | e']; cbn [mbind result_bind] in Hr;
    [| congruence].
  unfold mbind at 1, M_bind. by rewrite Hr.
Qed.

(** X17: [__init__] refuses, with [AssertionError] or [IOError], to create
    a world read-only, to open a path that does not exist, to open or create
    at a path that is a file, and to create in a folder that has a
    [level.dat]; it then leaves the folder, the lock file and the store as
    they were. *)
Theorem __init___rejects w (filename : string) (create readonly : bool)
    (env : AnvilWorldAdapter.Env) :
  (create = true /\ readonly = true) \/
  (AnvilWorldAdapter.path w = AnvilWorldAdapter.Missing /\ create = false) \/
  AnvilWorldAdapter.path w = AnvilWorldAdapter.IsFile \/
  (AnvilWorldAdapter.path w = AnvilWorldAdapter.IsDir /\ create = true /\
   AnvilWorldAdapter.level_dat_on_disk w = true) ->
  exists e,
    AnvilWorldAdapter.__init__ filename create readonly env w = (Raise e, w) /\
    (e = AssertionError \/ exists msg, e = IOError msg).
Proof.
  unfold AnvilWorldAdapter.__init__.
  intros [[-> ->] | [[Hp ->] | [Hp | (Hp & -> & Hl)]]].
  - exists AssertionError. by split; [| left].
  - rewrite Hp. cbn [andb negb]. eexists. split; [reflexivity |]. right. by eexists.
  - rewrite Hp. destruct create, readonly; cbn [andb negb AnvilWorldAdapter.isdir orb];
      try rewrite Hp; cbn [negb AnvilWorldAdapter.isdir];
      eexists; (split; [reflexivity |]); try (right; by eexists); by left.
  - rewrite Hp, Hl. destruct readonly; cbn [andb negb AnvilWorldAdapter.isdir orb];
      eexists; (split; [reflexivity |]); try (right; by eexists); by left.
Qed.


(** The part of [__init__] that follows the tests of the path, for a world
    that is not being created. *)
Lemma __init___open w (filename : string) (readonly : bool)
    (env : AnvilWorldAdapter.Env) :
  AnvilWorldAdapter.path w = AnvilWorldAdapter.IsDir ->
  AnvilWorldAdapter.__init__ filename false readonly env w
  = match
      ((if negb readonly
        then AnvilWorldAdapter.acquireSessionLock (AnvilWorldAdapter.lock_now env)
        else mret tt);;
       try_except (AnvilWorldAdapter.load_metadata "level.dat")
         (fun e => is_EnvironmentError e || is_zlib_error e)
         (fun _ =>
            try_except (AnvilWorldAdapter.load_metadata "level.dat_old";;
                        AnvilWorldAdapter.saveChanges)
              (fun _ => true)
              (fun _ => AnvilWorldAdapter._createMetadataTag
                          (AnvilWorldAdapter.last_played env)
                          (AnvilWorldAdapter.random_seed env)));;
       m ← AnvilWorldAdapter.self_metadata;
       v ← lift (AnvilWorldMetadata.version m);
       if negb (v =? VERSION_ANVIL) then raise AssertionError else mret tt)
        (AnvilWorldAdapter.mk (AnvilWorldAdapter.resolve filename) readonly 0
           (getHead (AnvilWorldAdapter.history w)) None, w)
    with
    | (Ok _, (self, w)) => (Ok self, w)
    | (Raise e, (_, w)) => (Raise e, w)
    end.
Proof.
  intros Hdir. unfold AnvilWorldAdapter.__init__. cbn [andb negb].
  rewrite Hdir. cbn [AnvilWorldAdapter.isdir negb andb]. rewrite Hdir.
  reflexivity.
Qed.

(** The state in which the metadata is loaded: the lock is taken first,
    unless the world is opened read-only. *)
Lemma lock_is_taken_first w (filename : string) (readonly : bool) (now : Z) :
  - 2 ^ 63 <= now < 2 ^ 63 ->
  exists self1 w1,
    (if negb readonly then AnvilWorldAdapter.acquireSessionLock now else mret tt)
      (AnvilWorldAdapter.mk filename readonly 0
         (getHead (AnvilWorldAdapter.history w)) None, w)
    = (Ok tt, (self1, w1)) /\
    AnvilWorldAdapter.filename self1 = filename /\
    AnvilWorldAdapter.readonly self1 = readonly /\
    AnvilWorldAdapter.selectedRevision self1 = getHead (AnvilWorldAdapter.history w) /\
    AnvilWorldAdapter.history w1 = AnvilWorldAdapter.history w /\
    AnvilWorldAdapter.path w1 = AnvilWorldAdapter.path w /\
    (readonly = true -> w1 = w) /\
    (readonly = false ->
     exists packed, AnvilWorldAdapter.session_lock w1 = Some packed /\
                    struct.unpack_q packed = Ok now).
Proof.
  intros Hnow. destruct (unpack_pack_q _ Hnow) as (packed & Hp & _ & Hu).
  destruct readonly; cbn [negb].
  - eexists _, _. split; [reflexivity |]. by repeat split.
  - rewrite (acquireSessionLock_ok _ w _ packed Hp).
    eexists _, _. split; [reflexivity |]. repeat split; try done.
    intros _. by exists packed.
Qed.

(** X19: a world whose [level.dat] cannot be read or decompressed and whose
    [level.dat_old] cannot be loaded either still opens: the metadata is the
    default record, named after the folder, and it is marked dirty; the store
    is as it was. *)
Theorem unreadable_metadata_gets_defaults w (filename : string) (readonly : bool)
    (env : AnvilWorldAdapter.Env) (e e' : exn) :
  AnvilWorldAdapter.path w = AnvilWorldAdapter.IsDir ->
  - 2 ^ 63 <= AnvilWorldAdapter.lock_now env < 2 ^ 63 ->
  (readFile (AnvilWorldAdapter.history w) (getHead (AnvilWorldAdapter.history w)) "level.dat"
     ≫= nbt_load) ≫= AnvilWorldMetadata.__init__ = Raise e ->
  is_EnvironmentError e || is_zlib_error e = true ->
  (readFile (AnvilWorldAdapter.history w) (getHead (AnvilWorldAdapter.history w))
     "level.dat_old" ≫= nbt_load) ≫= AnvilWorldMetadata.__init__ = Raise e' ->
  exists self w',
    AnvilWorldAdapter.__init__ filename false readonly env w = (Ok self, w') /\
    AnvilWorldAdapter.filename self = AnvilWorldAdapter.resolve filename /\
    AnvilWorldAdapter.metadata self
    = Some (AnvilWorldMetadata.mk
              (default_metadataTag (os_path.basename (AnvilWorldAdapter.filename self))
                 (AnvilWorldAdapter.last_played env)
                 (AnvilWorldAdapter.random_seed env)) true) /\
    AnvilWorldAdapter.history w' = AnvilWorldAdapter.history w.
Proof.
  intros Hdir Hnow Hprimary Hcaught Hbackup.
  rewrite (__init___open w filename readonly env Hdir).
  destruct (lock_is_taken_first w (AnvilWorldAdapter.resolve filename) readonly _ Hnow)
    as (self1 & w1 & Hlock & Hfn & Hro & Hrev & Hh & _).
  unfold mbind at 1, M_bind. rewrite Hlock.
  rewrite <- Hrev, <- Hh in Hprimary, Hbackup.
  unfold mbind at 1, M_bind. unfold try_except at 1.
  rewrite (load_metadata_fails self1 w1 "level.dat" e Hprimary), Hcaught.
  unfold try_except at 1. unfold mbind at 1, M_bind.
  rewrite (load_metadata_fails self1 w1 "level.dat_old" e' Hbackup).
  rewrite _createMetadataTag_eq.
  unfold mbind at 1, M_bind, AnvilWorldAdapter.self_metadata.
  unfold mbind at 1, M_bind, get.
  cbn [AnvilWorldAdapter.metadata AnvilWorldAdapter.set_metadata mret M_ret].
  unfold mbind at 1, M_bind, lift.
  cbn [AnvilWorldAdapter.metadata mret M_ret].
  eexists _, _. split; [reflexivity |].
  cbn [AnvilWorldAdapter.filename AnvilWorldAdapter.set_metadata
         AnvilWorldAdapter.metadata].
  split; [exact Hfn |]. by split.
Qed.

(** X20: a world whose [level.dat] holds a record of another version is
    refused with [AssertionError]; by then the session lock has been taken,
    unless the world was opened read-only. *)
Theorem other_version_is_refused w (filename : string) (readonly : bool)
    (env : AnvilWorldAdapter.Env) (buf : list byte) (record : compound) (v : Z) :
  AnvilWorldAdapter.path w = AnvilWorldAdapter.IsDir ->
  - 2 ^ 63 <= AnvilWorldAdapter.lock_now env < 2 ^ 63 ->
  readFile (AnvilWorldAdapter.history w) (getHead (AnvilWorldAdapter.history w)) "level.dat"
    = Ok buf ->
  nbt_load buf = Ok record ->
  is_Some (find "Data" record) ->
  AnvilWorldMetadata.version (AnvilWorldMetadata.mk record false) = Ok v ->
  v <> VERSION_ANVIL ->
  exists w',
    AnvilWorldAdapter.__init__ filename false readonly env w = (Raise AssertionError, w') /\
    AnvilWorldAdapter.history w' = AnvilWorldAdapter.history w /\
    (readonly = true -> w' = w) /\
    (readonly = false ->
     exists packed, AnvilWorldAdapter.session_lock w' = Some packed /\
                    struct.unpack_q packed = Ok (AnvilWorldAdapter.lock_now env)).
Proof.
  intros Hdir Hnow Hread Hload Hdata Hversion Hv.
  rewrite (__init___open w filename readonly env Hdir).
  destruct (lock_is_taken_first w (AnvilWorldAdapter.resolve filename) readonly _ Hnow)
    as (self1 & w1 & Hlock & Hfn & Hro & Hrev & Hh & _ & Hw1 & Hpacked).
  unfold mbind at 1, M_bind. rewrite Hlock.
  rewrite <- Hrev, <- Hh in Hread.
  unfold mbind at 1, M_bind. unfold try_except at 1.
  rewrite (load_metadata_ok self1 w1 "level.dat" buf record Hread Hload Hdata).
  unfold mbind at 1, M_bind, AnvilWorldAdapter.self_metadata.
  unfold mbind at 1, M_bind, get.
  cbn [AnvilWorldAdapter.metadata AnvilWorldAdapter.set_metadata mret M_ret].
  unfold mbind at 1, M_bind, lift. rewrite Hversion.
  apply Z.eqb_neq in Hv. rewrite Hv. cbn [negb raise].
  exists w1. by split.
Qed.

(** X21: an error of [level.dat] that is neither an [EnvironmentError] nor
    a [zlib.error] (a record without [Data], say, whose [KeyError] leaves
    [AnvilWorldMetadata]) leaves [__init__] as it is: the backup is not
    tried and no metadata is set up. *)
Theorem other_errors_are_not_recovered w (filename : string) (readonly : bool)
    (env : AnvilWorldAdapter.Env) (e : exn) :
  AnvilWorldAdapter.path w = AnvilWorldAdapter.IsDir ->
  - 2 ^ 63 <= AnvilWorldAdapter.lock_now env < 2 ^ 63 ->
  (readFile (AnvilWorldAdapter.history w) (getHead (AnvilWorldAdapter.history w)) "level.dat"
     ≫= nbt_load) ≫= AnvilWorldMetadata.__init__ = Raise e ->
  is_EnvironmentError e || is_zlib_error e = false ->
  exists w',
    AnvilWorldAdapter.__init__ filename false readonly env w = (Raise e, w') /\
    AnvilWorldAdapter.history w' = AnvilWorldAdapter.history w.
Proof.
  intros Hdir Hnow Hprimary Hcaught.
  rewrite (__init___open w filename readonly env Hdir).
  destruct (lock_is_taken_first w (AnvilWorldAdapter.resolve filename) readonly _ Hnow)
    as (self1 & w1 & Hlock & Hfn & Hro & Hrev & Hh & _).
  unfold mbind at 1, M_bind. rewrite Hlock.
  rewrite <- Hrev, <- Hh in Hprimary.
  unfold mbind at 1, M_bind. unfold try_except at 1.
  rewrite (load_metadata_fails self1 w1 "level.dat" e Hprimary), Hcaught.
  exists w1. by split.
Qed.

End OpeningMore.

(** *** Players, revisions *)

Lemma append_cons (c : Ascii.ascii) (a b : string) :
  String c a +:+ b = String c (a +:+ b).
Proof. reflexivity. Qed.

Lemma length_append (a b : string) :
  String.length (a +:+ b) = (String.length a + String.length b)%nat.
Proof.
  induction a as [| c a IH]; [done |].
  rewrite append_cons. cbn [String.length]. by rewrite IH.
Qed.

Lemma substring_append_skip (a b : string) (k m : nat) :
  String.substring (String.length a + k) m (a +:+ b) = String.substring k m b.
Proof.
  induction a as [| c a IH]; [done |].
  rewrite append_cons. cbn [String.length String.substring Nat.add]. exact IH.
Qed.

Lemma substring_append_take (a b : string) :
  String.substring 0 (String.length a) (a +:+ b) = a.
Proof.
  induction a as [| c a IH]; [by destruct b |].
  rewrite append_cons. cbn [String.length String.substring]. by rewrite IH.
Qed.

(** The slice and the test of [listPlayers] undo the file name that
    [getPlayerTag] and [savePlayerTag] build. *)
Lemma slice_playerFilePath (playerUUID : string) :
  str.endswith (AnvilWorldAdapter.playerFilePath playerUUID) ".dat" = true /\
  str.slice 11 (-4) (AnvilWorldAdapter.playerFilePath playerUUID) = playerUUID.
Proof.
  unfold AnvilWorldAdapter.playerFilePath.
  assert (Hlen : String.length ("playerdata/" +:+ playerUUID +:+ ".dat")
                 = (11 + (String.length playerUUID + 4))%nat).
  { by rewrite !length_append. }
  split.
  - unfold str.endswith. rewrite Hlen.
    replace (11 + (String.length playerUUID + 4) - String.length ".dat")%nat
      with (String.length "playerdata/" + (String.length playerUUID + 0))%nat
      by (cbn; lia).
    rewrite !substring_append_skip. apply andb_true_iff. split; [by apply Nat.leb_le; cbn; lia |].
    reflexivity.
  - unfold str.slice, str.clip. rewrite Hlen.
    set (n := String.length playerUUID).
    assert ((11 <? 0) = false) as -> by done.
    assert ((-4 <? 0) = true) as -> by done.
    replace (Z.to_nat (Z.min 11 (Z.of_nat (11 + (n + 4))))) with (String.length "playerdata/" + 0)%nat
      by (cbn; lia).
    replace (Z.to_nat (Z.max 0 (Z.of_nat (11 + (n + 4)) + -4) - Z.min 11 (Z.of_nat (11 + (n + 4)))))
      with n by lia.
    rewrite substring_append_skip. apply substring_append_take.
Qed.

Section PlayersMore.

Context {History Node Changes : Type}.
Context `{!RevisionStore History Node Changes} `{!TagFormat}.
Context {Info : Type} `{!ChunkStore History Node Info}.

Implicit Types (self : AnvilWorldAdapter.t (Node := Node)).
Implicit Types (w : AnvilWorldAdapter.World (History := History)).

(** X22: [getPlayerTag], and with it [getPlayer], raises [PlayerNotFound]
    for the single player when the record has no [Player] entry, and for a
    named player when the revision holds no file of that name; nothing is
    changed. *)
Theorem getPlayerTag_not_found self w (playerUUID : string) :
  (playerUUID = "" /\
   exists m root,
     AnvilWorldAdapter.metadata self = Some m /\
     AnvilWorldMetadata.rootTag m = Ok root /\
     contains "Player" root = false) \/
  (playerUUID <> "" /\
   containsFile (AnvilWorldAdapter.history w) (AnvilWorldAdapter.selectedRevision self)
     (AnvilWorldAdapter.playerFilePath playerUUID) = false) ->
  AnvilWorldAdapter.getPlayerTag playerUUID (self, w) = (Raise PlayerNotFound, (self, w)) /\
  AnvilWorldAdapter.getPlayer playerUUID (self, w) = (Raise PlayerNotFound, (self, w)).
Proof.
  intros Hcase.
  assert (Htag : AnvilWorldAdapter.getPlayerTag playerUUID (self, w)
                 = (Raise PlayerNotFound, (self, w))).
  { unfold AnvilWorldAdapter.getPlayerTag.
    destruct Hcase as [(-> & m & root & Hm & Hroot & Hp) | [Hne Hfile]].
    - cbn [String.eqb].
      unfold mbind at 1, M_bind, AnvilWorldAdapter.self_metadata.
      unfold mbind at 1, M_bind, get. rewrite Hm. cbn [mret M_ret].
      unfold mbind at 1, M_bind, lift. rewrite Hroot. by rewrite Hp.
    - apply String.eqb_neq in Hne. rewrite Hne.
      unfold mbind at 1, M_bind, get. by rewrite Hfile. }
  split; [exact Htag |].
  unfold AnvilWorldAdapter.getPlayer, AnvilWorldAdapter.AnvilPlayerRef__init__.
  unfold mbind, M_bind. by rewrite Htag.
Qed.

(** X23: a named player saved by [savePlayerTag] is found again, provided
    the store hands back the file it was given and the tag library decodes
    what it encoded: [getPlayerTag] returns the tag, and [getPlayer] a
    reference that holds it and is not dirty. *)
Theorem saved_player_is_found self w (tag : compound) (playerUUID : string) (h' : History) :
  playerUUID <> "" ->
  writeFile (AnvilWorldAdapter.selectedRevision self)
    (AnvilWorldAdapter.playerFilePath playerUUID) (nbt_save tag)
    (AnvilWorldAdapter.history w) = (Ok tt, h') ->
  containsFile h' (AnvilWorldAdapter.selectedRevision self)
    (AnvilWorldAdapter.playerFilePath playerUUID) = true ->
  readFile h' (AnvilWorldAdapter.selectedRevision self)
    (AnvilWorldAdapter.playerFilePath playerUUID) = Ok (nbt_save tag) ->
  nbt_load (nbt_save tag) = Ok tag ->
  let st' := (self, AnvilWorldAdapter.set_history h' w) in
  AnvilWorldAdapter.savePlayerTag tag playerUUID (self, w) = (Ok tt, st') /\
  AnvilWorldAdapter.getPlayerTag playerUUID st' = (Ok tag, st') /\
  AnvilWorldAdapter.getPlayer playerUUID st'
  = (Ok (AnvilWorldAdapter.mk_player playerUUID (AnvilWorldAdapter.OwnTag tag) false), st').
Proof.
  intros Hne Hwrite Hcontains Hread Hload. cbn zeta.
  apply String.eqb_neq in Hne.
  assert (Htag : AnvilWorldAdapter.getPlayerTag playerUUID
                   (self, AnvilWorldAdapter.set_history h' w)
                 = (Ok tag, (self, AnvilWorldAdapter.set_history h' w))).
  { unfold AnvilWorldAdapter.getPlayerTag. rewrite Hne.
    unfold mbind at 1, M_bind, get.
    cbn [AnvilWorldAdapter.history AnvilWorldAdapter.set_history].
    rewrite Hcontains. unfold mbind at 1, M_bind, lift. rewrite Hread.
    by rewrite Hload. }
  split.
  - unfold AnvilWorldAdapter.savePlayerTag. rewrite Hne.
    unfold mbind at 1, M_bind, get. unfold AnvilWorldAdapter.on_store.
    by rewrite Hwrite.
  - split; [exact Htag |].
    unfold AnvilWorldAdapter.getPlayer, AnvilWorldAdapter.AnvilPlayerRef__init__.
    unfold mbind, M_bind. by rewrite Htag, Hne.
Qed.

(** Writing into the tag of the single player's reference is writing into
    the [Player] entry of the metadata. *)
Lemma setitem_ThePlayerEntry self w (m : AnvilWorldMetadata.t) (root p : compound)
    (name : string) (value : tag) (dirty : bool) :
  AnvilWorldAdapter.metadata self = Some m ->
  AnvilWorldMetadata.rootTag m = Ok root ->
  find "Player" root = Some (TAG_Compound p) ->
  AnvilWorldAdapter.AnvilPlayerRef_setitem name value
    (AnvilWorldAdapter.mk_player "" AnvilWorldAdapter.ThePlayerEntry dirty) (self, w)
  = (Ok (AnvilWorldAdapter.mk_player "" AnvilWorldAdapter.ThePlayerEntry dirty),
     (AnvilWorldAdapter.set_metadata
        (AnvilWorldMetadata.set_rootTag
           (setitem "Player" (TAG_Compound (setitem name value p)) root) m) self, w)).
Proof.
  intros Hm Hroot Hp. unfold AnvilWorldAdapter.AnvilPlayerRef_setitem.
  cbn [AnvilWorldAdapter.player_rootTag].
  unfold mbind at 1, M_bind, AnvilWorldAdapter.self_metadata.
  unfold mbind at 1, M_bind, get. rewrite Hm. cbn [mret M_ret].
  unfold mbind at 1, M_bind, lift. rewrite Hroot.
  unfold mbind at 1, M_bind, getitem. rewrite Hp.
  cbn [mbind result_bind compound_value]. reflexivity.
Qed.

Lemma rootTag_ThePlayerEntry self w (m : AnvilWorldMetadata.t) (root p : compound)
    (dirty : bool) :
  AnvilWorldAdapter.metadata self = Some m ->
  AnvilWorldMetadata.rootTag m = Ok root ->
  find "Player" root = Some (TAG_Compound p) ->
  AnvilWorldAdapter.AnvilPlayerRef_rootTag
    (AnvilWorldAdapter.mk_player "" AnvilWorldAdapter.ThePlayerEntry dirty) (self, w)
  = (Ok p, (self, w)).
Proof.
  intros Hm Hroot Hp. unfold AnvilWorldAdapter.AnvilPlayerRef_rootTag.
  cbn [AnvilWorldAdapter.player_rootTag].
  unfold mbind at 1, M_bind, AnvilWorldAdapter.self_metadata.
  unfold mbind at 1, M_bind, get. rewrite Hm. cbn [mret M_ret].
  unfold mbind at 1, M_bind, lift. rewrite Hroot.
  unfold getitem. by rewrite Hp.
Qed.

(** X24: the reference that [getPlayer] returns for the single player
    holds the [Player] entry of the metadata itself.  A spawn position set
    through the reference is in that entry at once, and the other entries of
    the record are as they were; neither the reference nor the metadata is
    marked dirty by it, and [save] on the unmarked reference does nothing.
    [save] on the reference once it is dirty calls nothing on the store: it
    marks the reference clean and the metadata dirty, and the next
    [syncToDisk] gives the store the record that holds the player's entry
    with the new spawn position. *)
Theorem single_player_save_is_deferred self w (m : AnvilWorldMetadata.t)
    (root p : compound) (x y z : Z) :
  AnvilWorldAdapter.metadata self = Some m ->
  AnvilWorldMetadata.rootTag m = Ok root ->
  find "Player" root = Some (TAG_Compound p) ->
  let player := AnvilWorldAdapter.mk_player "" AnvilWorldAdapter.ThePlayerEntry false in
  let p' := setitem "SpawnZ" (TAG_Int z)
              (setitem "SpawnY" (TAG_Int y) (setitem "SpawnX" (TAG_Int x) p)) in
  AnvilWorldAdapter.getPlayer "" (self, w) = (Ok player, (self, w)) /\
  exists m1 root1,
    let st1 := (AnvilWorldAdapter.set_metadata m1 self, w) in
    let m2 := AnvilWorldMetadata.mk (AnvilWorldMetadata.metadataTag m1) true in
    AnvilWorldAdapter.set_Spawn [x; y; z] player (self, w) = (Ok player, st1) /\
    AnvilWorldMetadata.dirty m1 = AnvilWorldMetadata.dirty m /\
    AnvilWorldMetadata.rootTag m1 = Ok root1 /\
    find "Player" root1 = Some (TAG_Compound p') /\
    (forall k, k <> "Player"%string -> find k root1 = find k root) /\
    AnvilWorldAdapter.Spawn player st1 = (Ok [x; y; z], st1) /\
    AnvilWorldAdapter.AnvilPlayerRef_save player st1 = (Ok player, st1) /\
    AnvilWorldAdapter.AnvilPlayerRef_save
      (AnvilWorldAdapter.mk_player "" AnvilWorldAdapter.ThePlayerEntry true) st1
    = (Ok player, (AnvilWorldAdapter.set_metadata m2 self, w)) /\
    forall h',
      writeFile (AnvilWorldAdapter.selectedRevision self) "level.dat"
        (nbt_save (AnvilWorldMetadata.metadataTag m1)) (AnvilWorldAdapter.history w)
      = (Ok tt, h') ->
      AnvilWorldAdapter.syncToDisk (AnvilWorldAdapter.set_metadata m2 self, w)
      = (Ok tt,
         (AnvilWorldAdapter.set_metadata
            (AnvilWorldMetadata.mk (AnvilWorldMetadata.metadataTag m1) false) self,
          AnvilWorldAdapter.set_history h' w)).
Proof.
  intros Hm Hroot Hp. cbn zeta. split.
  { unfold AnvilWorldAdapter.getPlayer, AnvilWorldAdapter.AnvilPlayerRef__init__.
    unfold mbind at 1, M_bind. unfold AnvilWorldAdapter.getPlayerTag. cbn [String.eqb].
    unfold mbind at 1, M_bind, AnvilWorldAdapter.self_metadata.
    unfold mbind at 1, M_bind, get. rewrite Hm. cbn [mret M_ret].
    unfold mbind at 1, M_bind, lift. rewrite Hroot.
    unfold contains, getitem. by rewrite Hp. }
  set (p1 := setitem "SpawnX" (TAG_Int x) p).
  set (p2 := setitem "SpawnY" (TAG_Int y) p1).
  set (p3 := setitem "SpawnZ" (TAG_Int z) p2).
  set (r1 := setitem "Player" (TAG_Compound p1) root).
  set (r2 := setitem "Player" (TAG_Compound p2) r1).
  set (r3 := setitem "Player" (TAG_Compound p3) r2).
  set (m1 := AnvilWorldMetadata.set_rootTag r1 m).
  set (m2 := AnvilWorldMetadata.set_rootTag r2 m1).
  set (m3 := AnvilWorldMetadata.set_rootTag r3 m2).
  assert (Hset : AnvilWorldAdapter.set_Spawn [x; y; z]
                   (AnvilWorldAdapter.mk_player "" AnvilWorldAdapter.ThePlayerEntry false)
                   (self, w)
                 = (Ok (AnvilWorldAdapter.mk_player "" AnvilWorldAdapter.ThePlayerEntry false),
                    (AnvilWorldAdapter.set_metadata m3 self, w))).
  { unfold AnvilWorldAdapter.set_Spawn. cbn [zip zip_with fold_left].
    unfold mbind at 1, M_bind. unfold mbind at 1, M_bind. unfold mbind at 1, M_bind.
    cbn [mret M_ret].
    rewrite (setitem_ThePlayerEntry self w m root p _ _ false Hm Hroot Hp).
    rewrite (setitem_ThePlayerEntry (AnvilWorldAdapter.set_metadata m1 self) w m1 r1 p1
               _ _ false eq_refl (rootTag_set_rootTag _ _) (find_setitem_eq _ _ _)).
    rewrite (setitem_ThePlayerEntry
               (AnvilWorldAdapter.set_metadata m2 (AnvilWorldAdapter.set_metadata m1 self))
               w m2 r2 p2 _ _ false eq_refl (rootTag_set_rootTag _ _)
               (find_setitem_eq _ _ _)).
    reflexivity. }
  assert (Hr3 : AnvilWorldMetadata.rootTag m3 = Ok r3) by apply rootTag_set_rootTag.
  assert (Hp3 : find "Player" r3 = Some (TAG_Compound p3)) by apply find_setitem_eq.
  exists m3, r3. cbn zeta.
  split; [exact Hset |]. split; [reflexivity |]. split; [exact Hr3 |].
  split; [exact Hp3 |].
  split.
  { intros k Hk. unfold r3, r2, r1. by rewrite !find_setitem_ne by done. }
  split.
  { unfold AnvilWorldAdapter.Spawn. unfold mbind at 1, M_bind.
    rewrite (rootTag_ThePlayerEntry (AnvilWorldAdapter.set_metadata m3 self) w m3 r3 p3
               false eq_refl Hr3 Hp3).
    unfold p3, p2, p1, getitem, mbind, M_bind, lift. find_key. reflexivity. }
  split; [reflexivity |].
  split.
  { unfold AnvilWorldAdapter.AnvilPlayerRef_save.
    cbn [AnvilWorldAdapter.player_dirty AnvilWorldAdapter.playerUUID
           AnvilWorldAdapter.player_rootTag].
    unfold mbind at 1, M_bind.
    rewrite (rootTag_ThePlayerEntry (AnvilWorldAdapter.set_metadata m3 self) w m3 r3 p3
               true eq_refl Hr3 Hp3).
    unfold AnvilWorldAdapter.savePlayerTag. cbn [String.eqb].
    unfold mbind at 1, M_bind.
    unfold mbind at 1, M_bind, AnvilWorldAdapter.self_metadata.
    unfold mbind at 1, M_bind, get.
    cbn [AnvilWorldAdapter.metadata AnvilWorldAdapter.set_metadata mret M_ret modify].
    reflexivity. }
  intros h' Hwrite.
  apply (syncToDisk_dirty
           (AnvilWorldAdapter.set_metadata
              (AnvilWorldMetadata.mk (AnvilWorldMetadata.metadataTag m3) true) self)
           w (AnvilWorldMetadata.mk (AnvilWorldMetadata.metadataTag m3) true)
           (Ok tt) h'); [reflexivity | reflexivity | exact Hwrite].
Qed.

(** X25: when the [playerdata] folder lists the files of the players
    [ids], as [savePlayerTag] names them, and besides them only files whose
    names do not end in [.dat], [listPlayers] yields exactly [ids], in the
    order of the listing, followed by the empty name when the record has a
    [Player] entry. *)
Theorem listPlayers_inverts_playerFilePath self w (ids others : list string)
    (m : AnvilWorldMetadata.t) (root : compound) :
  listFolder (AnvilWorldAdapter.history w) (AnvilWorldAdapter.selectedRevision self)
    "playerdata" = map AnvilWorldAdapter.playerFilePath ids ++ others ->
  Forall (fun f => str.endswith f ".dat" = false) others ->
  AnvilWorldAdapter.metadata self = Some m ->
  AnvilWorldMetadata.rootTag m = Ok root ->
  AnvilWorldAdapter.listPlayers (self, w)
  = (Ok (ids ++ if contains "Player" root then [""] else []), (self, w)).
Proof.
  intros Hfiles Hothers Hm Hroot. unfold AnvilWorldAdapter.listPlayers.
  unfold mbind at 1, M_bind, get. rewrite Hfiles.
  unfold mbind at 1, M_bind, AnvilWorldAdapter.self_metadata.
  unfold mbind at 1, M_bind, get. rewrite Hm. cbn [mret M_ret].
  unfold mbind at 1, M_bind, lift. rewrite Hroot.
  rewrite List.filter_app, map_app.
  assert (List.filter (fun f => str.endswith f ".dat") others = []) as ->.
  { clear Hfiles. induction Hothers as [| f l Hf Hl IH]; cbn [List.filter]; [done |].
    rewrite Hf. exact IH. }
  cbn [map]. rewrite app_nil_r.
  assert (map (str.slice 11 (-4))
            (List.filter (fun f => str.endswith f ".dat")
               (map AnvilWorldAdapter.playerFilePath ids)) = ids) as ->; [| done].
  clear Hfiles. induction ids as [| u ids IH]; cbn [map List.filter]; [done |].
  destruct (slice_playerFilePath u) as [-> Hs]. cbn [map]. by rewrite Hs, IH.
Qed.

(** X26: [listRevisions] yields one pair for each revision, numbered from
    0 in the order of the history, and changes nothing; the numbers it
    yields are exactly the indices for which [selectRevision] returns changes
    and not [None]. *)
Theorem listRevisions_lists_what_selectRevision_accepts self w :
  exists l,
    AnvilWorldAdapter.listRevisions (self, w) = (Ok l, (self, w)) /\
    length l = length (nodes (AnvilWorldAdapter.history w)) /\
    (forall (k : nat) p, l !! k = Some p -> p.1 = Z.of_nat k) /\
    forall index,
      (exists info, (index, info) ∈ l) <->
      (exists changes self',
         AnvilWorldAdapter.selectRevision index (self, w) = (Ok (Some changes), (self', w))).
Proof.
  eexists. split; [reflexivity |]. split; [apply length_imap |]. split.
  { intros k p. rewrite list_lookup_imap.
    destruct (nodes (AnvilWorldAdapter.history w) !! k); [| done]. by intros [= <-]. }
  intros index. split.
  - intros [info Hin]. apply elem_of_lookup_imap_1 in Hin as (k & node & [= -> ->] & Hk).
    apply lookup_lt_Some in Hk.
    rewrite (selectRevision_in_range self w (Z.of_nat k)) by lia. by eexists _, _.
  - intros (changes & self' & Hsel). unfold AnvilWorldAdapter.selectRevision in Hsel.
    unfold mbind at 1, M_bind, get in Hsel.
    destruct (_ || _) eqn:E; [done |]. apply orb_false_iff in E as [Hlo Hhi].
    destruct (lookup_lt_is_Some_2 (nodes (AnvilWorldAdapter.history w)) (Z.to_nat index))
      as [node Hnode]; [lia |].
    exists (getRevisionInfo (AnvilWorldAdapter.history w) node).
    replace index with (Z.of_nat (Z.to_nat index)) at 1 by lia.
    by apply (elem_of_lookup_imap_2
                (fun ID node => (Z.of_nat ID, getRevisionInfo (AnvilWorldAdapter.history w) node))).
Qed.

End PlayersMore.

(** *** Chunks in the store *)

Lemma __init___create (cx cz : Z) (dimName : string) :
  exists chunk tag,
    AnvilChunkData.__init__ cx cz dimName None true = Ok chunk /\
    AnvilChunkData.cx chunk = cx /\ AnvilChunkData.cz chunk = cz /\
    AnvilChunkData.dimName chunk = dimName /\
    AnvilChunkData._sections chunk = ∅ /\
    AnvilChunkData.dirty chunk = true /\
    AnvilChunkData.buildNBTTag chunk = (Ok tag, chunk) /\
    saved_sections tag = Some [].
Proof.
  eexists _, _. split; [reflexivity |].
  cbn [AnvilChunkData.cx AnvilChunkData.cz AnvilChunkData.dimName
         AnvilChunkData._sections AnvilChunkData.dirty].
  do 5 (split; [reflexivity |]).
  unfold AnvilChunkData.buildNBTTag.
  unfold mbind at 1, M_bind, get. cbn [AnvilChunkData._sections].
  rewrite map_to_list_empty. cbn [AnvilChunkData.build_sections].
  split; reflexivity.
Qed.

(** [buildNBTTag] leaves the chunk where it is. *)
Lemma build_sections_position (items : list (Z * AnvilSection.t)) :
  forall (acc : list tag) (c : AnvilChunkData.t),
  let c' := (AnvilChunkData.build_sections items acc c).2 in
  AnvilChunkData.cx c' = AnvilChunkData.cx c /\
  AnvilChunkData.cz c' = AnvilChunkData.cz c /\
  AnvilChunkData.dimName c' = AnvilChunkData.dimName c.
Proof.
  induction items as [| [cy s] items IH]; intros acc c; [done |].
  cbn [AnvilChunkData.build_sections].
  destruct (AnvilChunkData.elided s); [apply IH |].
  unfold mbind at 1, M_bind, lift.
  destruct (AnvilSection.buildNBTTag s) as [[t s'] | e]; [| done].
  unfold mbind at 1, M_bind, modify.
  apply (IH (acc ++ [TAG_Compound t])
            (AnvilChunkData.set_sections (insert cy s') c)).
Qed.

Lemma buildNBTTag_position (c c' : AnvilChunkData.t) (r : result compound) :
  AnvilChunkData.buildNBTTag c = (r, c') ->
  AnvilChunkData.cx c' = AnvilChunkData.cx c /\
  AnvilChunkData.cz c' = AnvilChunkData.cz c /\
  AnvilChunkData.dimName c' = AnvilChunkData.dimName c.
Proof.
  unfold AnvilChunkData.buildNBTTag.
  unfold mbind at 1, M_bind, get. unfold mbind at 1, M_bind.
  pose proof (build_sections_position (map_to_list (AnvilChunkData._sections c)) [] c)
    as Hpos. cbn zeta in Hpos.
  destruct (AnvilChunkData.build_sections _ [] c) as [[secs | e] c1];
    cbn [snd] in Hpos; [| by intros [= _ <-]].
  unfold mbind at 1, M_bind, get. unfold mbind at 1, M_bind, lift.
  destruct (getitem "Level" (AnvilChunkData.rootTag c) ≫= compound_value);
    by intros [= _ <-].
Qed.

Section Chunks.

Context {History Node Changes : Type}.
Context `{!RevisionStore History Node Changes} `{!TagFormat}.
Context {Info : Type} `{!ChunkStore History Node Info} `{!ChunkFormat}.

Implicit Types (self : AnvilWorldAdapter.t (Node := Node)).
Implicit Types (w : AnvilWorldAdapter.World (History := History)).

(** X27: [createChunk] at a position where the revision has a chunk raises
    [ValueError] and calls nothing that writes.  Elsewhere it gives the store
    the tag of a new chunk, whose [Sections] list is empty, and returns that
    chunk: at the position asked for, without sections, marked dirty; if the
    store raises, so does [createChunk]. *)
Theorem createChunk_writes_an_empty_chunk self w (cx cz : Z) (dimName : string) :
  exists chunk tag,
    AnvilChunkData.__init__ cx cz dimName None true = Ok chunk /\
    AnvilChunkData.buildNBTTag chunk = (Ok tag, chunk) /\
    saved_sections tag = Some [] /\
    AnvilChunkData._sections chunk = ∅ /\
    AnvilChunkData.dirty chunk = true /\
    (containsChunk (AnvilWorldAdapter.history w) (AnvilWorldAdapter.selectedRevision self)
       cx cz dimName = true ->
     AnvilWorldAdapter.createChunk cx cz dimName (self, w) = (Raise ValueError, (self, w))) /\
    (containsChunk (AnvilWorldAdapter.history w) (AnvilWorldAdapter.selectedRevision self)
       cx cz dimName = false ->
     forall r h',
       writeChunkBytes (AnvilWorldAdapter.selectedRevision self) cx cz dimName
         (nbt_save_uncompressed tag) (AnvilWorldAdapter.history w) = (r, h') ->
       AnvilWorldAdapter.createChunk cx cz dimName (self, w)
       = (match r with Ok _ => Ok chunk | Raise e => Raise e end,
          (self, AnvilWorldAdapter.set_history h' w))).
Proof.
  destruct (__init___create cx cz dimName)
    as (chunk & tag & Hinit & _ & _ & _ & Hsec & Hdirty & Hbuild & Hsaved).
  exists chunk, tag. do 5 (split; [done |]).
  unfold AnvilWorldAdapter.createChunk. split.
  - intros Hc. unfold mbind at 1, M_bind, get. by rewrite Hc.
  - intros Hc r h' Hw. unfold mbind at 1, M_bind, get. rewrite Hc.
    unfold mbind at 1, M_bind, lift. rewrite Hinit, Hbuild.
    unfold mbind at 1, M_bind. unfold mbind at 1, M_bind.
    unfold AnvilWorldAdapter.on_store. rewrite Hw. by destruct r as [[] |].
Qed.

(** X28: [readChunk] raises neither [KeyError] nor [IndexError] nor
    [zlib.error]; and when it raises, adapter and store are as they were. *)
Theorem readChunk_wraps_format_errors self w (cx cz : Z) (dimName : string)
    (e : exn) st' :
  AnvilWorldAdapter.readChunk cx cz dimName (self, w) = (Raise e, st') ->
  e <> KeyError /\ e <> IndexError /\ e <> zlib_error /\ st' = (self, w).
Proof.
  unfold AnvilWorldAdapter.readChunk, try_except.
  unfold mbind at 1, M_bind, get. unfold mbind at 1, M_bind, lift.
  destruct (readChunkBytes _ _ cx cz dimName) as [data | e1].
  - unfold mbind at 1, M_bind.
    destruct (nbt_load data) as [tag | e2].
    + destruct (AnvilChunkData.__init__ cx cz dimName (Some tag) false) as [c | e3];
        [done |].
      destruct e3; intros [= <- <-]; done.
    + destruct e2; intros [= <- <-]; done.
  - destruct e1; intros [= <- <-]; done.
Qed.

(** What [readChunk] makes of a record that the store holds. *)
Lemma readChunk_decodes self w (cx cz : Z) (dimName : string) (buf : list byte)
    (record : compound) :
  readChunkBytes (AnvilWorldAdapter.history w) (AnvilWorldAdapter.selectedRevision self)
    cx cz dimName = Ok buf ->
  nbt_load buf = Ok record ->
  AnvilWorldAdapter.readChunk cx cz dimName (self, w)
  = (match AnvilChunkData.__init__ cx cz dimName (Some record) false with
     | Ok chunk => Ok chunk
     | Raise (KeyError | IndexError | zlib_error) => Raise AnvilChunkFormatError
     | Raise e => Raise e
     end, (self, w)).
Proof.
  intros Hread Hload. unfold AnvilWorldAdapter.readChunk, try_except.
  unfold mbind at 1, M_bind, get. unfold mbind at 1, M_bind, lift. rewrite Hread.
  unfold mbind at 1, M_bind. rewrite Hload.
  destruct (AnvilChunkData.__init__ cx cz dimName (Some record) false) as [c | e];
    [done |].
  by destruct e.
Qed.

(** X29: of a stored chunk whose first section has its [Y], a missing
    [Blocks] entry is reported as [AnvilChunkFormatError]; a [Blocks] array
    that does not have 4096 cells is not: the [ValueError] of the reshape
    leaves [readChunk] as it is. *)
Theorem readChunk_section_errors self w (cx cz : Z) (dimName : string) (buf : list byte)
    (record level sec : compound) (rest : list tag) (y : Z) :
  readChunkBytes (AnvilWorldAdapter.history w) (AnvilWorldAdapter.selectedRevision self)
    cx cz dimName = Ok buf ->
  nbt_load buf = Ok record ->
  find "Level" record = Some (TAG_Compound level) ->
  find "Sections" level = Some (TAG_List (TAG_Compound sec :: rest)) ->
  find "Y" sec = Some (TAG_Byte y) ->
  (find "Blocks" sec = None ->
   AnvilWorldAdapter.readChunk cx cz dimName (self, w)
   = (Raise AnvilChunkFormatError, (self, w))) /\
  (forall b, find "Blocks" sec = Some (TAG_Byte_Array b) ->
     length (flat b) <> 4096%nat ->
     AnvilWorldAdapter.readChunk cx cz dimName (self, w) = (Raise ValueError, (self, w))).
Proof.
  intros Hread Hload Hlevel Hsecs HY.
  rewrite (readChunk_decodes self w cx cz dimName buf record Hread Hload).
  assert (Hne : sec <> []) by (intros ->; done).
  assert (Hinit : forall e, AnvilSection._load sec = Raise e ->
            AnvilChunkData.__init__ cx cz dimName (Some record) false = Raise e).
  { intros e He. unfold AnvilChunkData.__init__, AnvilChunkData._load, getitem.
    rewrite Hlevel. cbn [mbind result_bind compound_value].
    unfold pop_default. rewrite Hsecs. cbn [mbind result_bind list_value].
    cbn [AnvilChunkData.load_sections mbind result_bind compound_value].
    unfold getitem. rewrite HY. cbn [mbind result_bind int_value].
    rewrite (__init___nonempty sec Hne), He. reflexivity. }
  split.
  - intros HB. rewrite (Hinit KeyError); [done |].
    unfold AnvilSection._load, pop. rewrite HY. cbn [mbind result_bind int_value].
    rewrite find_delitem_ne by done. by rewrite HB.
  - intros b HB Hlen. rewrite (Hinit ValueError); [done |].
    unfold AnvilSection._load, pop. rewrite HY. cbn [mbind result_bind int_value].
    rewrite find_delitem_ne by done. rewrite HB.
    cbn [mbind result_bind array_value]. unfold set_shape.
    cbn [astype flat]. rewrite length_map.
    change (size_of [16; 16; 16]%nat) with 4096%nat.
    apply Nat.eqb_neq in Hlen. by rewrite Hlen.
Qed.

(** X30: a chunk that [writeChunk] has written is read back by [readChunk]
    as what [AnvilChunkData.__init__] makes of the tag that the chunk's
    [buildNBTTag] returned, provided the store hands back the bytes it was
    given for that position and the tag library decodes what it encoded. *)
Theorem written_chunk_is_read_back self w (chunk chunk' r : AnvilChunkData.t)
    (tag : compound) (h' : History) :
  AnvilChunkData.buildNBTTag chunk = (Ok tag, chunk') ->
  writeChunkBytes (AnvilWorldAdapter.selectedRevision self) (AnvilChunkData.cx chunk)
    (AnvilChunkData.cz chunk) (AnvilChunkData.dimName chunk)
    (nbt_save_uncompressed tag) (AnvilWorldAdapter.history w) = (Ok tt, h') ->
  readChunkBytes h' (AnvilWorldAdapter.selectedRevision self) (AnvilChunkData.cx chunk)
    (AnvilChunkData.cz chunk) (AnvilChunkData.dimName chunk)
    = Ok (nbt_save_uncompressed tag) ->
  nbt_load (nbt_save_uncompressed tag) = Ok tag ->
  AnvilChunkData.__init__ (AnvilChunkData.cx chunk) (AnvilChunkData.cz chunk)
    (AnvilChunkData.dimName chunk) (Some tag) false = Ok r ->
  let st' := (self, AnvilWorldAdapter.set_history h' w) in
  AnvilWorldAdapter.writeChunk (chunk, (self, w)) = (Ok tt, (chunk', st')) /\
  AnvilWorldAdapter.readChunk (AnvilChunkData.cx chunk) (AnvilChunkData.cz chunk)
    (AnvilChunkData.dimName chunk) st' = (Ok r, st').
Proof.
  intros Hbuild Hwrite Hread Hload Hinit. cbn zeta. split.
  - unfold AnvilWorldAdapter.writeChunk. rewrite Hbuild.
    assert (Hcx : AnvilChunkData.cx chunk' = AnvilChunkData.cx chunk /\
                  AnvilChunkData.cz chunk' = AnvilChunkData.cz chunk /\
                  AnvilChunkData.dimName chunk' = AnvilChunkData.dimName chunk).
    { exact (buildNBTTag_position chunk chunk' _ Hbuild). }
    destruct Hcx as (-> & -> & ->).
    unfold AnvilWorldAdapter.on_store. cbn [fst]. by rewrite Hwrite.
  - rewrite (readChunk_decodes self (AnvilWorldAdapter.set_history h' w) _ _ _ _ tag Hread Hload).
    by rewrite Hinit.
Qed.

End Chunks.

(** *** The rest of the adapter at work *)

Example slice_run : str.slice 11 (-4) "playerdata/Steve.dat" = "Steve"%string.
Proof. reflexivity. Qed.

Example slice_short : str.slice 11 (-4) "short.dat" = ""%string.
Proof. reflexivity. Qed.

Example endswith_run :
  str.endswith "playerdata/Steve.dat" ".dat" = true /\ str.endswith "dat" ".dat" = false.
Proof. split; reflexivity. Qed.

Example listPlayers_run :
  AnvilWorldAdapter.listPlayers (shared_adapter, shared_world)
  = (Ok ["Steve"; "Alex"]%string, (shared_adapter, shared_world)).
Proof. reflexivity. Qed.

Example listRevisions_run :
  AnvilWorldAdapter.listRevisions (shared_adapter, shared_world)
  = (Ok [(0, "initial"); (1, "dug a tunnel"); (2, "built a tower")]%string,
     (shared_adapter, shared_world)).
Proof. reflexivity. Qed.

Example setWorldSpawnPosition_short :
  (AnvilWorldMetadata.setWorldSpawnPosition [7]
     (AnvilWorldMetadata.mk MemStore.sample_metadata false)
   ≫= AnvilWorldMetadata.rootTag)
  = Ok [("version", TAG_Int VERSION_ANVIL); ("LevelName", TAG_String "Backup");
        ("RandomSeed", TAG_Long 42); ("SpawnX", TAG_Int 7)].
Proof. reflexivity. Qed.

Example worldSpawnPosition_missing :
  AnvilWorldMetadata.worldSpawnPosition
    (AnvilWorldMetadata.mk MemStore.sample_metadata false) = Raise KeyError.
Proof. reflexivity. Qed.

Example createChunk_exists :
  AnvilWorldAdapter.createChunk (H0 := one_chunk_record [x0a]) 3 (-2) "DIM1"
    (shared_adapter, shared_world)
  = (Raise ValueError, (shared_adapter, shared_world)).
Proof. reflexivity. Qed.

Example readChunk_absent :
  AnvilWorldAdapter.readChunk (H := one_record [x0a] short_Blocks_record) 0 0 ""
    (shared_adapter, shared_world)
  = (Raise (OtherError "ChunkNotPresent"), (shared_adapter, shared_world)).
Proof. reflexivity. Qed.

Example readChunk_no_Level :
  AnvilWorldAdapter.readChunk (H := one_record [x0a] mcr_metadata) 3 (-2) "DIM1"
    (shared_adapter, shared_world)
  = (Raise AnvilChunkFormatError, (shared_adapter, shared_world)).
Proof. vm_compute. reflexivity. Qed.

(** *** More of the sample worlds *)

Lemma spawn_is_set_but_not_marked_witness :
  exists m' root',
    AnvilWorldMetadata.setWorldSpawnPosition [10; 64; -3]
      (AnvilWorldMetadata.mk MemStore.sample_metadata false) = Ok m' /\
    AnvilWorldMetadata.worldSpawnPosition m' = Ok (10, 64, -3) /\
    AnvilWorldMetadata.rootTag m' = Ok root' /\
    find "LevelName" root' = Some (TAG_String "Backup") /\
    AnvilWorldMetadata.dirty m' = false /\
    AnvilWorldAdapter.syncToDisk (AnvilWorldAdapter.set_metadata m' sample_adapter, sample_world)
    = (Ok tt, (AnvilWorldAdapter.set_metadata m' sample_adapter, sample_world)).
Proof.
  destruct (spawn_is_set_but_not_marked sample_adapter sample_world
              (AnvilWorldMetadata.mk MemStore.sample_metadata false)
              [("version", TAG_Int VERSION_ANVIL); ("LevelName", TAG_String "Backup");
               ("RandomSeed", TAG_Long 42)] 10 64 (-3) eq_refl eq_refl)
    as (m' & root' & Hset & Hget & Hroot & Hkeep & Hd & Hsync).
  exists m', root'. split; [exact Hset |]. split; [exact Hget |]. split; [exact Hroot |].
  split.
  { rewrite Hkeep; [reflexivity |]. rewrite !not_elem_of_cons.
    repeat split; try discriminate. apply not_elem_of_nil. }
  split; [exact Hd |]. exact (Hsync eq_refl).
Defined.

Lemma syncToDisk_writes_when_dirty_witness :
  let self := AnvilWorldAdapter.set_metadata
                (AnvilWorldMetadata.mk MemStore.sample_metadata true) sample_adapter in
  exists r' self' w',
    AnvilWorldAdapter.syncToDisk (self, sample_world) = (r', (self', w')) /\
    r' = Ok tt /\
    MemStore.files (AnvilWorldAdapter.history w')
    = [("level.dat", MemStore.sample_bytes); ("level.dat", MemStore.sample_bytes)] /\
    AnvilWorldAdapter.metadata self'
    = Some (AnvilWorldMetadata.mk MemStore.sample_metadata false) /\
    AnvilWorldAdapter.syncToDisk (self', w') = (Ok tt, (self', w')).
Proof.
  cbn zeta.
  destruct (syncToDisk_writes_when_dirty
              (AnvilWorldAdapter.set_metadata
                 (AnvilWorldMetadata.mk MemStore.sample_metadata true) sample_adapter)
              sample_world (AnvilWorldMetadata.mk MemStore.sample_metadata true)
              (Ok tt)
              (MemStore.mk [("level.dat", MemStore.sample_bytes);
                            ("level.dat", MemStore.sample_bytes)] 0))
    as (r' & self' & w' & Hsync & _ & Hdirty).
  - reflexivity.
  - reflexivity.
  - destruct (Hdirty eq_refl) as (Hr & Hh & _ & Hm & Hagain).
    exists r', self', w'. split; [exact Hsync |]. split; [exact Hr |].
    split; [by rewrite Hh |]. split; [exact Hm | exact Hagain].
Defined.

Lemma __init___rejects_witness :
  (exists e,
     AnvilWorldAdapter.__init__ "World" false false sample_env a_file = (Raise e, a_file) /\
     (e = AssertionError \/ exists msg, e = IOError msg)) /\
  (exists e,
     AnvilWorldAdapter.__init__ "World" true false sample_env damaged_world
     = (Raise e, damaged_world) /\
     (e = AssertionError \/ exists msg, e = IOError msg)).
Proof.
  split.
  - apply (__init___rejects a_file "World" false false sample_env).
    right. right. left. reflexivity.
  - apply (__init___rejects damaged_world "World" true false sample_env).
    right. right. right. by repeat split.
Defined.


Lemma unreadable_metadata_gets_defaults_witness :
  exists self w',
    AnvilWorldAdapter.__init__ "saves/World" false false sample_env ruined_world
    = (Ok self, w') /\
    AnvilWorldAdapter.filename self = "saves/World"%string /\
    AnvilWorldAdapter.metadata self
    = Some (AnvilWorldMetadata.mk (default_metadataTag "World" 1400000000001 7) true) /\
    AnvilWorldAdapter.history w' = AnvilWorldAdapter.history ruined_world.
Proof.
  destruct (unreadable_metadata_gets_defaults ruined_world "saves/World" false sample_env
              zlib_error zlib_error) as (self & w' & Hinit & Hfn & Hrest).
  - reflexivity.
  - cbn. lia.
  - reflexivity.
  - reflexivity.
  - reflexivity.
  - exists self, w'. split; [exact Hinit |]. split; [exact Hfn |].
    rewrite Hfn in Hrest. exact Hrest.
Defined.

Lemma other_version_is_refused_witness :
  VERSION_MCR <> VERSION_ANVIL /\
  exists w',
    AnvilWorldAdapter.__init__ (H := one_record [x0a] mcr_metadata)
      "World" false false sample_env one_byte_world = (Raise AssertionError, w') /\
    AnvilWorldAdapter.history w' = AnvilWorldAdapter.history one_byte_world /\
    exists packed, AnvilWorldAdapter.session_lock w' = Some packed /\
                   struct.unpack_q packed = Ok 1400000000000.
Proof.
  assert (Hv : VERSION_MCR <> VERSION_ANVIL) by (unfold VERSION_MCR, VERSION_ANVIL; lia).
  split; [exact Hv |].
  destruct (other_version_is_refused (H := one_record [x0a] mcr_metadata)
              one_byte_world "World" false sample_env [x0a] mcr_metadata VERSION_MCR)
    as (w' & Hinit & Hh & _ & Hlock).
  - reflexivity.
  - cbn. lia.
  - reflexivity.
  - reflexivity.
  - cbn. by eexists.
  - reflexivity.
  - exact Hv.
  - exists w'. split; [exact Hinit |]. split; [exact Hh |]. exact (Hlock eq_refl).
Defined.

Lemma other_errors_are_not_recovered_witness :
  exists w',
    AnvilWorldAdapter.__init__ (H := one_record [x0a] no_Data_record)
      "World" false false sample_env one_byte_world = (Raise KeyError, w') /\
    AnvilWorldAdapter.history w' = AnvilWorldAdapter.history one_byte_world.
Proof.
  refine (other_errors_are_not_recovered (H := one_record [x0a] no_Data_record)
            one_byte_world "World" false sample_env KeyError _ _ _ _).
  - reflexivity.
  - cbn. lia.
  - reflexivity.
  - reflexivity.
Defined.

Lemma getPlayerTag_not_found_witness :
  (AnvilWorldAdapter.getPlayerTag "Steve" (sample_adapter, sample_world)
   = (Raise PlayerNotFound, (sample_adapter, sample_world)) /\
   AnvilWorldAdapter.getPlayer "Steve" (sample_adapter, sample_world)
   = (Raise PlayerNotFound, (sample_adapter, sample_world))) /\
  (AnvilWorldAdapter.getPlayerTag "" (sample_adapter, sample_world)
   = (Raise PlayerNotFound, (sample_adapter, sample_world)) /\
   AnvilWorldAdapter.getPlayer "" (sample_adapter, sample_world)
   = (Raise PlayerNotFound, (sample_adapter, sample_world))).
Proof.
  split.
  - apply (getPlayerTag_not_found sample_adapter sample_world "Steve").
    right. split; [discriminate | reflexivity].
  - apply (getPlayerTag_not_found sample_adapter sample_world "").
    left. split; [reflexivity |]. eexists _, _. split; [reflexivity |].
    split; reflexivity.
Defined.

Lemma saved_player_is_found_witness :
  let st' := (sample_adapter,
              AnvilWorldAdapter.set_history
                (MemStore.mk [("playerdata/Steve.dat", MemStore.sample_bytes);
                              ("level.dat", MemStore.sample_bytes)] 0) sample_world) in
  AnvilWorldAdapter.savePlayerTag MemStore.sample_metadata "Steve" (sample_adapter, sample_world)
  = (Ok tt, st') /\
  AnvilWorldAdapter.getPlayerTag "Steve" st' = (Ok MemStore.sample_metadata, st') /\
  AnvilWorldAdapter.getPlayer "Steve" st'
  = (Ok (AnvilWorldAdapter.mk_player "Steve"
           (AnvilWorldAdapter.OwnTag MemStore.sample_metadata) false), st').
Proof.
  refine (saved_player_is_found sample_adapter sample_world MemStore.sample_metadata "Steve"
            (MemStore.mk [("playerdata/Steve.dat", MemStore.sample_bytes);
                          ("level.dat", MemStore.sample_bytes)] 0) _ _ _ _ _).
  - discriminate.
  - reflexivity.
  - reflexivity.
  - reflexivity.
  - reflexivity.
Defined.

Lemma single_player_save_is_deferred_witness :
  let player := AnvilWorldAdapter.mk_player "" AnvilWorldAdapter.ThePlayerEntry false in
  AnvilWorldAdapter.getPlayer "" (single_player_adapter, sample_world)
  = (Ok player, (single_player_adapter, sample_world)) /\
  exists m1 root1,
    let st1 := (AnvilWorldAdapter.set_metadata m1 single_player_adapter, sample_world) in
    let m2 := AnvilWorldMetadata.mk (AnvilWorldMetadata.metadataTag m1) true in
    AnvilWorldAdapter.set_Spawn [8; 70; -8] player (single_player_adapter, sample_world)
    = (Ok player, st1) /\
    AnvilWorldMetadata.dirty m1 = false /\
    AnvilWorldMetadata.rootTag m1 = Ok root1 /\
    find "Player" root1
    = Some (TAG_Compound [("Score", TAG_Int 5); ("SpawnX", TAG_Int 8);
                          ("SpawnY", TAG_Int 70); ("SpawnZ", TAG_Int (-8))]) /\
    AnvilWorldAdapter.Spawn player st1 = (Ok [8; 70; -8], st1) /\
    AnvilWorldAdapter.AnvilPlayerRef_save player st1 = (Ok player, st1) /\
    AnvilWorldAdapter.AnvilPlayerRef_save
      (AnvilWorldAdapter.mk_player "" AnvilWorldAdapter.ThePlayerEntry true) st1
    = (Ok player, (AnvilWorldAdapter.set_metadata m2 single_player_adapter, sample_world)) /\
    AnvilWorldAdapter.syncToDisk
      (AnvilWorldAdapter.set_metadata m2 single_player_adapter, sample_world)
    = (Ok tt,
       (AnvilWorldAdapter.set_metadata
          (AnvilWorldMetadata.mk (AnvilWorldMetadata.metadataTag m1) false)
          single_player_adapter,
        AnvilWorldAdapter.set_history
          (MemStore.mk [("level.dat", MemStore.sample_bytes);
                        ("level.dat", MemStore.sample_bytes)] 0) sample_world)).
Proof.
  cbn zeta.
  destruct (single_player_save_is_deferred single_player_adapter sample_world
              (AnvilWorldMetadata.mk single_player_metadata false)
              [("version", TAG_Int VERSION_ANVIL);
               ("Player", TAG_Compound [("Score", TAG_Int 5)])]
              [("Score", TAG_Int 5)] 8 70 (-8))
    as (Hget & m1 & root1 & Hset & Hd & Hroot & Hp & _ & Hspawn & Hclean & Hsave & Hsync).
  - reflexivity.
  - reflexivity.
  - reflexivity.
  - split; [exact Hget |]. exists m1, root1.
    do 7 (split; [assumption |]).
    apply Hsync. reflexivity.
Defined.

Lemma listPlayers_inverts_playerFilePath_witness :
  AnvilWorldAdapter.listPlayers (shared_adapter, shared_world)
  = (Ok (["Steve"; "Alex"]%string
         ++ if contains "Player"
                 [("version", TAG_Int VERSION_ANVIL); ("LevelName", TAG_String "Backup");
                  ("RandomSeed", TAG_Long 42)]
            then [""%string] else []),
     (shared_adapter, shared_world)).
Proof.
  refine (listPlayers_inverts_playerFilePath shared_adapter shared_world
            ["Steve"; "Alex"]%string ["playerdata/notes.txt"]%string
            (AnvilWorldMetadata.mk MemStore.sample_metadata false)
            [("version", TAG_Int VERSION_ANVIL); ("LevelName", TAG_String "Backup");
             ("RandomSeed", TAG_Long 42)] _ _ _ _).
  - reflexivity.
  - repeat constructor.
  - reflexivity.
  - reflexivity.
Defined.

Lemma readChunk_wraps_format_errors_witness :
  AnvilWorldAdapter.readChunk (H := one_record [x0a] mcr_metadata) 3 (-2) "DIM1"
    (shared_adapter, shared_world)
  = (Raise AnvilChunkFormatError, (shared_adapter, shared_world)) /\
  AnvilChunkFormatError <> KeyError /\ AnvilChunkFormatError <> IndexError /\
  AnvilChunkFormatError <> zlib_error.
Proof.
  assert (Hread : AnvilWorldAdapter.readChunk (H := one_record [x0a] mcr_metadata)
                    3 (-2) "DIM1" (shared_adapter, shared_world)
                  = (Raise AnvilChunkFormatError, (shared_adapter, shared_world)))
    by (vm_compute; reflexivity).
  split; [exact Hread |].
  destruct (readChunk_wraps_format_errors (H := one_record [x0a] mcr_metadata)
              shared_adapter shared_world 3 (-2) "DIM1" _ _ Hread) as (? & ? & ? & _).
  by repeat split.
Defined.

Lemma readChunk_section_errors_witness :
  AnvilWorldAdapter.readChunk (H := one_record [x0a] short_Blocks_record) 3 (-2) "DIM1"
    (shared_adapter, shared_world)
  = (Raise ValueError, (shared_adapter, shared_world)).
Proof.
  destruct (readChunk_section_errors (H := one_record [x0a] short_Blocks_record)
              shared_adapter shared_world 3 (-2) "DIM1" [x0a] short_Blocks_record
              short_Blocks_level short_Blocks_section [] 3) as [_ Hshort].
  - reflexivity.
  - reflexivity.
  - reflexivity.
  - reflexivity.
  - reflexivity.
  - apply (Hshort (mk_ndarray uint8 [16]%nat (replicate 16 1))).
    + reflexivity.
    + vm_compute. lia.
Defined.

Lemma written_chunk_is_read_back_witness :
  exists chunk' r h',
    let st' := (shared_adapter, AnvilWorldAdapter.set_history h' shared_world) in
    AnvilWorldAdapter.writeChunk (H0 := one_chunk_record [x0b])
      (sample_chunk, (shared_adapter, shared_world)) = (Ok tt, (chunk', st')) /\
    AnvilWorldAdapter.readChunk (H := one_record [x0b] sample_chunk_tag) 0 0 "" st'
    = (Ok r, st') /\
    is_Some (AnvilChunkData._sections r !! 1).
Proof.
  destruct (AnvilChunkData.buildNBTTag sample_chunk) as [[tag | e] chunk'] eqn:Hbuild;
    [| by vm_compute in Hbuild].
  assert (Htag : tag = sample_chunk_tag).
  { unfold sample_chunk_tag. by rewrite Hbuild. }
  destruct (AnvilChunkData.__init__ 0 0 "" (Some tag) false) as [r | e] eqn:Hinit;
    [| subst tag; by vm_compute in Hinit].
  exists chunk', r,
    (MemWorld.mk (MemWorld.files (AnvilWorldAdapter.history shared_world))
       [(0, 0, ""%string, [x0b]); (3, -2, "DIM1"%string, [x0a])]
       (MemWorld.infos (AnvilWorldAdapter.history shared_world))).
  cbn zeta.
  destruct (written_chunk_is_read_back (H := one_record [x0b] sample_chunk_tag)
              (H0 := one_chunk_record [x0b])
              shared_adapter shared_world sample_chunk chunk' r tag
              (MemWorld.mk (MemWorld.files (AnvilWorldAdapter.history shared_world))
                 [(0, 0, ""%string, [x0b]); (3, -2, "DIM1"%string, [x0a])]
                 (MemWorld.infos (AnvilWorldAdapter.history shared_world)))
              Hbuild) as [Hw Hr].
  - reflexivity.
  - reflexivity.
  - cbn. by rewrite Htag.
  - exact Hinit.
  - split; [exact Hw |]. split; [exact Hr |].
    subst tag. vm_compute in Hinit. injection Hinit as <-. by eexists.
Defined.


Section OpeningReadOnly.

Context {History Node Changes : Type}.
Context `{!RevisionStore History Node Changes} `{!TagFormat}.

Implicit Types (self : AnvilWorldAdapter.t (Node := Node)).
Implicit Types (w : AnvilWorldAdapter.World (History := History)).

(** X6: a world opened read-only whose [level.dat] cannot be read or
    decompressed does not keep the record of its [level.dat_old], however
    good that record is: once it is loaded, [saveChanges] raises [IOError]
    for the read-only adapter inside the [try] block, the [except] clause
    meant for a bad backup runs, and the metadata is the synthesized default,
    named after the folder and marked dirty.  The world is left as it was. *)
Theorem readonly_open_discards_backup w (filename : string)
    (env : AnvilWorldAdapter.Env) (e : exn) (buf : list byte) (backup : compound) :
  AnvilWorldAdapter.path w = AnvilWorldAdapter.IsDir ->
  (readFile (AnvilWorldAdapter.history w) (getHead (AnvilWorldAdapter.history w)) "level.dat"
     ≫= nbt_load) ≫= AnvilWorldMetadata.__init__ = Raise e ->
  is_EnvironmentError e || is_zlib_error e = true ->
  readFile (AnvilWorldAdapter.history w) (getHead (AnvilWorldAdapter.history w))
    "level.dat_old" = Ok buf ->
  nbt_load buf = Ok backup ->
  is_Some (find "Data" backup) ->
  exists self,
    AnvilWorldAdapter.__init__ filename false true env w = (Ok self, w) /\
    AnvilWorldAdapter.readonly self = true /\
    AnvilWorldAdapter.filename self = AnvilWorldAdapter.resolve filename /\
    AnvilWorldAdapter.metadata self
    = Some (AnvilWorldMetadata.mk
              (default_metadataTag (os_path.basename (AnvilWorldAdapter.filename self))
                 (AnvilWorldAdapter.last_played env)
                 (AnvilWorldAdapter.random_seed env)) true).
Proof.
  intros Hdir Hprimary Hcaught Hread Hload Hdata.
  rewrite (__init___open w filename true env Hdir). cbn [negb].
  set (self0 := AnvilWorldAdapter.mk (AnvilWorldAdapter.resolve filename) true 0
                  (getHead (AnvilWorldAdapter.history w)) None).
  unfold mbind at 1, M_bind. cbn [mret M_ret].
  unfold mbind at 1, M_bind. unfold try_except at 1.
  rewrite (load_metadata_fails self0 w "level.dat" e Hprimary), Hcaught.
  unfold try_except at 1. unfold mbind at 1, M_bind.
  rewrite (load_metadata_ok self0 w "level.dat_old" buf backup Hread Hload Hdata).
  unfold AnvilWorldAdapter.saveChanges at 1.
  unfold mbind at 1, M_bind, get.
  cbn [AnvilWorldAdapter.readonly AnvilWorldAdapter.set_metadata self0 raise].
  rewrite _createMetadataTag_eq.
  unfold mbind at 1, M_bind, AnvilWorldAdapter.self_metadata.
  unfold mbind at 1, M_bind, get.
  cbn [AnvilWorldAdapter.metadata AnvilWorldAdapter.set_metadata mret M_ret].
  unfold mbind at 1, M_bind, lift.
  cbn [AnvilWorldAdapter.metadata mret M_ret].
  eexists. split; [reflexivity |]. by repeat split.
Qed.

End OpeningReadOnly.

Lemma readonly_open_discards_backup_witness :
  readFile (AnvilWorldAdapter.history damaged_world) tt "level.dat_old" ≫= nbt_load
  = Ok MemStore.sample_metadata /\
  exists self,
    AnvilWorldAdapter.__init__ "saves/World/level.dat" false true sample_env damaged_world
    = (Ok self, damaged_world) /\
    AnvilWorldAdapter.readonly self = true /\
    AnvilWorldAdapter.filename self = "saves/World"%string /\
    AnvilWorldAdapter.metadata self
    = Some (AnvilWorldMetadata.mk (default_metadataTag "World" 1400000000001 7) true).
Proof.
  split; [reflexivity |].
  destruct (readonly_open_discards_backup damaged_world "saves/World/level.dat" sample_env
              zlib_error MemStore.sample_bytes MemStore.sample_metadata)
    as (self & Hinit & Hro & Hfn & Hm).
  - reflexivity.
  - reflexivity.
  - reflexivity.
  - reflexivity.
  - reflexivity.
  - cbn. by eexists.
  - exists self. split; [exact Hinit |]. split; [exact Hro |]. split; [exact Hfn |].
    rewrite Hfn in Hm. exact Hm.
Defined.

Example basename_run :
  os_path.basename "saves/World" = "World"%string /\
  os_path.basename "World" = "World"%string /\
  os_path.basename "saves/World/" = ""%string /\
  os_path.dirname "saves/World/level.dat" = "saves/World"%string /\
  os_path.dirname "level.dat" = ""%string /\
  os_path.dirname "/level.dat" = "/"%string /\
  os_path.dirname "a//level.dat" = "a"%string.
Proof. repeat split; reflexivity. Qed.

Example resolve_run :
  AnvilWorldAdapter.resolve "saves/World/level.dat_old" = "saves/World"%string /\
  AnvilWorldAdapter.resolve "saves/World" = "saves/World"%string.
Proof. split; reflexivity. Qed.
